(** * Disk-space estimators [pacsize.py] and [pacremove.py]

    A shallow embedding of the two scripts together with the properties
    their specification states about them.

    Modelling conventions.
    - Text is a [string]; the characters stand for 7-bit ASCII code points,
      which is what the package manager emits under [LC_ALL=C].  The
      character classes below (white space, line boundaries, digits) are
      Python's, restricted to that range.
    - A Python [int] is a [Z]; a Python [float] is an IEEE 754 binary64
      value, modelled exactly (module [B64]): every arithmetic operation
      returns the exact result rounded to nearest, ties to even.
    - [int(text)] follows CPython with its default settings: a text of
      more than 4300 digits is refused with [ValueError]
      ([sys.int_max_str_digits]).
    - [sorted] is the stable sort.  On sizes without a NaN the order it
      returns is fixed by that alone, and [Pacsize.sorted_desc] is that
      order.  With a NaN among the sizes the comparisons are not an
      order and the result of [sorted] depends on the steps of the
      interpreter's merge sort, which are not modelled: a statement
      about the order of the rows assumes that no size is a NaN.
    - An exception is a value of [exn]; code that may raise returns a
      [result].
    - [print] and [subprocess.run] are events of a trace; which commands
      exist and what they answer is read from a [world]. *)

From Stdlib Require Import ZArith List String Ascii Bool Lia QArith Qabs Qpower.
From Stdlib Require Import Permutation Sorted.
From Corelib Require Import SpecFloat.
Import ListNotations.

Local Open Scope string_scope.
Local Open Scope Z_scope.

(** ** Exceptions *)

Inductive exn : Type :=
| ValueError
| OverflowError
| ZeroDivisionError
| KeyError
| FileNotFoundError
| SystemExit (code : Z).

Inductive result (A : Type) : Type :=
| Ok (a : A)
| Raise (e : exn).

Arguments Ok {A} a.
Arguments Raise {A} e.

Definition rbind {A B : Type} (r : result A) (k : A -> result B) : result B :=
  match r with
  | Ok a => k a
  | Raise e => Raise e
  end.

Notation "'let?' x ':=' r 'in' k" := (rbind r (fun x => k))
  (at level 10, x pattern, r at level 100, k at level 200).

(** ** Python's [str] methods used by the scripts *)

Module Str.

Definition code (c : ascii) : N := N_of_ascii c.

(** [str.isspace] on one character: TAB, LF, VT, FF, CR, FS, GS, RS, US,
    space. *)
Definition is_space (c : ascii) : bool :=
  let n := code c in
  (((9 <=? n) && (n <=? 13)) || ((28 <=? n) && (n <=? 32)))%N.

(** The line boundaries of [str.splitlines]: LF, VT, FF, CR, FS, GS, RS. *)
Definition is_linebreak (c : ascii) : bool :=
  let n := code c in
  (((10 <=? n) && (n <=? 13)) || ((28 <=? n) && (n <=? 30)))%N.

Definition is_digit (c : ascii) : bool :=
  let n := code c in ((48 <=? n) && (n <=? 57))%N.

Definition digit_val (c : ascii) : Z := Z.of_N (code c) - 48.

Definition digit_char (d : Z) : ascii := ascii_of_N (Z.to_N (d + 48)).

Definition is_empty (s : string) : bool :=
  match s with
  | EmptyString => true
  | String _ _ => false
  end.

Fixpoint all_chars (p : ascii -> bool) (s : string) : bool :=
  match s with
  | EmptyString => true
  | String c r => p c && all_chars p r
  end.

(** [s.isdigit()]: at least one character, all of them digits. *)
Definition isdigit (s : string) : bool :=
  negb (is_empty s) && all_chars is_digit s.

Fixpoint lstrip (s : string) : string :=
  match s with
  | EmptyString => EmptyString
  | String c r => if is_space c then lstrip r else s
  end.

Fixpoint rstrip (s : string) : string :=
  match s with
  | EmptyString => EmptyString
  | String c r =>
      let r' := rstrip r in
      if is_space c && is_empty r' then EmptyString else String c r'
  end.

(** [s.strip()] *)
Definition strip (s : string) : string := rstrip (lstrip s).

(** [s.startswith(p)] *)
Fixpoint startswith (p s : string) : bool :=
  match p, s with
  | EmptyString, _ => true
  | String a p', String b s' => Ascii.eqb a b && startswith p' s'
  | String _ _, EmptyString => false
  end.

Definition head_is (p : ascii -> bool) (s : string) : bool :=
  match s with
  | EmptyString => false
  | String c _ => p c
  end.

(** [s.split()]: the maximal runs of characters that are not white
    space. *)
Fixpoint split (s : string) : list string :=
  match s with
  | EmptyString => []
  | String c r =>
      if is_space c then split r
      else if is_empty r || head_is is_space r then String c EmptyString :: split r
      else match split r with
           | w :: ws => String c w :: ws
           | [] => [String c EmptyString]
           end
  end.

(** [s.split(sep, 1)] for a one-character separator: [[s]] when [sep]
    does not occur, else the text before and the text after its first
    occurrence. *)
Fixpoint split1 (sep : ascii) (s : string) : list string :=
  match s with
  | EmptyString => [EmptyString]
  | String c r =>
      if Ascii.eqb c sep then [EmptyString; r]
      else match split1 sep r with
           | a :: rest => String c a :: rest
           | [] => [String c EmptyString]
           end
  end.

(** [s.splitlines()]: CR LF counts as one boundary, and a final boundary
    opens no further line. *)
Fixpoint splitlines (s : string) : list string :=
  match s with
  | EmptyString => []
  | String c r =>
      if is_linebreak c then
        match r with
        | String c' r' =>
            if Ascii.eqb c "013" && Ascii.eqb c' "010"
            then EmptyString :: splitlines r'
            else EmptyString :: splitlines r
        | EmptyString => [EmptyString]
        end
      else match splitlines r with
           | l :: ls => String c l :: ls
           | [] => [String c EmptyString]
           end
  end.

(** [s.ljust(n)], the padding of the format specification [:<n]. *)
Fixpoint spaces (n : nat) : string :=
  match n with
  | O => EmptyString
  | S k => String " " (spaces k)
  end.

Definition ljust (n : nat) (s : string) : string :=
  (s ++ spaces (n - String.length s))%string.

(** [c * n] for a one-character string. *)
Fixpoint repeat_char (c : ascii) (n : nat) : string :=
  match n with
  | O => EmptyString
  | S k => String c (repeat_char c k)
  end.

(** Decimal digits of a non-negative integer, least significant first. *)
Fixpoint le_digits (fuel : nat) (n : Z) : list Z :=
  match fuel with
  | O => []
  | S f => if n <? 10 then [n] else (n mod 10) :: le_digits f (n / 10)
  end.

Fixpoint of_chars (l : list ascii) : string :=
  match l with
  | [] => EmptyString
  | c :: r => String c (of_chars r)
  end.

(** [str(n)] for [n >= 0]. *)
Definition of_Z (n : Z) : string :=
  of_chars (map digit_char (rev (le_digits (S (Z.to_nat (Z.log2 n))) n))).

(** The value of a sequence of decimal digits, most significant first. *)
Definition digits_value (ds : list ascii) : Z :=
  fold_left (fun v c => 10 * v + digit_val c) ds 0.

(** The grammar [digitpart ::= digit (["_"] digit)*] of numeric literals:
    the digits read and the rest of the input. *)
Fixpoint digitpart (s : string) : option (list ascii * string) :=
  match s with
  | EmptyString => None
  | String c r =>
      if is_digit c then
        let continue (t : option (list ascii * string)) :=
          match t with
          | Some (ds, rest) => Some (c :: ds, rest)
          | None => Some ([c], r)
          end in
        match r with
        | String "_" r' => continue (digitpart r')
        | _ => continue (digitpart r)
        end
      else None
  end.

(** An optional sign: [true] for a minus. *)
Definition sign (s : string) : bool * string :=
  match s with
  | String "-" r => (true, r)
  | String "+" r => (false, r)
  | _ => (false, s)
  end.

(** The default of [sys.int_max_str_digits]: the longest run of decimal
    digits that [int] converts. *)
Definition int_max_str_digits : Z := 4300.

(** [int(s)] in base 10: a text that is not an integer literal, or one of
    more than [int_max_str_digits] digits, raises [ValueError]. *)
Definition to_int (s : string) : result Z :=
  let (neg, r) := sign (strip s) in
  match digitpart r with
  | Some (ds, EmptyString) =>
      if int_max_str_digits <? Z.of_nat (List.length ds) then Raise ValueError
      else Ok (if neg then - digits_value ds else digits_value ds)
  | _ => Raise ValueError
  end.

End Str.

(** ** IEEE 754 binary64, the representation of Python's [float] *)

Module B64.

(** [Fin neg m e] is the number [(-1)^neg * m * 2^e] with [0 <= m]; the
    results of the operations are canonical: [2^52 <= m < 2^53] and
    [-1074 <= e <= 971], or [m < 2^52] and [e = -1074] (subnormal
    numbers and the two zeros). *)
Inductive float : Type :=
| Nan
| Inf (neg : bool)
| Fin (neg : bool) (m e : Z).

Definition emin : Z := -1074.
Definition emax : Z := 971.

(** [shl p k / shl q (- k)] is the fraction [p / q * 2^k]. *)
Definition shl (p k : Z) : Z := p * 2 ^ Z.max 0 k.

(** The integer nearest to [p / q], ties to the even one
    ([0 <= p], [0 < q]). *)
Definition round_half_even (p q : Z) : Z :=
  let d := p / q in
  match 2 * (p mod q) ?= q with
  | Lt => d
  | Gt => d + 1
  | Eq => if Z.even d then d else d + 1
  end.

(** [floor (log2 (p / q))] for [0 < p], [0 < q]. *)
Definition ilog2 (p q : Z) : Z :=
  let l := Z.log2 p - Z.log2 q in
  if shl q l <=? shl p (- l) then l else l - 1.

(** The binary64 number nearest to [(-1)^neg * p / q], ties to even;
    an infinity when that overflows ([0 <= p], [0 < q]). *)
Definition round (neg : bool) (p q : Z) : float :=
  if p =? 0 then Fin neg 0 emin
  else
    let e := Z.max (ilog2 p q - 52) emin in
    let m := round_half_even (shl p (- e)) (shl q e) in
    if m =? 2 ^ 53 then
      if emax <? e + 1 then Inf neg else Fin neg (2 ^ 52) (e + 1)
    else
      if emax <? e then Inf neg else Fin neg m e.

Definition of_Z (z : Z) : float := round (z <? 0) (Z.abs z) 1.

Definition signed (neg : bool) (m : Z) : Z := if neg then - m else m.

Definition mul (x y : float) : float :=
  match x, y with
  | Nan, _ | _, Nan => Nan
  | Inf s, Inf t => Inf (xorb s t)
  | Inf s, Fin t m _ | Fin t m _, Inf s =>
      if m =? 0 then Nan else Inf (xorb s t)
  | Fin s m e, Fin t n f =>
      round (xorb s t) (shl (m * n) (e + f)) (shl 1 (- (e + f)))
  end.

(** IEEE division; Python raises before a division by zero reaches it. *)
Definition div (x y : float) : float :=
  match x, y with
  | Nan, _ | _, Nan => Nan
  | Inf _, Inf _ => Nan
  | Inf s, Fin t _ _ => Inf (xorb s t)
  | Fin s _ _, Inf t => Fin (xorb s t) 0 emin
  | Fin s m e, Fin t n f =>
      if n =? 0 then (if m =? 0 then Nan else Inf (xorb s t))
      else round (xorb s t) (shl m (e - f)) (shl n (f - e))
  end.

Definition add (x y : float) : float :=
  match x, y with
  | Nan, _ | _, Nan => Nan
  | Inf s, Inf t => if Bool.eqb s t then Inf s else Nan
  | Inf s, Fin _ _ _ | Fin _ _ _, Inf s => Inf s
  | Fin s m e, Fin t n f =>
      let k := Z.min e f in
      let z := signed s m * 2 ^ (e - k) + signed t n * 2 ^ (f - k) in
      if z =? 0 then Fin (s && t) 0 emin
      else round (z <? 0) (shl (Z.abs z) k) (shl 1 (- k))
  end.

(** [x < y]; false as soon as one side is a NaN. *)
Definition ltb (x y : float) : bool :=
  match x, y with
  | Nan, _ | _, Nan => false
  | Inf s, Inf t => s && negb t
  | Inf s, Fin _ _ _ => s
  | Fin _ _ _, Inf t => negb t
  | Fin s m e, Fin t n f =>
      let k := Z.min e f in
      signed s m * 2 ^ (e - k) <? signed t n * 2 ^ (f - k)
  end.

Definition is_zero (x : float) : bool :=
  match x with
  | Fin _ m _ => m =? 0
  | _ => false
  end.

(** The last [d] decimal digits of [n], in front of [acc]. *)
Fixpoint last_digits (d : nat) (n : Z) (acc : string) : string :=
  match d with
  | O => acc
  | S k => last_digits k (n / 10) (String (Str.digit_char (n mod 10)) acc)
  end.

(** The decimal notation of [n / 10^d] with [d] digits after the point. *)
Definition fixed (d : nat) (n : Z) : string :=
  (Str.of_Z (n / 10 ^ Z.of_nat d) ++ String "." (last_digits d n ""))%string.

(** The format specification [.df] (with [1 <= d]): the exact value,
    rounded to [d] decimal places, ties to even. *)
Definition format_f (d : nat) (x : float) : string :=
  match x with
  | Nan => "nan"
  | Inf s => if s then "-inf" else "inf"
  | Fin s m e =>
      let n := round_half_even (shl (m * 10 ^ Z.of_nat d) e) (shl 1 (- e)) in
      ((if s then "-" else "") ++ fixed d n)%string
  end.

Definition lower (c : ascii) : ascii :=
  let n := Str.code c in
  if ((65 <=? n) && (n <=? 90))%N then ascii_of_N (n + 32) else c.

Fixpoint lower_str (s : string) : string :=
  match s with
  | EmptyString => EmptyString
  | String c r => String (lower c) (lower_str r)
  end.

(** [number ::= [digitpart] "." digitpart | digitpart ["."]]: the digits
    before the point, the digits after it, and the rest of the input. *)
Definition number (s : string) : option (list ascii * list ascii * string) :=
  match Str.digitpart s with
  | Some (ds, String "." r) =>
      match Str.digitpart r with
      | Some (fs, rest) => Some (ds, fs, rest)
      | None => Some (ds, [], r)
      end
  | Some (ds, rest) => Some (ds, [], rest)
  | None =>
      match s with
      | String "." r =>
          match Str.digitpart r with
          | Some (fs, rest) => Some ([], fs, rest)
          | None => None
          end
      | _ => None
      end
  end.

(** [exponent ::= ("e" | "E") [sign] digitpart], optional: the exponent
    and the rest of the input. *)
Definition exponent (s : string) : option (Z * string) :=
  match s with
  | String c r =>
      if Ascii.eqb (lower c) "e" then
        let (neg, r') := Str.sign r in
        match Str.digitpart r' with
        | Some (ds, rest) =>
            Some (if neg then - Str.digits_value ds else Str.digits_value ds, rest)
        | None => None
        end
      else Some (0, s)
  | EmptyString => Some (0, s)
  end.

(** [float(s)]: white space around the literal is dropped, and the
    decimal number read is rounded to the nearest binary64 number. *)
Definition of_string (s : string) : result float :=
  let (neg, r) := Str.sign (Str.strip s) in
  let l := lower_str r in
  if String.eqb l "inf" || String.eqb l "infinity" then Ok (Inf neg)
  else if String.eqb l "nan" then Ok Nan
  else
    match number r with
    | Some (ds, fs, r1) =>
        match exponent r1 with
        | Some (x, EmptyString) =>
            let k := x - Z.of_nat (List.length fs) in
            Ok (round neg (Str.digits_value (ds ++ fs) * 10 ^ Z.max 0 k)
                          (10 ^ Z.max 0 (- k)))
        | _ => Raise ValueError
        end
    | None => Raise ValueError
    end.

Definition is_finite (x : float) : bool :=
  match x with
  | Fin _ _ _ => true
  | _ => false
  end.

(** The exact value of a finite number, for the statements. *)
Definition to_Q (x : float) : Q :=
  match x with
  | Fin s m e => (inject_Z (signed s m) * 2 ^ e)%Q
  | _ => 0%Q
  end.

End B64.

(** ** Python numbers: [int] and [float] and their mixed arithmetic *)

Inductive pynum : Type :=
| PyInt (z : Z)
| PyFloat (x : B64.float).

Module Num.

(** [float(n)]; an [int] out of the range of binary64 raises. *)
Definition to_float (n : pynum) : result B64.float :=
  match n with
  | PyFloat x => Ok x
  | PyInt z =>
      match B64.of_Z z with
      | B64.Inf _ => Raise OverflowError
      | x => Ok x
      end
  end.

(** The exact dyadic number behind an operand, for comparisons: Python
    compares an [int] with a [float] without rounding the [int]. *)
Definition exact (n : pynum) : B64.float :=
  match n with
  | PyFloat x => x
  | PyInt z => B64.Fin (z <? 0) (Z.abs z) 0
  end.

Definition lt (a b : pynum) : bool := B64.ltb (exact a) (exact b).

Definition gt (a b : pynum) : bool := lt b a.

Definition is_zero (n : pynum) : bool :=
  match n with
  | PyInt z => z =? 0
  | PyFloat x => B64.is_zero x
  end.

Definition add (a b : pynum) : result pynum :=
  match a, b with
  | PyInt x, PyInt y => Ok (PyInt (x + y))
  | _, _ =>
      let? x := to_float a in
      let? y := to_float b in
      Ok (PyFloat (B64.add x y))
  end.

Definition mul (a b : pynum) : result pynum :=
  match a, b with
  | PyInt x, PyInt y => Ok (PyInt (x * y))
  | _, _ =>
      let? x := to_float a in
      let? y := to_float b in
      Ok (PyFloat (B64.mul x y))
  end.

(** [a / b]: true division; the quotient of two [int]s is rounded once. *)
Definition truediv (a b : pynum) : result pynum :=
  if is_zero b then Raise ZeroDivisionError
  else
    match a, b with
    | PyInt x, PyInt y =>
        match B64.round (xorb (x <? 0) (y <? 0)) (Z.abs x) (Z.abs y) with
        | B64.Inf _ => Raise OverflowError
        | q => Ok (PyFloat q)
        end
    | _, _ =>
        let? x := to_float a in
        let? y := to_float b in
        Ok (PyFloat (B64.div x y))
    end.

(** [format(n, ".df")] *)
Definition format_f (d : nat) (n : pynum) : result string :=
  let? x := to_float n in Ok (B64.format_f d x).

(** [a == b] on numbers. *)
Definition eqb (a b : pynum) : bool := negb (lt a b) && negb (lt b a) &&
  match exact a, exact b with
  | B64.Nan, _ | _, B64.Nan => false
  | _, _ => true
  end.

End Num.

(** ** Dictionaries with string keys, in insertion order *)

Definition dict (V : Type) : Type := list (string * V).

Module Dict.

Fixpoint get {V : Type} (d : dict V) (k : string) : option V :=
  match d with
  | [] => None
  | (k', v) :: r => if String.eqb k' k then Some v else get r k
  end.

(** [d[k] = v]: an existing key keeps its place and takes the new value,
    a new key goes to the end. *)
Fixpoint set {V : Type} (d : dict V) (k : string) (v : V) : dict V :=
  match d with
  | [] => [(k, v)]
  | (k', v') :: r =>
      if String.eqb k' k then (k', v) :: r else (k', v') :: set r k v
  end.

(** [d[k]] *)
Definition item {V : Type} (d : dict V) (k : string) : result V :=
  match get d k with
  | Some v => Ok v
  | None => Raise KeyError
  end.

(** [d.get(k, default)] *)
Definition get_default {V : Type} (d : dict V) (k : string) (default : V) : V :=
  match get d k with
  | Some v => v
  | None => default
  end.

Definition keys {V : Type} (d : dict V) : list string := map fst d.

Definition values {V : Type} (d : dict V) : list V := map snd d.

End Dict.

(** ** The outside world: standard output and the external commands *)

Record completed : Type := {
  returncode : Z;
  stdout : string;
  stderr : string
}.

(** [run w cmd] is [None] when the executable of [cmd] cannot be found. *)
Record world : Type := {
  which : string -> bool;
  run : list string -> option completed
}.

Inductive event : Type :=
| Print (text : string)
| Run (cmd : list string).

(** A computation: the events it emits, then its value or the exception
    that ended it. *)
Definition io (A : Type) : Type := (list event * result A)%type.

Definition ret {A : Type} (a : A) : io A := ([], Ok a).

Definition bind {A B : Type} (m : io A) (k : A -> io B) : io B :=
  match m with
  | (t, Ok a) => let (t', r) := k a in ((t ++ t')%list, r)
  | (t, Raise e) => (t, Raise e)
  end.

Definition print (text : string) : io unit := ([Print text], Ok tt).

Definition lift {A : Type} (r : result A) : io A := ([], r).

Definition exit {A : Type} (code : Z) : io A := ([], Raise (SystemExit code)).

Notation "'do' x '<-' m ';' k" := (bind m (fun x => k))
  (at level 10, x pattern, m at level 100, k at level 200).
Notation "m ';;' k" := (bind m (fun _ => k))
  (at level 100, k at level 200, right associativity).

(** [subprocess.run(cmd, ...)] *)
Definition subprocess_run (w : world) (cmd : list string) : io completed :=
  match run w cmd with
  | Some r => ([Run cmd], Ok r)
  | None => ([Run cmd], Raise FileNotFoundError)
  end.

(** The literal [1024.0]. *)
Definition f1024 : B64.float := B64.Fin false (2 ^ 52) (-42).

(** The loop shared by the two copies of [format_size]:
    [for unit in units: if v < 1024.0: return f"{v:.2f} {unit}"; v /= 1024.0],
    then [return f"{v:.2f} {last}"]. *)
Definition render (v : pynum) (unit : string) : result string :=
  let? m := Num.format_f 2 v in Ok (m ++ " " ++ unit)%string.

Fixpoint format_loop (units : list string) (last : string) (v : pynum)
  : result string :=
  match units with
  | [] => render v last
  | unit :: rest =>
      if Num.lt v (PyFloat f1024) then render v unit
      else let? v' := Num.truediv v (PyFloat f1024) in format_loop rest last v'
  end.

(** ** pacsize.py *)

Module Pacsize.

Definition multipliers : dict Z :=
  [("B", 1); ("KiB", 1024); ("MiB", 1024 ^ 2); ("GiB", 1024 ^ 3); ("TiB", 1024 ^ 4)].

Definition parse_size (size_str : string) : result pynum :=
  let parts := Str.split size_str in
  if negb (Nat.eqb (List.length parts) 2) then Ok (PyInt 0)
  else
    let? val := B64.of_string (nth 0 parts "") in
    let unit := nth 1 parts "" in
    Num.mul (PyFloat val) (PyInt (Dict.get_default multipliers unit 1)).

Definition format_size (bytes_val : pynum) : result string :=
  format_loop ["B"; "KiB"; "MiB"; "GiB"] "TiB" bytes_val.

(** The state of the block parser: the sizes found so far and the
    current package ([None] before the first name and after a size). *)
Definition parser_state : Type := (dict pynum * option string)%type.

(** Python's truth value of [current_pkg]. *)
Definition truthy (current_pkg : option string) : bool :=
  match current_pkg with
  | Some s => negb (Str.is_empty s)
  | None => false
  end.

(** One turn of the loop over the lines of [pacman -Si]. *)
Definition parse_line (st : parser_state) (line : string) : result parser_state :=
  let (sizes, current_pkg) := st in
  let line := Str.strip line in
  if Str.startswith "Name" line then
    match Str.split1 ":" line with
    | _ :: name :: _ => Ok (sizes, Some (Str.strip name))
    | _ => Ok st
    end
  else if Str.startswith "Installed Size" line && truthy current_pkg then
    match Str.split1 ":" line, current_pkg with
    | _ :: size :: _, Some pkg =>
        let size_str := Str.strip size in
        let? bytes := parse_size size_str in
        Ok (Dict.set sizes pkg bytes, None)
    | _, _ => Ok st
    end
  else Ok st.

Fixpoint parse_lines (lines : list string) (st : parser_state) : result parser_state :=
  match lines with
  | [] => Ok st
  | line :: rest => let? st' := parse_line st line in parse_lines rest st'
  end.

(** The parser of [get_installed_size_batch], from the text of the
    command's standard output to the dictionary returned. *)
Definition parse_blocks (out : string) : result (dict pynum) :=
  let? st := parse_lines (Str.splitlines out) ([], None) in Ok (fst st).

Definition get_installed_size_batch (w : world) (packages : list string)
  : io (dict pynum) :=
  match packages with
  | [] => ret []
  | _ :: _ =>
      let cmd := (["pacman"; "-Si"] ++ packages)%list in
      match run w cmd with
      | None =>
          ([Run cmd; Print "Error: pacman not found."], Raise (SystemExit 1))
      | Some result => ([Run cmd], parse_blocks (stdout result))
      end
  end.

Definition get_all_dependencies (w : world) (target : string) : io (list string) :=
  if negb (which w "pactree") then
    print "Error: 'pactree' command not found." ;;
    print "Please install it with: sudo pacman -S pacman-contrib" ;;
    exit 1
  else
    print ("Resolving full dependency tree for " ++ target ++ "...") ;;
    do result <- subprocess_run w ["pactree"; "-u"; "-s"; target] ;
    ret (filter (fun l => negb (Str.is_empty l))
                (map Str.strip (Str.splitlines (stdout result)))).

(** The alternatives of the regular expression
    [^(rocm-|hip-|hsa-|miopen-|rccl|comgr|roc|amd|migraphx|mivisionx)];
    [re.match] succeeds when one of them starts the name. *)
Definition opt_pattern : list string :=
  ["rocm-"; "hip-"; "hsa-"; "miopen-"; "rccl"; "comgr"; "roc"; "amd";
   "migraphx"; "mivisionx"].

Definition guess_location (pkg_name : string) : string :=
  if existsb (fun p => Str.startswith p pkg_name) opt_pattern
  then "/opt" else "/usr".

(** [sorted(items, key=lambda x: x[1], reverse=True)]: the stable sort by
    decreasing size, as an insertion sort.  An item goes in front of the
    first item that is not greater, so items of equal size keep their
    order.  This is the list [sorted] returns when no size is a NaN; with
    a NaN the list is a rearrangement of the items all the same, but the
    places of the items are the interpreter's and may differ. *)
Fixpoint insert_desc (x : string * pynum) (l : list (string * pynum))
  : list (string * pynum) :=
  match l with
  | [] => [x]
  | y :: r =>
      if Num.lt (snd x) (snd y) then y :: insert_desc x r else x :: y :: r
  end.

Definition sorted_desc (items : list (string * pynum)) : list (string * pynum) :=
  fold_right insert_desc [] items.

(** The loop of [main] over the sorted packages: the bucket totals and
    the number of table rows printed so far. *)
Fixpoint tally (sorted_pkgs : list (string * pynum)) (stats : dict pynum) (count : Z)
  : io (dict pynum) :=
  match sorted_pkgs with
  | [] => ret stats
  | (pkg, size) :: rest =>
      let loc := guess_location pkg in
      do old <- lift (Dict.item stats loc) ;
      do new <- lift (Num.add old size) ;
      let stats := Dict.set stats loc new in
      if count <? 10 then
        do readable <- lift (format_size size) ;
        print (Str.ljust 30 pkg ++ " " ++ Str.ljust 10 loc ++ " "
               ++ Str.ljust 10 readable) ;;
        tally rest stats (count + 1)
      else tally rest stats count
  end.

(** [sum(values)], by additions from left to right. *)
Fixpoint sum_from (acc : pynum) (values : list pynum) : result pynum :=
  match values with
  | [] => Ok acc
  | v :: rest => let? acc' := Num.add acc v in sum_from acc' rest
  end.

(** [(stats[key] / total) * 100 if total > 0 else 0] *)
Definition percent (stats : dict pynum) (key : string) (total : pynum)
  : result pynum :=
  if Num.gt total (PyInt 0) then
    let? part := Dict.item stats key in
    let? q := Num.truediv part total in Num.mul q (PyInt 100)
  else Ok (PyInt 0).

(** The figures of the distribution: the bucket totals, the grand total
    and the two percentages. *)
Record distribution : Type := {
  stats : dict pynum;
  total : pynum;
  opt_pct : pynum;
  usr_pct : pynum
}.

(** Step 3 of [main] up to the percentages. *)
Definition distribute (size_map : dict pynum) : io distribution :=
  let stats := [("/opt", PyInt 0); ("/usr", PyInt 0)] in
  let sorted_pkgs := sorted_desc size_map in
  print (String "010" (Str.ljust 30 "Top 10 Largest Packages") ++ " "
         ++ Str.ljust 10 "Dest" ++ " " ++ Str.ljust 10 "Size") ;;
  print (Str.repeat_char "-" 50) ;;
  do stats <- tally sorted_pkgs stats 0 ;
  do total <- lift (sum_from (PyInt 0) (Dict.values stats)) ;
  do opt_pct <- lift (percent stats "/opt" total) ;
  do usr_pct <- lift (percent stats "/usr" total) ;
  ret {| stats := stats; total := total; opt_pct := opt_pct; usr_pct := usr_pct |}.

(** The closing lines of the report. *)
Definition report (d : distribution) : io unit :=
  print (Str.repeat_char "-" 50) ;;
  print (String "010" "--- ESTIMATED DISTRIBUTION ---") ;;
  do opt <- lift (Dict.item (stats d) "/opt") ;
  do opt_size <- lift (format_size opt) ;
  do opt_p <- lift (Num.format_f 1 (opt_pct d)) ;
  print ("/opt Usage : " ++ Str.ljust 10 opt_size ++ " (" ++ opt_p ++ "%)") ;;
  do usr <- lift (Dict.item (stats d) "/usr") ;
  do usr_size <- lift (format_size usr) ;
  do usr_p <- lift (Num.format_f 1 (usr_pct d)) ;
  print ("/usr Usage : " ++ Str.ljust 10 usr_size ++ " (" ++ usr_p ++ "%)") ;;
  do total_size <- lift (format_size (total d)) ;
  print ("TOTAL      : " ++ total_size).

Definition main (w : world) : io unit :=
  let target := "rocm-hip-sdk" in
  do deps <- get_all_dependencies w target ;
  print ("Found " ++ Str.of_Z (Z.of_nat (List.length deps)) ++ " dependencies.") ;;
  print "Querying package sizes..." ;;
  do size_map <- get_installed_size_batch w deps ;
  do d <- distribute size_map ;
  report d.

End Pacsize.

(** ** pacremove.py *)

Module Pacremove.

Definition format_size (size_bytes : pynum) : result string :=
  format_loop ["B"; "KiB"; "MiB"; "GiB"; "TiB"] "TiB" size_bytes.

(** The loop of [get_removal_size] over the lines of the dry run. *)
Fixpoint sum_lines (lines : list string) (total_bytes : Z) : result Z :=
  match lines with
  | [] => Ok total_bytes
  | line :: rest =>
      let line := Str.strip line in
      if Str.isdigit line then
        let? n := Str.to_int line in sum_lines rest (total_bytes + n)
      else sum_lines rest total_bytes
  end.

(** The value returned is [None] or the total. *)
Definition get_removal_size (w : world) (package_name : string) : io (option Z) :=
  let cmd := ["sudo"; "pacman"; "-Rcs"; "-p"; "--print-format"; "%s"; package_name] in
  match run w cmd with
  | None => ([Run cmd; Print "Error: pacman not found."], Raise (SystemExit 1))
  | Some result =>
      if negb (returncode result =? 0) then
        ([Run cmd], Ok tt) ;;
        print "Error: Pacman returned an error." ;;
        print (Str.strip (stderr result)) ;;
        ret None
      else
        ([Run cmd], Ok tt) ;;
        do total_bytes <- lift (sum_lines (Str.splitlines (stdout result)) 0) ;
        ret (Some total_bytes)
  end.

Definition main (w : world) (argv : list string) : io unit :=
  match argv with
  | _ :: pkg :: _ =>
      print ("Calculating space freed by removing '" ++ pkg ++ "' recursively...") ;;
      do total_bytes <- get_removal_size w pkg ;
      match total_bytes with
      | Some total_bytes =>
          do readable_size <- lift (format_size (PyInt total_bytes)) ;
          print (Str.repeat_char "-" 40) ;;
          print ("Space to be freed: " ++ readable_size) ;;
          print (Str.repeat_char "-" 40)
      | None => ret tt
      end
  | _ =>
      print "Usage: python check_removal_size_v3.py <package_name>" ;;
      exit 1
  end.

End Pacremove.

(** ** Vocabulary of the specification *)

(** A line feed. *)
Definition LF : string := String "010" EmptyString.

(** The ordered unit table. *)
Definition units : list string := ["B"; "KiB"; "MiB"; "GiB"; "TiB"].

(** The position in the table of the first unit in which [b] bytes are
    less than 1024, the last position when there is none. *)
Definition unit_index (b : Z) : nat :=
  if b <? 1024 then 0%nat
  else if b <? 1024 ^ 2 then 1%nat
  else if b <? 1024 ^ 3 then 2%nat
  else if b <? 1024 ^ 4 then 3%nat
  else 4%nat.

(** [x] is within the relative tolerance [rel] of [b]. *)
Definition within (rel x b : Q) : Prop := (Qabs (x - b) <= rel * Qabs b)%Q.

(** What a line of the dry run contributes to the total: its value when
    the trimmed line is made of decimal digits only, nothing otherwise. *)
Definition line_bytes (line : string) : Z :=
  if Str.isdigit (Str.strip line)
  then Str.digits_value (list_ascii_of_string (Str.strip line))
  else 0.

Definition lines_total (lines : list string) : Z :=
  fold_right Z.add 0 (map line_bytes lines).

(** A line of the dry run that [int] refuses: its trimmed text is made of
    digits only, more than 4300 of them. *)
Definition over_limit (line : string) : bool :=
  Str.isdigit (Str.strip line) &&
  (Str.int_max_str_digits <? Z.of_nat (String.length (Str.strip line))).

(** [line] is a field line with the label [Name] and the value [pkg]. *)
Definition name_field (line pkg : string) : Prop :=
  Str.startswith "Name" (Str.strip line) = true /\
  exists label value,
    Str.split1 ":" (Str.strip line) = [label; value] /\ Str.strip value = pkg.

(** [line] is a field line with the label [Installed Size] and the value
    [size_str]. *)
Definition size_field (line size_str : string) : Prop :=
  Str.startswith "Installed Size" (Str.strip line) = true /\
  exists label value,
    Str.split1 ":" (Str.strip line) = [label; value] /\ Str.strip value = size_str.

(** The dictionary [stats] of [main] before the first package. *)
Definition empty_stats : dict pynum := [("/opt", PyInt 0); ("/usr", PyInt 0)].

Definition has_buckets (stats : dict pynum) : Prop :=
  Dict.get stats "/opt" <> None /\ Dict.get stats "/usr" <> None.

(** The command line of the dry run. *)
Definition removal_cmd (package_name : string) : list string :=
  ["sudo"; "pacman"; "-Rcs"; "-p"; "--print-format"; "%s"; package_name].

(** The text [f"{m:.2f} {unit}"] for a mantissa of [n] hundredths. *)
Definition size_text (n : Z) (unit : string) : string :=
  (B64.fixed 2 n ++ " " ++ unit)%string.

(** The same for the mantissa [b / 1024^i], rounded to hundredths. *)
Definition rendering (b i : Z) (unit : string) : string :=
  size_text (B64.round_half_even (100 * b) (1024 ^ i)) unit.

(** [text] shows [b] bytes in a unit of the table in which the mantissa is
    below 1024, with two decimal places. *)
Definition scaled_below_1024 (b : Z) (text : string) : Prop :=
  exists (i : nat) (n : Z),
    (i < 5)%nat /\
    b < 1024 * 1024 ^ Z.of_nat i /\
    2 * Z.abs (100 * b - n * 1024 ^ Z.of_nat i) <= 1024 ^ Z.of_nat i /\
    text = size_text n (nth i units "").

(** [v] is the binary64 number [b / 1024^i], held exactly. *)
Definition scaled (v : pynum) (b i : Z) : Prop :=
  exists e, B64.emin <= e <= - (10 * i) /\
            v = PyFloat (B64.Fin false (b * 2 ^ (- (10 * i) - e)) e).

(** The unit the loop of [format_size] stops at, and its position. *)
Fixpoint pick (us : list string) (last : string) (b i : Z) : Z * string :=
  match us with
  | [] => (i, last)
  | unit :: rest => if b <? 1024 ^ (i + 1) then (i, unit) else pick rest last b (i + 1)
  end.

Definition not_space (c : ascii) : bool := negb (Str.is_space c).

(** A non-empty run of characters that are not white space. *)
Definition is_word (s : string) : bool :=
  negb (Str.is_empty s) && Str.all_chars not_space s.

(** The value of decimal digits given least significant first. *)
Definition le_value (ds : list Z) : Z := fold_right (fun d v => d + 10 * v) 0 ds.

(** The same number in the Standard Library's specification of IEEE 754. *)
Definition to_spec (x : B64.float) : spec_float :=
  match x with
  | B64.Nan => S754_nan
  | B64.Inf s => S754_infinity s
  | B64.Fin s m e =>
      match m with
      | Z.pos p => S754_finite s p e
      | _ => S754_zero s
      end
  end.

(** The float a literal stands for. *)
Definition lit (s : string) : B64.float :=
  match B64.of_string s with
  | Ok x => x
  | Raise _ => B64.Nan
  end.

(** The command lines of the profiler. *)
Definition pactree_cmd : list string := ["pactree"; "-u"; "-s"; "rocm-hip-sdk"].

Definition pacman_cmd (packages : list string) : list string :=
  ("pacman" :: "-Si" :: packages)%list.

(** A line that starts with neither of the two labels the block parser
    looks for. *)
Definition other_field (line : string) : Prop :=
  Str.startswith "Name" (Str.strip line) = false /\
  Str.startswith "Installed Size" (Str.strip line) = false.

(** [blocks_of lines entries]: [lines] is a sequence of record blocks, each
    with a name line and, after it, a size line, among lines with other
    labels; [entries] are their names and parsed sizes, in order. *)
Inductive blocks_of : list string -> list (string * pynum) -> Prop :=
| blocks_end (others : list string) :
    Forall other_field others -> blocks_of others []
| blocks_next (before between : list string) (name_line size_line : string)
              (pkg size_str : string) (bytes : pynum)
              (rest : list string) (entries : list (string * pynum)) :
    Forall other_field before ->
    name_field name_line pkg -> pkg <> "" ->
    Forall other_field between ->
    size_field size_line size_str ->
    Pacsize.parse_size size_str = Ok bytes ->
    blocks_of rest entries ->
    blocks_of (before ++ name_line :: between ++ size_line :: rest)%list
              ((pkg, bytes) :: entries).

(** [d[k] = v] for each entry in turn. *)
Definition store (sizes : dict pynum) (entries : list (string * pynum)) : dict pynum :=
  fold_left (fun d kv => Dict.set d (fst kv) (snd kv)) entries sizes.

(** What [parse_size] can return: a float, or the int 0. *)
Definition parsed_size (v : pynum) : Prop :=
  v = PyInt 0 \/ exists x, v = PyFloat x.

Definition is_print (e : event) : bool :=
  match e with
  | Print _ => true
  | Run _ => false
  end.

(** The size of [a] is not below the size of [b]. *)
Definition not_smaller (a b : string * pynum) : Prop := Num.lt (snd a) (snd b) = false.

(** The float NaN, which no comparison orders. *)
Definition is_nan (v : pynum) : bool :=
  match v with
  | PyFloat B64.Nan => true
  | _ => false
  end.

(** The size of the item [p] equals [v] ([==] on numbers). *)
Definition same_size (v : pynum) (p : string * pynum) : bool := Num.eqb (snd p) v.

(** The package [p] is counted in the bucket [loc]. *)
Definition in_bucket (loc : string) (p : string * pynum) : bool :=
  String.eqb (Pacsize.guess_location (fst p)) loc.

(** The external commands of a trace, in order. *)
Definition commands (t : list event) : list (list string) :=
  flat_map (fun e => match e with Run cmd => [cmd] | Print _ => [] end) t.

(** The prefixes that send a name to "/opt": the alternatives of the
    pattern without "rocm-", which "roc" covers. *)
Definition opt_prefixes : list string :=
  ["hip-"; "hsa-"; "miopen-"; "rccl"; "comgr"; "roc"; "amd"; "migraphx"; "mivisionx"].

(** [k] is the non-empty value of a name line among [lines]. *)
Definition named (lines : list string) (k : string) : Prop :=
  k <> "" /\ exists line, In line lines /\ name_field line k.

(** A float whose mantissa is not negative, as in every result of an
    operation or of [float]. *)
Definition proper (x : B64.float) : Prop :=
  match x with
  | B64.Fin _ m _ => 0 <= m
  | _ => True
  end.

(** Case analysis on a result [r] that cannot be the exception excluded by
    [fact]. *)
Ltac case_result fact r :=
  let H := fresh "H" in
  pose proof fact as H;
  destruct r as [? | []]; unfold rbind;
  try discriminate; try contradiction.

(** * Properties *)

(** ** Agreement with the Standard Library's binary64 *)

(** [B64] rounds every exact result once; on the numbers the scripts meet
    its operations are those of [SpecFloat] at precision 53. *)
Example mul_agrees :
  to_spec (B64.mul (lit "47.61") (lit "1048576")) =
  SFmul 53 1024 (to_spec (lit "47.61")) (to_spec (lit "1048576")).
Proof. vm_compute. reflexivity. Qed.

Example div_agrees :
  to_spec (B64.div (lit "49922703.36") (lit "1024.0")) =
  SFdiv 53 1024 (to_spec (lit "49922703.36")) (to_spec (lit "1024.0")) /\
  to_spec (B64.div (lit "1") (lit "3")) =
  SFdiv 53 1024 (to_spec (lit "1")) (to_spec (lit "3")).
Proof. split; vm_compute; reflexivity. Qed.

Example add_agrees :
  to_spec (B64.add (lit "0.1") (lit "0.2")) =
  SFadd 53 1024 (to_spec (lit "0.1")) (to_spec (lit "0.2")) /\
  to_spec (B64.add (lit "1e308") (lit "1e308")) =
  SFadd 53 1024 (to_spec (lit "1e308")) (to_spec (lit "1e308")).
Proof. split; vm_compute; reflexivity. Qed.

Example ltb_agrees :
  B64.ltb (lit "1023.9999") f1024 = SFltb (to_spec (lit "1023.9999")) (to_spec f1024) /\
  B64.ltb f1024 f1024 = SFltb (to_spec f1024) (to_spec f1024).
Proof. split; vm_compute; reflexivity. Qed.

Example format_examples :
  B64.format_f 2 (lit "0.125") = "0.12" /\
  B64.format_f 2 (lit "0.375") = "0.38" /\
  B64.format_f 2 (lit "2.675") = "2.67" /\
  B64.format_f 2 (lit "-0.001") = "-0.00" /\
  B64.format_f 1 (lit "99.95") = "100.0" /\
  B64.format_f 2 (lit "inf") = "inf".
Proof. repeat split; vm_compute; reflexivity. Qed.

(** ** The location heuristic *)

Lemma guess_location_range (name : string) :
  Pacsize.guess_location name = "/opt" \/ Pacsize.guess_location name = "/usr".
Proof.
  unfold Pacsize.guess_location.
  destruct (existsb _ _); [left | right]; reflexivity.
Qed.

Lemma guess_location_prefix (p name : string) :
  In p Pacsize.opt_pattern -> Str.startswith p name = true ->
  Pacsize.guess_location name = "/opt".
Proof.
  intros Hin Hp. unfold Pacsize.guess_location.
  assert (E : existsb (fun q => Str.startswith q name) Pacsize.opt_pattern = true).
  { apply existsb_exists. exists p. split; assumption. }
  rewrite E. reflexivity.
Qed.

Lemma guess_location_default (name : string) :
  (forall p, In p Pacsize.opt_pattern -> Str.startswith p name = false) ->
  Pacsize.guess_location name = "/usr".
Proof.
  intros H. unfold Pacsize.guess_location.
  destruct (existsb _ _) eqn:E; [| reflexivity].
  apply existsb_exists in E. destruct E as (p & Hin & Hp).
  rewrite (H p Hin) in Hp. discriminate.
Qed.

(** C8: the names "rocm-hip-sdk" and "hip-runtime" go to the bucket
    "/opt", and "glibc" goes to the bucket "/usr". *)
Theorem guess_location_examples :
  Pacsize.guess_location "rocm-hip-sdk" = "/opt" /\
  Pacsize.guess_location "hip-runtime" = "/opt" /\
  Pacsize.guess_location "glibc" = "/usr".
Proof. repeat split; reflexivity. Qed.

(** *** The buckets of [stats] are never missing *)

Lemma dict_get_set_same {V : Type} (d : dict V) (k : string) (v : V) :
  Dict.get (Dict.set d k v) k = Some v.
Proof.
  induction d as [| [k' v'] r IH]; simpl.
  - rewrite String.eqb_refl. reflexivity.
  - destruct (String.eqb k' k) eqn:E; simpl; rewrite E; [reflexivity | exact IH].
Qed.

Lemma dict_get_set_other {V : Type} (d : dict V) (k k0 : string) (v : V) :
  k <> k0 -> Dict.get (Dict.set d k v) k0 = Dict.get d k0.
Proof.
  intros Hne. induction d as [| [k' v'] r IH]; simpl.
  - destruct (String.eqb k k0) eqn:E; [| reflexivity].
    apply String.eqb_eq in E. contradiction.
  - destruct (String.eqb k' k) eqn:E; simpl.
    + apply String.eqb_eq in E. subst k'.
      destruct (String.eqb k k0) eqn:E0; [| reflexivity].
      apply String.eqb_eq in E0. contradiction.
    + rewrite IH. reflexivity.
Qed.

Lemma dict_set_keeps {V : Type} (d : dict V) (k k0 : string) (v : V) :
  Dict.get d k0 <> None -> Dict.get (Dict.set d k v) k0 <> None.
Proof.
  intros H. destruct (string_dec k k0) as [-> | Hne].
  - rewrite dict_get_set_same. discriminate.
  - rewrite dict_get_set_other by assumption. exact H.
Qed.

Lemma has_buckets_item (stats : dict pynum) (name : string) :
  has_buckets stats ->
  exists v, Dict.item stats (Pacsize.guess_location name) = Ok v.
Proof.
  intros [Ho Hu]. unfold Dict.item.
  destruct (guess_location_range name) as [-> | ->].
  - destruct (Dict.get stats "/opt") as [v |]; [exists v; reflexivity | contradiction].
  - destruct (Dict.get stats "/usr") as [v |]; [exists v; reflexivity | contradiction].
Qed.

Lemma has_buckets_set (stats : dict pynum) (k : string) (v : pynum) :
  has_buckets stats -> has_buckets (Dict.set stats k v).
Proof.
  intros [Ho Hu]. split; apply dict_set_keeps; assumption.
Qed.

Lemma to_float_not_KeyError (n : pynum) : Num.to_float n <> Raise KeyError.
Proof.
  destruct n as [z | x]; simpl; [| discriminate].
  destruct (B64.of_Z z); discriminate.
Qed.

Lemma add_not_KeyError (a b : pynum) : Num.add a b <> Raise KeyError.
Proof.
  unfold Num.add.
  destruct a as [x | x], b as [y | y]; try discriminate;
    repeat match goal with
           | |- context [Num.to_float ?n] =>
               case_result (to_float_not_KeyError n) (Num.to_float n)
           end.
Qed.

Lemma truediv_not_KeyError (a b : pynum) : Num.truediv a b <> Raise KeyError.
Proof.
  unfold Num.truediv. destruct (Num.is_zero b); [discriminate |].
  destruct a as [x | x], b as [y | y];
    try (destruct (B64.round _ _ _); discriminate);
    repeat match goal with
           | |- context [Num.to_float ?n] =>
               case_result (to_float_not_KeyError n) (Num.to_float n)
           end.
Qed.

Lemma render_not_KeyError (v : pynum) (unit : string) : render v unit <> Raise KeyError.
Proof.
  unfold render, Num.format_f.
  case_result (to_float_not_KeyError v) (Num.to_float v).
Qed.

Lemma format_loop_not_KeyError (us : list string) (last : string) (v : pynum) :
  format_loop us last v <> Raise KeyError.
Proof.
  revert v. induction us as [| u r IH]; intros v; simpl.
  - apply render_not_KeyError.
  - destruct (Num.lt v (PyFloat f1024)); [apply render_not_KeyError |].
    pose proof (truediv_not_KeyError v (PyFloat f1024)) as H.
    destruct (Num.truediv v (PyFloat f1024)) as [v' | []]; simpl;
      try discriminate; try contradiction.
    apply IH.
Qed.

Lemma bind_result {A B : Type} (m : io A) (k : A -> io B) (e : exn) :
  snd m <> Raise e -> (forall a, snd (k a) <> Raise e) -> snd (bind m k) <> Raise e.
Proof.
  intros Hm Hk. destruct m as [t [a | e']]; simpl in *.
  - specialize (Hk a). destruct (k a) as [t' r]. exact Hk.
  - intros Heq. apply Hm. injection Heq as ->. reflexivity.
Qed.

Lemma tally_no_KeyError (pkgs : list (string * pynum)) :
  forall (stats : dict pynum) (count : Z),
    has_buckets stats -> snd (Pacsize.tally pkgs stats count) <> Raise KeyError.
Proof.
  induction pkgs as [| [pkg size] rest IH]; intros stats count Hb;
    cbn [Pacsize.tally].
  - discriminate.
  - destruct (has_buckets_item stats pkg Hb) as [old Hold].
    apply bind_result; [rewrite Hold; discriminate |].
    intros old'. apply bind_result; [apply add_not_KeyError |].
    intros new.
    assert (Hb' : has_buckets (Dict.set stats (Pacsize.guess_location pkg) new))
      by (apply has_buckets_set; exact Hb).
    destruct (count <? 10).
    + apply bind_result; [apply format_loop_not_KeyError |].
      intros readable. apply bind_result; [discriminate |].
      intros _. apply IH. exact Hb'.
    + apply IH. exact Hb'.
Qed.

Lemma empty_stats_has_buckets : has_buckets empty_stats.
Proof. split; discriminate. Qed.

(** C9: [guess_location] answers "/opt" or "/usr" for every name, so the
    bucket it names is always found in [stats] and the loop of [main]
    never raises [KeyError]; and it answers "/opt" for every name that
    starts with one of the ten prefixes, such as "rocket" and "amd-ucode",
    which merely start with "roc" and "amd". *)
Theorem guess_location_total :
  (forall name,
      Pacsize.guess_location name = "/opt" \/ Pacsize.guess_location name = "/usr") /\
  (forall name, exists v, Dict.item empty_stats (Pacsize.guess_location name) = Ok v) /\
  (forall pkgs, snd (Pacsize.tally pkgs empty_stats 0) <> Raise KeyError) /\
  Pacsize.opt_pattern =
    ["rocm-"; "hip-"; "hsa-"; "miopen-"; "rccl"; "comgr"; "roc"; "amd";
     "migraphx"; "mivisionx"] /\
  (forall p name,
      In p Pacsize.opt_pattern -> Str.startswith p name = true ->
      Pacsize.guess_location name = "/opt") /\
  Pacsize.guess_location "rocket" = "/opt" /\
  Pacsize.guess_location "amd-ucode" = "/opt".
Proof.
  split; [exact guess_location_range |].
  split; [intros name; apply has_buckets_item, empty_stats_has_buckets |].
  split; [intros pkgs; apply tally_no_KeyError, empty_stats_has_buckets |].
  split; [reflexivity |].
  split; [exact guess_location_prefix |].
  split; reflexivity.
Qed.

Lemma guess_location_total_witness :
  Pacsize.guess_location "amdgpu-top" = "/opt".
Proof.
  apply (proj1 (proj2 (proj2 (proj2 (proj2 guess_location_total)))) "amd" "amdgpu-top").
  - simpl. tauto.
  - reflexivity.
Defined.

(** ** The removal-size parser *)

Lemma digit_not_space (c : ascii) : Str.is_digit c = true -> Str.is_space c = false.
Proof.
  unfold Str.is_digit, Str.is_space. cbv zeta.
  destruct (N.leb_spec 48 (Str.code c)), (N.leb_spec (Str.code c) 57);
    try discriminate; intros _.
  destruct (N.leb_spec 9 (Str.code c)), (N.leb_spec (Str.code c) 13),
    (N.leb_spec 28 (Str.code c)), (N.leb_spec (Str.code c) 32);
    simpl; try reflexivity; lia.
Qed.

Lemma digit_sign (c : ascii) (r : string) :
  Str.is_digit c = true -> Str.sign (String c r) = (false, String c r).
Proof.
  destruct c as [[] [] [] [] [] [] [] []]; try discriminate; reflexivity.
Qed.

Lemma digitpart_cons (c c' : ascii) (r : string) :
  Str.is_digit c = true -> Str.is_digit c' = true ->
  Str.digitpart (String c (String c' r)) =
  match Str.digitpart (String c' r) with
  | Some (ds, rest) => Some (c :: ds, rest)
  | None => Some ([c], String c' r)
  end.
Proof.
  intros Hc Hc'. cbn [Str.digitpart]. rewrite Hc, Hc'.
  destruct c' as [[] [] [] [] [] [] [] []]; try discriminate; reflexivity.
Qed.

Lemma digitpart_digits (s : string) :
  Str.isdigit s = true ->
  Str.digitpart s = Some (list_ascii_of_string s, EmptyString).
Proof.
  unfold Str.isdigit. destruct s as [| c r]; [discriminate |].
  cbn [Str.is_empty negb andb]. revert c.
  induction r as [| c' r IH]; intros c H; cbn [Str.all_chars] in H;
    apply andb_prop in H; destruct H as [Hc Hr].
  - cbn [Str.digitpart]. rewrite Hc. reflexivity.
  - pose proof Hr as Hr'. cbn [Str.all_chars] in Hr'.
    apply andb_prop in Hr'. destruct Hr' as [Hc' _].
    rewrite digitpart_cons by assumption.
    rewrite (IH c' Hr). reflexivity.
Qed.

Lemma digits_lstrip (s : string) :
  Str.all_chars Str.is_digit s = true -> Str.lstrip s = s.
Proof.
  destruct s as [| c r]; [reflexivity |]. cbn [Str.all_chars Str.lstrip].
  intros H. apply andb_prop in H. destruct H as [Hc _].
  rewrite (digit_not_space c Hc). reflexivity.
Qed.

Lemma digits_rstrip (s : string) :
  Str.all_chars Str.is_digit s = true -> Str.rstrip s = s.
Proof.
  induction s as [| c r IH]; [reflexivity |]. cbn [Str.all_chars Str.rstrip].
  intros H. apply andb_prop in H. destruct H as [Hc Hr].
  rewrite (IH Hr), (digit_not_space c Hc). reflexivity.
Qed.

Lemma length_list_ascii (s : string) :
  List.length (list_ascii_of_string s) = String.length s.
Proof.
  induction s as [| c r IH]; cbn [list_ascii_of_string List.length String.length];
    [reflexivity | rewrite IH; reflexivity].
Qed.

Lemma to_int_digits (s : string) :
  Str.isdigit s = true ->
  Str.to_int s =
  if Str.int_max_str_digits <? Z.of_nat (String.length s) then Raise ValueError
  else Ok (Str.digits_value (list_ascii_of_string s)).
Proof.
  intros H. pose proof H as H'. unfold Str.isdigit in H'.
  apply andb_prop in H'. destruct H' as [Hne Hall].
  unfold Str.to_int, Str.strip.
  rewrite (digits_lstrip s Hall), (digits_rstrip s Hall).
  destruct s as [| c r]; [discriminate |].
  cbn [Str.all_chars] in Hall. apply andb_prop in Hall. destruct Hall as [Hc _].
  rewrite (digit_sign c r Hc), (digitpart_digits _ H), length_list_ascii.
  reflexivity.
Qed.

(** The loop in closed form: [ValueError] when [int] refuses a line, the
    sum of the digit lines otherwise. *)
Lemma sum_lines_total (lines : list string) :
  forall total_bytes,
    Pacremove.sum_lines lines total_bytes =
    if existsb over_limit lines then Raise ValueError
    else Ok (total_bytes + lines_total lines).
Proof.
  induction lines as [| line rest IH]; intros t; cbn [Pacremove.sum_lines existsb].
  - unfold lines_total. simpl. f_equal. lia.
  - unfold lines_total. cbn [map fold_right]. fold (lines_total rest).
    unfold line_bytes. unfold over_limit at 1.
    destruct (Str.isdigit (Str.strip line)) eqn:E; cbn [andb orb].
    + rewrite (to_int_digits _ E).
      destruct (Str.int_max_str_digits <? Z.of_nat (String.length (Str.strip line)));
        cbn [rbind orb]; [reflexivity |].
      rewrite IH. destruct (existsb over_limit rest); [reflexivity | f_equal; lia].
    + rewrite IH. destruct (existsb over_limit rest); [reflexivity | f_equal].
Qed.

Lemma sum_lines_within_limit (lines : list string) (total_bytes : Z) :
  existsb over_limit lines = false ->
  Pacremove.sum_lines lines total_bytes = Ok (total_bytes + lines_total lines).
Proof.
  intros H. rewrite sum_lines_total, H. reflexivity.
Qed.








(** ** A failed dry run *)

(** C6: when the dry run exits with a status other than zero,
    [get_removal_size] prints the error line and the captured error text
    and returns [None], and [main] then prints no report: its whole output
    is the opening line followed by those two. *)
Theorem removal_failure_reports_and_returns_none :
  forall w prog package_name rest r,
    run w (removal_cmd package_name) = Some r ->
    returncode r <> 0 ->
    Pacremove.get_removal_size w package_name =
      ([Run (removal_cmd package_name);
        Print "Error: Pacman returned an error.";
        Print (Str.strip (stderr r))], Ok None) /\
    Pacremove.main w (prog :: package_name :: rest) =
      ([Print ("Calculating space freed by removing '" ++ package_name
               ++ "' recursively...");
        Run (removal_cmd package_name);
        Print "Error: Pacman returned an error.";
        Print (Str.strip (stderr r))], Ok tt).
Proof.
  intros w prog pkg rest r Hrun Hcode.
  assert (E : Pacremove.get_removal_size w pkg =
              ([Run (removal_cmd pkg); Print "Error: Pacman returned an error.";
                Print (Str.strip (stderr r))], Ok None)).
  { unfold Pacremove.get_removal_size. fold (removal_cmd pkg). rewrite Hrun.
    destruct (Z.eqb_spec (returncode r) 0) as [H0 | _]; [contradiction |].
    reflexivity. }
  split; [exact E |].
  unfold Pacremove.main. rewrite E. reflexivity.
Qed.

Lemma removal_failure_reports_and_returns_none_witness :
  Pacremove.main
    {| which := fun _ => true;
       run := fun _ => Some {| returncode := 1; stdout := "";
                               stderr := "error: target not found: nope" |} |}
    ["pacremove.py"; "nope"]
  = ([Print "Calculating space freed by removing 'nope' recursively...";
      Run (removal_cmd "nope");
      Print "Error: Pacman returned an error.";
      Print "error: target not found: nope"], Ok tt).
Proof.
  refine (proj2 (removal_failure_reports_and_returns_none
           {| which := fun _ => true;
              run := fun _ => Some {| returncode := 1; stdout := "";
                                      stderr := "error: target not found: nope" |} |}
           "pacremove.py" "nope" [] _ eq_refl _)).
  simpl. discriminate.
Defined.

(** ** An empty package list *)

(** C7: for an empty package list [get_installed_size_batch] returns the
    empty dictionary and runs no command; the distribution computed from it
    has total 0 and both percentages 0, printed as "0.0", and nothing is
    raised: [main] prints the whole report. *)
Theorem empty_package_list_is_harmless :
  (forall w, Pacsize.get_installed_size_batch w [] = ([], Ok [])) /\
  snd (Pacsize.distribute []) =
    Ok {| Pacsize.stats := empty_stats;
          Pacsize.total := PyInt 0;
          Pacsize.opt_pct := PyInt 0;
          Pacsize.usr_pct := PyInt 0 |} /\
  Num.format_f 1 (PyInt 0) = Ok "0.0" /\
  Num.eqb (PyInt 0) (PyFloat (B64.Fin false 0 B64.emin)) = true /\
  (forall w t,
      Pacsize.get_all_dependencies w "rocm-hip-sdk" = (t, Ok []) ->
      Pacsize.main w =
      (t ++ [Print "Found 0 dependencies.";
             Print "Querying package sizes...";
             Print (LF ++ "Top 10 Largest Packages        Dest       Size      ");
             Print "--------------------------------------------------";
             Print "--------------------------------------------------";
             Print (LF ++ "--- ESTIMATED DISTRIBUTION ---");
             Print "/opt Usage : 0.00 B     (0.0%)";
             Print "/usr Usage : 0.00 B     (0.0%)";
             Print "TOTAL      : 0.00 B"], Ok tt)%list).
Proof.
  split; [reflexivity |].
  split; [vm_compute; reflexivity |].
  split; [vm_compute; reflexivity |].
  split; [vm_compute; reflexivity |].
  intros w t Hdeps. unfold Pacsize.main. rewrite Hdeps.
  unfold bind at 1. cbn [Pacsize.get_installed_size_batch].
  match goal with
  | |- (let (t', r) := ?m in _) = _ =>
      let v := eval vm_compute in m in change m with v
  end.
  reflexivity.
Qed.

Lemma empty_package_list_is_harmless_witness :
  snd (Pacsize.main
         {| which := fun _ => true;
            run := fun _ => Some {| returncode := 0; stdout := LF; stderr := "" |} |})
  = Ok tt.
Proof.
  rewrite (proj2 (proj2 (proj2 (proj2 empty_package_list_is_harmless)))
             {| which := fun _ => true;
                run := fun _ => Some {| returncode := 0; stdout := LF; stderr := "" |} |}
             [Print "Resolving full dependency tree for rocm-hip-sdk...";
              Run ["pactree"; "-u"; "-s"; "rocm-hip-sdk"]]
             eq_refl).
  reflexivity.
Defined.

(** ** The block parser *)

Lemma parse_line_name (sizes : dict pynum) (cur : option string) (line pkg : string) :
  name_field line pkg ->
  Pacsize.parse_line (sizes, cur) line = Ok (sizes, Some pkg).
Proof.
  intros (Hn & label & value & Hsplit & Hv).
  unfold Pacsize.parse_line. cbv zeta. rewrite Hn, Hsplit, Hv. reflexivity.
Qed.

Lemma installed_size_not_name (s : string) :
  Str.startswith "Installed Size" s = true -> Str.startswith "Name" s = false.
Proof.
  destruct s as [| c r]; [discriminate |]. cbn [Str.startswith].
  destruct (Ascii.eqb_spec "I" c) as [<- | _]; [reflexivity | discriminate].
Qed.

Lemma parse_line_size (sizes : dict pynum) (line pkg size_str : string) :
  size_field line size_str -> pkg <> "" ->
  Pacsize.parse_line (sizes, Some pkg) line =
  let? bytes := Pacsize.parse_size size_str in Ok (Dict.set sizes pkg bytes, None).
Proof.
  intros (Hs & label & value & Hsplit & Hv) Hpkg.
  unfold Pacsize.parse_line. cbv zeta.
  rewrite (installed_size_not_name _ Hs), Hs, Hsplit, Hv.
  destruct pkg as [| c r]; [contradiction | reflexivity].
Qed.

Lemma parse_line_size_unset (sizes : dict pynum) (cur : option string)
      (line size_str : string) :
  size_field line size_str -> Pacsize.truthy cur = false ->
  Pacsize.parse_line (sizes, cur) line = Ok (sizes, cur).
Proof.
  intros (Hs & _) Hcur.
  unfold Pacsize.parse_line. cbv zeta.
  rewrite (installed_size_not_name _ Hs), Hs, Hcur. reflexivity.
Qed.

Lemma parse_line_other (st : Pacsize.parser_state) (line : string) :
  Str.startswith "Name" (Str.strip line) = false ->
  Str.startswith "Installed Size" (Str.strip line) = false ->
  Pacsize.parse_line st line = Ok st.
Proof.
  intros Hn Hs. destruct st as [sizes cur].
  unfold Pacsize.parse_line. cbv zeta. rewrite Hn, Hs. reflexivity.
Qed.

Lemma parse_line_no_colon (st : Pacsize.parser_state) (line : string) :
  Str.split1 ":" (Str.strip line) = [Str.strip line] ->
  Pacsize.parse_line st line = Ok st.
Proof.
  intros Hsplit. destruct st as [sizes cur].
  unfold Pacsize.parse_line. cbv zeta. rewrite Hsplit.
  destruct (Str.startswith "Name" (Str.strip line)); [reflexivity |].
  destruct (Str.startswith "Installed Size" (Str.strip line) && Pacsize.truthy cur);
    [destruct cur |]; reflexivity.
Qed.

(** C4: the block parser is a machine with two states, the current package
    being set or unset. A field line labelled "Name" sets the current
    package; a field line labelled "Installed Size" met while a package is
    set parses its value with [parse_size], stores it under that package
    and unsets the package; met while none is set it changes nothing, and
    neither does a line with another label or without a colon. The block of
    the specification gives foo 2097152 and bar 524288. *)
Theorem block_parser_two_states :
  (forall sizes cur line pkg,
      name_field line pkg ->
      Pacsize.parse_line (sizes, cur) line = Ok (sizes, Some pkg)) /\
  (forall sizes line pkg size_str,
      size_field line size_str -> pkg <> "" ->
      Pacsize.parse_line (sizes, Some pkg) line =
      let? bytes := Pacsize.parse_size size_str in
      Ok (Dict.set sizes pkg bytes, None)) /\
  (forall sizes cur line size_str,
      size_field line size_str -> Pacsize.truthy cur = false ->
      Pacsize.parse_line (sizes, cur) line = Ok (sizes, cur)) /\
  (forall st line,
      Str.startswith "Name" (Str.strip line) = false ->
      Str.startswith "Installed Size" (Str.strip line) = false ->
      Pacsize.parse_line st line = Ok st) /\
  (forall st line,
      Str.split1 ":" (Str.strip line) = [Str.strip line] ->
      Pacsize.parse_line st line = Ok st) /\
  Pacsize.parse_blocks
    ("Name: foo" ++ LF ++ "Installed Size: 2.00 MiB" ++ LF ++
     "Name: bar" ++ LF ++ "Installed Size: 512.00 KiB")%string
  = Ok [("foo", PyFloat (B64.of_Z 2097152)); ("bar", PyFloat (B64.of_Z 524288))] /\
  (B64.to_Q (B64.of_Z 2097152) == 2097152)%Q /\
  (B64.to_Q (B64.of_Z 524288) == 524288)%Q /\
  Num.eqb (PyFloat (B64.of_Z 2097152)) (PyInt 2097152) = true /\
  Num.eqb (PyFloat (B64.of_Z 524288)) (PyInt 524288) = true.
Proof.
  split; [intros; apply parse_line_name; assumption |].
  split; [intros; apply parse_line_size; assumption |].
  split; [intros; eapply parse_line_size_unset; eassumption |].
  split; [intros; apply parse_line_other; assumption |].
  split; [intros; apply parse_line_no_colon; assumption |].
  split; [vm_compute; reflexivity |].
  repeat split; vm_compute; reflexivity.
Qed.

Lemma block_parser_two_states_witness :
  Pacsize.parse_line ([], Some "glibc") "Installed Size  : 47.61 MiB" =
  let? bytes := Pacsize.parse_size "47.61 MiB" in Ok (Dict.set [] "glibc" bytes, None).
Proof.
  apply (proj1 (proj2 block_parser_two_states) [] "Installed Size  : 47.61 MiB"
           "glibc" "47.61 MiB").
  - split; [reflexivity |].
    exists "Installed Size  ", " 47.61 MiB". split; reflexivity.
  - discriminate.
Defined.

(** *** Unique keys *)

Lemma in_keys_set {V : Type} (d : dict V) (k x : string) (v : V) :
  In x (Dict.keys (Dict.set d k v)) -> x = k \/ In x (Dict.keys d).
Proof.
  induction d as [| [k' v'] r IH]; simpl.
  - intros [<- | []]. left. reflexivity.
  - destruct (String.eqb k' k) eqn:E; simpl.
    + intros H. right. exact H.
    + intros [<- | H]; [right; left; reflexivity |].
      destruct (IH H) as [-> | Hin]; [left; reflexivity | right; right; exact Hin].
Qed.

Lemma keys_set_NoDup {V : Type} (d : dict V) (k : string) (v : V) :
  NoDup (Dict.keys d) -> NoDup (Dict.keys (Dict.set d k v)).
Proof.
  induction d as [| [k' v'] r IH]; simpl; intros H.
  - constructor; [intros [] | constructor].
  - inversion H as [| ? ? Hnin Hr]; subst.
    destruct (String.eqb k' k) eqn:E; simpl.
    + constructor; assumption.
    + constructor; [| apply IH; exact Hr].
      intros Hin. apply in_keys_set in Hin. destruct Hin as [-> | Hin].
      * rewrite String.eqb_refl in E. discriminate.
      * contradiction.
Qed.

Lemma keys_set_present {V : Type} (d : dict V) (k : string) (v : V) :
  Dict.get d k <> None -> Dict.keys (Dict.set d k v) = Dict.keys d.
Proof.
  induction d as [| [k' v'] r IH]; simpl; intros H.
  - contradiction.
  - destruct (String.eqb k' k) eqn:E; simpl; [reflexivity |].
    rewrite IH by exact H. reflexivity.
Qed.

Lemma parse_line_NoDup (st st' : Pacsize.parser_state) (line : string) :
  NoDup (Dict.keys (fst st)) -> Pacsize.parse_line st line = Ok st' ->
  NoDup (Dict.keys (fst st')).
Proof.
  destruct st as [sizes cur]. unfold Pacsize.parse_line. cbv zeta. intros Hnd.
  destruct (Str.startswith "Name" (Str.strip line)).
  - destruct (Str.split1 ":" (Str.strip line)) as [| a [| b r]];
      intros H; injection H as <-; exact Hnd.
  - destruct (Str.startswith "Installed Size" (Str.strip line) && Pacsize.truthy cur).
    + destruct (Str.split1 ":" (Str.strip line)) as [| a [| b r]];
        try (intros H; injection H as <-; exact Hnd).
      destruct cur as [pkg |]; [| intros H; injection H as <-; exact Hnd].
      destruct (Pacsize.parse_size (Str.strip b)) as [v | e]; [| discriminate].
      intros H. injection H as <-. apply keys_set_NoDup. exact Hnd.
    + intros H. injection H as <-. exact Hnd.
Qed.

Lemma parse_lines_NoDup (lines : list string) :
  forall st st',
    NoDup (Dict.keys (fst st)) -> Pacsize.parse_lines lines st = Ok st' ->
    NoDup (Dict.keys (fst st')).
Proof.
  induction lines as [| line rest IH]; intros st st' Hnd; cbn [Pacsize.parse_lines].
  - intros H. injection H as <-. exact Hnd.
  - destruct (Pacsize.parse_line st line) as [st1 | e] eqn:E; [| discriminate].
    unfold rbind. apply IH. eapply parse_line_NoDup; eassumption.
Qed.

Lemma parse_lines_app (a b : list string) (st : Pacsize.parser_state) :
  Pacsize.parse_lines (a ++ b) st =
  let? st' := Pacsize.parse_lines a st in Pacsize.parse_lines b st'.
Proof.
  revert st. induction a as [| line rest IH]; intros st; cbn [Pacsize.parse_lines app].
  - reflexivity.
  - destruct (Pacsize.parse_line st line) as [st1 | e]; [| reflexivity].
    unfold rbind at 1 3. apply IH.
Qed.

(** C10: the dictionary returned by the block parser never holds a package
    name twice; a complete block (a name line, then a size line) stores its
    size under its name whatever came before, replacing the size of an
    earlier block of the same name without adding a key: the last write
    wins. *)
Theorem block_parser_unique_keys_last_wins :
  (forall out sizes, Pacsize.parse_blocks out = Ok sizes -> NoDup (Dict.keys sizes)) /\
  (forall earlier sizes cur name_line size_line pkg size_str bytes,
      Pacsize.parse_lines earlier ([], None) = Ok (sizes, cur) ->
      name_field name_line pkg -> pkg <> "" ->
      size_field size_line size_str ->
      Pacsize.parse_size size_str = Ok bytes ->
      Pacsize.parse_lines (earlier ++ [name_line; size_line]) ([], None)
        = Ok (Dict.set sizes pkg bytes, None) /\
      Dict.get (Dict.set sizes pkg bytes) pkg = Some bytes /\
      (Dict.get sizes pkg <> None ->
       Dict.keys (Dict.set sizes pkg bytes) = Dict.keys sizes)) /\
  Pacsize.parse_blocks
    ("Name: foo" ++ LF ++ "Installed Size: 1.00 KiB" ++ LF ++
     "Name: bar" ++ LF ++ "Installed Size: 3.00 KiB" ++ LF ++
     "Name: foo" ++ LF ++ "Installed Size: 2.00 KiB")%string
  = Ok [("foo", PyFloat (B64.of_Z 2048)); ("bar", PyFloat (B64.of_Z 3072))].
Proof.
  split.
  { intros out sizes. unfold Pacsize.parse_blocks.
    destruct (Pacsize.parse_lines (Str.splitlines out) ([], None)) as [st | e] eqn:E;
      [| discriminate].
    unfold rbind. intros H. injection H as <-.
    apply (parse_lines_NoDup (Str.splitlines out) ([], None) st);
      [constructor | exact E]. }
  split.
  { intros earlier sizes cur l1 l2 pkg s v Hpre Hname Hpkg Hsize Hparse.
    split; [| split].
    - rewrite parse_lines_app, Hpre. unfold rbind at 1.
      cbn [Pacsize.parse_lines].
      rewrite (parse_line_name sizes cur l1 pkg Hname). unfold rbind at 1.
      rewrite (parse_line_size sizes l2 pkg s Hsize Hpkg), Hparse.
      reflexivity.
    - apply dict_get_set_same.
    - apply keys_set_present. }
  vm_compute. reflexivity.
Qed.

Lemma block_parser_unique_keys_last_wins_witness :
  NoDup (Dict.keys [("foo", PyFloat (B64.of_Z 2048))]).
Proof.
  apply (proj1 block_parser_unique_keys_last_wins
           ("Name: foo" ++ LF ++ "Installed Size: 1.00 KiB" ++ LF ++
            "Name: foo" ++ LF ++ "Installed Size: 2.00 KiB")%string).
  vm_compute. reflexivity.
Defined.

(** ** Lines that are not what the parsers expect *)

(** C3, where the code departs from it: a size line whose value does not
    start with a number makes [parse_size], and with it the block parser
    and [get_installed_size_batch], raise [ValueError]. The other malformed
    lines are skipped: a value that is not two words counts as 0, an
    unknown unit as bytes, and the removal-size parser skips every line
    that is not made of digits; it returns a total unless a digit line has
    more than 4300 digits, which [int] refuses with [ValueError]. *)
Theorem parse_size_raises_on_non_numeric_value :
  Pacsize.parse_size "abc MiB" = Raise ValueError /\
  Pacsize.parse_blocks ("Name: foo" ++ LF ++ "Installed Size: abc MiB")%string
    = Raise ValueError /\
  (forall w packages,
      Pacsize.get_installed_size_batch
        {| which := w;
           run := fun _ => Some {| returncode := 0;
                                   stdout := ("Name: foo" ++ LF ++ "Installed Size: abc MiB")%string;
                                   stderr := "" |} |}
        ("foo" :: packages)
      = ([Run ("pacman" :: "-Si" :: "foo" :: packages)], Raise ValueError)) /\
  Pacsize.parse_size "12.5" = Ok (PyInt 0) /\
  Pacsize.parse_size "12 parsecs" = Ok (PyFloat (B64.of_Z 12)) /\
  (forall line rest total_bytes,
      Str.isdigit (Str.strip line) = false ->
      Pacremove.sum_lines (line :: rest) total_bytes =
      Pacremove.sum_lines rest total_bytes) /\
  (forall lines,
      existsb over_limit lines = false ->
      exists total_bytes, Pacremove.sum_lines lines 0 = Ok total_bytes) /\
  (forall lines,
      existsb over_limit lines = true ->
      Pacremove.sum_lines lines 0 = Raise ValueError).
Proof.
  split; [vm_compute; reflexivity |].
  split; [vm_compute; reflexivity |].
  split; [intros w packages; vm_compute; reflexivity |].
  split; [vm_compute; reflexivity |].
  split; [vm_compute; reflexivity |].
  split.
  { intros line rest t H. cbn [Pacremove.sum_lines]. rewrite H. reflexivity. }
  split.
  { intros lines H. exists (0 + lines_total lines).
    apply sum_lines_within_limit, H. }
  intros lines H. rewrite sum_lines_total, H. reflexivity.
Qed.

(** * The size formatter and its inverse *)

(** ** Rounding *)

Lemma round_half_even_exact (k q : Z) :
  0 < q -> B64.round_half_even (k * q) q = k.
Proof.
  intros Hq. unfold B64.round_half_even.
  rewrite Z.mod_mul by lia. rewrite Z.div_mul by lia.
  assert (E : (2 * 0 ?= q) = Lt) by (apply Z.compare_lt_iff; lia).
  rewrite E. reflexivity.
Qed.

Lemma round_half_even_scale (p q c : Z) :
  0 < q -> 0 < c -> B64.round_half_even (p * c) (q * c) = B64.round_half_even p q.
Proof.
  intros Hq Hc. unfold B64.round_half_even.
  rewrite Z.div_mul_cancel_r by lia.
  rewrite Z.mul_mod_distr_r by lia.
  destruct (Z.compare_spec (2 * (p mod q * c)) (q * c)),
    (Z.compare_spec (2 * (p mod q)) q); try reflexivity; nia.
Qed.

Lemma round_half_even_same_fraction (p1 q1 p2 q2 : Z) :
  0 < q1 -> 0 < q2 -> p1 * q2 = p2 * q1 ->
  B64.round_half_even p1 q1 = B64.round_half_even p2 q2.
Proof.
  intros H1 H2 E.
  rewrite <- (round_half_even_scale p1 q1 q2) by assumption.
  rewrite <- (round_half_even_scale p2 q2 q1) by assumption.
  rewrite E. f_equal. ring.
Qed.

Lemma round_half_even_near (p q : Z) :
  0 < q -> 2 * Z.abs (p - B64.round_half_even p q * q) <= q.
Proof.
  intros Hq. unfold B64.round_half_even.
  pose proof (Z.div_mod p q ltac:(lia)) as E.
  pose proof (Z.mod_pos_bound p q Hq) as B.
  destruct (Z.compare_spec (2 * (p mod q)) q) as [C | C | C].
  - destruct (Z.even (p / q)); lia.
  - lia.
  - lia.
Qed.

Lemma round_half_even_mono_bound (p q n : Z) :
  0 < q -> 0 <= p -> p <= n * q -> 0 <= B64.round_half_even p q <= n.
Proof.
  intros Hq Hp Hn. unfold B64.round_half_even.
  pose proof (Z.div_mod p q ltac:(lia)) as E.
  pose proof (Z.mod_pos_bound p q Hq) as B.
  assert (0 <= p / q) by (apply Z.div_pos; lia).
  assert (p / q <= n) by (apply Z.div_le_upper_bound; lia).
  assert (p / q = n -> p mod q = 0) by nia.
  destruct (Z.compare_spec (2 * (p mod q)) q) as [C | C | C];
    [destruct (Z.even (p / q)) | |]; nia.
Qed.

(** ** Powers of two *)

Lemma pow2_pos (k : Z) : 0 <= k -> 0 < 2 ^ k.
Proof. intros H. apply Z.pow_pos_nonneg; lia. Qed.

Lemma pow2_add (a b : Z) : 0 <= a -> 0 <= b -> 2 ^ (a + b) = 2 ^ a * 2 ^ b.
Proof. intros Ha Hb. apply Z.pow_add_r; assumption. Qed.

Lemma pow2_split (a b : Z) : 0 <= a <= b -> 2 ^ b = 2 ^ a * 2 ^ (b - a).
Proof.
  intros H. rewrite <- pow2_add by lia. f_equal. lia.
Qed.

Lemma pow2_lt_inv (a b : Z) : 0 <= a -> 0 <= b -> 2 ^ a < 2 ^ b -> a < b.
Proof.
  intros Ha Hb H. apply (Z.pow_lt_mono_r_iff 2); [lia | assumption | exact H].
Qed.

Lemma pow2_le (a b : Z) : 0 <= a <= b -> 2 ^ a <= 2 ^ b.
Proof. intros H. apply Z.pow_le_mono_r; lia. Qed.

(** [x * 2^a] and [x * 2^b] are [shl x (- l)] and [shl x l] times a common
    positive factor when [l = b - a]. *)
Lemma shl_common (l a b : Z) :
  0 <= a -> 0 <= b -> l = b - a ->
  exists c, 0 < c /\
    forall x, x * 2 ^ a = B64.shl x (- l) * c /\ x * 2 ^ b = B64.shl x l * c.
Proof.
  intros Ha Hb ->. unfold B64.shl.
  destruct (Z_le_gt_dec a b) as [Hab | Hab].
  - exists (2 ^ a). split; [apply pow2_pos; lia |]. intros x.
    rewrite (Z.max_l 0 (- (b - a))) by lia.
    rewrite (Z.max_r 0 (b - a)) by lia.
    rewrite Z.pow_0_r. split; [ring |].
    rewrite (pow2_split a b) by lia. ring.
  - exists (2 ^ b). split; [apply pow2_pos; lia |]. intros x.
    rewrite (Z.max_r 0 (- (b - a))) by lia.
    rewrite (Z.max_l 0 (b - a)) by lia.
    rewrite Z.pow_0_r. split; [| ring].
    rewrite (pow2_split b a) by lia.
    replace (- (b - a)) with (a - b) by lia. ring.
Qed.

Lemma shl_le_iff (p q l a b : Z) :
  0 <= a -> 0 <= b -> l = b - a ->
  (B64.shl q l <= B64.shl p (- l) <-> q * 2 ^ b <= p * 2 ^ a).
Proof.
  intros Ha Hb Hl. destruct (shl_common l a b Ha Hb Hl) as (c & Hc & H).
  destruct (H p) as [-> _]. destruct (H q) as [_ ->]. split; nia.
Qed.

Lemma shl_eq_iff (p q x l a b : Z) :
  0 <= a -> 0 <= b -> l = b - a ->
  (B64.shl p (- l) = x * B64.shl q l <-> p * 2 ^ a = x * (q * 2 ^ b)).
Proof.
  intros Ha Hb Hl. destruct (shl_common l a b Ha Hb Hl) as (c & Hc & H).
  destruct (H p) as [-> _]. destruct (H q) as [_ ->]. split; nia.
Qed.

Lemma ilog2_bounds (p q a b : Z) :
  0 < p -> 0 < q -> 0 <= a -> 0 <= b ->
  (b - a = B64.ilog2 p q -> q * 2 ^ b <= p * 2 ^ a) /\
  (b - a = B64.ilog2 p q + 1 -> p * 2 ^ a < q * 2 ^ b).
Proof.
  intros Hp Hq Ha Hb.
  pose proof (Z.log2_spec p Hp) as [Hp1 Hp2].
  pose proof (Z.log2_spec q Hq) as [Hq1 Hq2].
  pose proof (Z.log2_nonneg p) as Hu. pose proof (Z.log2_nonneg q) as Hw.
  unfold B64.ilog2. cbv zeta.
  set (u := Z.log2 p) in *. set (w := Z.log2 q) in *.
  pose proof (pow2_pos a Ha) as HA. pose proof (pow2_pos b Hb) as HB.
  pose proof (pow2_pos u Hu) as HU. pose proof (pow2_pos w Hw) as HW.
  replace (Z.succ u) with (u + 1) in Hp2 by lia.
  replace (Z.succ w) with (w + 1) in Hq2 by lia.
  rewrite pow2_add in Hp2, Hq2 by lia. change (2 ^ 1) with 2 in *.
  destruct (Z.leb_spec (B64.shl q (u - w)) (B64.shl p (- (u - w)))) as [T | T].
  - split; intros E.
    + apply (shl_le_iff p q (u - w) a b Ha Hb); [lia | exact T].
    + assert (E2 : 2 ^ u * 2 ^ a * 2 = 2 ^ w * 2 ^ b).
      { rewrite <- !pow2_add by lia.
        replace (2 ^ (u + a) * 2) with (2 ^ (u + a + 1))
          by (rewrite (pow2_add (u + a) 1) by lia; reflexivity).
        f_equal. lia. }
      nia.
  - split; intros E.
    + assert (E2 : 2 ^ w * 2 ^ b * 2 = 2 ^ u * 2 ^ a).
      { rewrite <- !pow2_add by lia.
        replace (2 ^ (w + b) * 2) with (2 ^ (w + b + 1))
          by (rewrite (pow2_add (w + b) 1) by lia; reflexivity).
        f_equal. lia. }
      nia.
    + assert (~ q * 2 ^ b <= p * 2 ^ a); [| lia].
      intros C. apply (shl_le_iff p q (u - w) a b Ha Hb) in C; lia.
Qed.

(** A number [m * 2^(b - a)] that binary64 represents is left as it is. *)
Lemma round_exact (neg : bool) (p q m a b : Z) :
  0 < q -> 0 < m < 2 ^ 53 -> 0 <= a -> 0 <= b ->
  B64.emin <= b - a <= B64.emax ->
  p * 2 ^ a = m * (q * 2 ^ b) ->
  exists e,
    B64.emin <= e <= b - a /\
    0 < m * 2 ^ (b - a - e) < 2 ^ 53 /\
    B64.round neg p q = B64.Fin neg (m * 2 ^ (b - a - e)) e.
Proof.
  intros Hq Hm Ha Hb HE Hv. unfold B64.emin, B64.emax in HE.
  pose proof (pow2_pos a Ha) as HA. pose proof (pow2_pos b Hb) as HB.
  assert (HQ : 0 < q * 2 ^ b) by nia.
  assert (Hp : 0 < p) by nia.
  set (l := B64.ilog2 p q).
  (* the exponent of the value is at least [b - a] *)
  assert (Hlo : b - a <= l).
  { destruct (Z_le_gt_dec (b - a) l) as [H | C]; [exact H | exfalso].
    set (t := Z.max 0 (- (l + 1 + a))).
    assert (Ht : 0 <= t) by lia.
    pose proof (proj2 (ilog2_bounds p q (a + t) (l + 1 + a + t) Hp Hq
                         ltac:(lia) ltac:(lia)) ltac:(fold l; lia)) as U.
    pose proof (pow2_le (l + 1 + a + t) (b + t) ltac:(lia)) as L.
    rewrite (pow2_add a t) in U by lia. rewrite (pow2_add b t) in L by lia.
    pose proof (pow2_pos t Ht) as HT.
    assert (S1 : p * 2 ^ a * 2 ^ t < q * 2 ^ b * 2 ^ t) by nia.
    rewrite Hv in S1.
    assert (K : 0 < q * 2 ^ b * 2 ^ t) by nia.
    nia. }
  (* and at most [52 + b - a] *)
  assert (Hhi : l <= 52 + (b - a)).
  { destruct (Z_le_gt_dec l (52 + (b - a))) as [H | C]; [exact H | exfalso].
    pose proof (proj1 (ilog2_bounds p q a (l + a) Hp Hq Ha ltac:(lia))
                  ltac:(fold l; lia)) as L.
    pose proof (pow2_le (53 + b) (l + a) ltac:(lia)) as M.
    rewrite (pow2_add 53 b) in M by lia.
    nia. }
  set (e := Z.max (l - 52) (-1074)).
  assert (He : -1074 <= e <= b - a) by lia.
  assert (Hel : l + 1 - e <= 53) by lia.
  set (x := m * 2 ^ (b - a - e)).
  pose proof (pow2_pos (b - a - e) ltac:(lia)) as HX.
  (* the scaled fraction is the integer [x] *)
  assert (Hc : exists c, 0 <= c /\ 0 <= e + a + c)
    by (exists (Z.max 0 (- (e + a))); lia).
  destruct Hc as (c & Hc & Hc').
  pose proof (pow2_pos c Hc) as HC.
  assert (Hx : p * 2 ^ (a + c) = x * (q * 2 ^ (e + a + c))).
  { assert (E1 : 2 ^ (b - a - e) * 2 ^ (e + a + c) = 2 ^ b * 2 ^ c).
    { rewrite <- (pow2_add (b - a - e) (e + a + c)) by lia.
      rewrite <- (pow2_add b c) by lia. f_equal. lia. }
    unfold x. rewrite (pow2_add a c) by lia.
    replace (m * 2 ^ (b - a - e) * (q * 2 ^ (e + a + c)))
      with (m * q * (2 ^ (b - a - e) * 2 ^ (e + a + c))) by ring.
    rewrite E1, Z.mul_assoc, Hv. ring. }
  assert (Hshl : B64.shl p (- e) = x * B64.shl q e).
  { apply (shl_eq_iff p q x e (a + c) (e + a + c)); [lia | lia | lia | exact Hx]. }
  assert (Hqe : 0 < B64.shl q e).
  { unfold B64.shl. pose proof (pow2_pos (Z.max 0 e) ltac:(lia)). nia. }
  assert (Hx53 : 0 < x < 2 ^ 53).
  { split; [unfold x; nia |].
    pose proof (proj2 (ilog2_bounds p q (a + c) (l + 1 + a + c) Hp Hq
                         ltac:(lia) ltac:(lia)) ltac:(fold l; lia)) as U.
    rewrite Hx in U.
    replace (l + 1 + a + c) with ((e + a + c) + (l + 1 - e)) in U by lia.
    rewrite (pow2_add (e + a + c) (l + 1 - e)) in U by lia.
    pose proof (pow2_le (l + 1 - e) 53 ltac:(lia)) as M.
    pose proof (pow2_pos (e + a + c) ltac:(lia)) as HP.
    assert (K : 0 < q * 2 ^ (e + a + c)) by nia.
    assert (U' : x * (q * 2 ^ (e + a + c)) < 2 ^ (l + 1 - e) * (q * 2 ^ (e + a + c)))
      by lia.
    apply Z.mul_lt_mono_pos_r in U'; lia. }
  exists e. split; [unfold B64.emin; exact He |]. split; [exact Hx53 |].
  unfold B64.round. replace (p =? 0) with false by (symmetry; apply Z.eqb_neq; lia).
  fold l. unfold B64.emin. cbv zeta. fold e.
  rewrite Hshl, (round_half_even_exact x _ Hqe).
  replace (x =? 2 ^ 53) with false by (symmetry; apply Z.eqb_neq; lia).
  replace (B64.emax <? e) with false
    by (symmetry; apply Z.ltb_ge; unfold B64.emax; lia).
  reflexivity.
Qed.

Lemma pow1024 (i : Z) : 0 <= i -> 1024 ^ i = 2 ^ (10 * i).
Proof.
  intros Hi. change 1024 with (2 ^ 10). rewrite <- Z.pow_mul_r by lia. reflexivity.
Qed.

Lemma of_Z_exact (b : Z) :
  0 <= b < 2 ^ 53 -> scaled (PyFloat (B64.of_Z b)) b 0.
Proof.
  intros Hb. unfold scaled, B64.of_Z.
  replace (b <? 0) with false by (symmetry; apply Z.ltb_ge; lia).
  rewrite Z.abs_eq by lia.
  destruct (Z.eq_dec b 0) as [-> | Hne].
  - exists B64.emin. split; [unfold B64.emin; lia | reflexivity].
  - destruct (round_exact false b 1 b 0 0) as (e & He & _ & E);
      try (unfold B64.emin, B64.emax; lia).
    exists e. split; [lia |]. rewrite E. repeat f_equal; lia.
Qed.

Lemma lt_1024_scaled (v : pynum) (b i : Z) :
  0 <= b -> 0 <= i -> scaled v b i ->
  Num.lt v (PyFloat f1024) = (b <? 1024 ^ (i + 1)).
Proof.
  intros Hb Hi (e & He & ->). unfold B64.emin in He.
  unfold Num.lt, Num.exact, f1024, B64.ltb, B64.signed. cbv zeta.
  set (k := Z.min e (-42)).
  assert (Hk : k <= e /\ k <= -42 /\ -1074 <= k) by lia.
  rewrite (pow1024 (i + 1)) by lia.
  assert (E1 : b * 2 ^ (- (10 * i) - e) * 2 ^ (e - k) = b * 2 ^ (- (10 * i) - k)).
  { rewrite <- Z.mul_assoc, <- pow2_add by lia. do 2 f_equal. lia. }
  assert (E2 : 2 ^ 52 * 2 ^ (-42 - k) = 2 ^ (10 * (i + 1)) * 2 ^ (- (10 * i) - k)).
  { rewrite <- !pow2_add by lia. f_equal. lia. }
  rewrite E1, E2.
  pose proof (pow2_pos (- (10 * i) - k) ltac:(lia)) as HP.
  destruct (Z.ltb_spec b (2 ^ (10 * (i + 1)))) as [H | H].
  - apply Z.ltb_lt. nia.
  - apply Z.ltb_ge. nia.
Qed.

Lemma div_1024_scaled (v : pynum) (b i : Z) :
  0 < b < 2 ^ 53 -> 0 <= i <= 100 -> scaled v b i ->
  exists v', Num.truediv v (PyFloat f1024) = Ok v' /\ scaled v' b (i + 1).
Proof.
  intros Hb Hi (e & He & ->). unfold B64.emin in He.
  unfold Num.truediv. change (Num.is_zero (PyFloat f1024)) with false.
  cbn [Num.to_float rbind]. unfold f1024, B64.div.
  change (2 ^ 52 =? 0) with false. cbn [xorb].
  set (M := b * 2 ^ (- (10 * i) - e)).
  destruct (round_exact false (B64.shl M (e - -42)) (B64.shl (2 ^ 52) (-42 - e))
              b (10 * (i + 1)) 0) as (e' & He' & _ & E).
  - unfold B64.shl. pose proof (pow2_pos (Z.max 0 (-42 - e)) ltac:(lia)). lia.
  - exact Hb.
  - lia.
  - lia.
  - unfold B64.emin, B64.emax. lia.
  - unfold B64.shl, M. rewrite Z.pow_0_r.
    destruct (Z_le_gt_dec 0 (e + 42)) as [C | C].
    + rewrite (Z.max_r 0 (e - -42)), (Z.max_l 0 (-42 - e)) by lia.
      rewrite Z.pow_0_r.
      replace (b * 2 ^ (- (10 * i) - e) * 2 ^ (e - -42) * 2 ^ (10 * (i + 1)))
        with (b * (2 ^ (- (10 * i) - e) * (2 ^ (e - -42) * 2 ^ (10 * (i + 1))))) by ring.
      rewrite <- !pow2_add by lia.
      replace (- (10 * i) - e + (e - -42 + 10 * (i + 1))) with 52 by lia. ring.
    + rewrite (Z.max_l 0 (e - -42)), (Z.max_r 0 (-42 - e)) by lia.
      rewrite Z.pow_0_r.
      replace (b * 2 ^ (- (10 * i) - e) * 1 * 2 ^ (10 * (i + 1)))
        with (b * (2 ^ (- (10 * i) - e) * 2 ^ (10 * (i + 1)))) by ring.
      rewrite <- !pow2_add by lia.
      replace (- (10 * i) - e + 10 * (i + 1)) with (52 + (-42 - e)) by lia. ring.
  - eexists. split; [rewrite E; reflexivity |].
    exists e'. split; [lia |]. repeat f_equal; lia.
Qed.

Lemma render_scaled (v : pynum) (b i : Z) (unit : string) :
  0 <= b -> 0 <= i -> scaled v b i -> render v unit = Ok (rendering b i unit).
Proof.
  intros Hb Hi (e & He & ->). unfold B64.emin in He.
  unfold render, rendering, Num.format_f. cbn [Num.to_float rbind B64.format_f].
  change (10 ^ Z.of_nat 2) with 100. unfold B64.shl.
  rewrite (Z.max_l 0 e), (Z.max_r 0 (- e)), Z.pow_0_r by lia.
  pose proof (pow2_pos (- e) ltac:(lia)).
  pose proof (pow2_pos (10 * i) ltac:(lia)).
  assert (E : B64.round_half_even (b * 2 ^ (- (10 * i) - e) * 100 * 1) (1 * 2 ^ (- e))
              = B64.round_half_even (100 * b) (1024 ^ i)).
  { apply round_half_even_same_fraction; [lia | rewrite pow1024; lia |].
    rewrite pow1024 by lia.
    replace (b * 2 ^ (- (10 * i) - e) * 100 * 1 * 2 ^ (10 * i))
      with (100 * b * (2 ^ (- (10 * i) - e) * 2 ^ (10 * i))) by ring.
    rewrite <- pow2_add by lia.
    replace (- (10 * i) - e + 10 * i) with (- e) by lia. ring. }
  rewrite E. reflexivity.
Qed.

Lemma format_loop_scaled (us : list string) (last : string) :
  forall v b i,
    0 <= b < 2 ^ 53 -> 0 <= i -> i + Z.of_nat (List.length us) <= 100 ->
    scaled v b i ->
    format_loop us last v =
    Ok (rendering b (fst (pick us last b i)) (snd (pick us last b i))).
Proof.
  induction us as [| unit rest IH]; intros v b i Hb Hi Hlen Hv;
    cbn [format_loop pick fst snd].
  - apply render_scaled; [lia | lia | exact Hv].
  - rewrite (lt_1024_scaled v b i) by (lia || assumption).
    destruct (Z.ltb_spec b (1024 ^ (i + 1))) as [Hlt | Hge]; cbn [fst snd].
    + apply render_scaled; [lia | lia | exact Hv].
    + assert (0 < b).
      { pose proof (Z.pow_pos_nonneg 1024 (i + 1) ltac:(lia) ltac:(lia)). lia. }
      cbn [List.length] in Hlen.
      destruct (div_1024_scaled v b i) as (v' & E & Hv'); [lia | lia | exact Hv |].
      rewrite E. unfold rbind. apply IH; [lia | lia | lia | exact Hv'].
Qed.

Lemma to_float_int (b : Z) :
  0 <= b < 2 ^ 53 -> Num.to_float (PyInt b) = Ok (B64.of_Z b).
Proof.
  intros Hb. destruct (of_Z_exact b Hb) as (e & _ & E).
  injection E as E. cbn [Num.to_float]. rewrite E. reflexivity.
Qed.

Lemma format_loop_int (us : list string) (last : string) (b : Z) :
  0 <= b < 2 ^ 53 ->
  format_loop us last (PyInt b) = format_loop us last (PyFloat (B64.of_Z b)).
Proof.
  intros Hb. pose proof (to_float_int b Hb) as Hf.
  assert (Hr : forall unit, render (PyInt b) unit = render (PyFloat (B64.of_Z b)) unit).
  { intros unit. unfold render, Num.format_f. rewrite Hf. reflexivity. }
  destruct us as [| unit rest]; cbn [format_loop]; [apply Hr |].
  rewrite (lt_1024_scaled (PyFloat (B64.of_Z b)) b 0)
    by (try lia; apply of_Z_exact; exact Hb).
  assert (Hlt : Num.lt (PyInt b) (PyFloat f1024) = (b <? 1024 ^ (0 + 1))).
  { unfold Num.lt, Num.exact, f1024, B64.ltb, B64.signed.
    replace (b <? 0) with false by (symmetry; apply Z.ltb_ge; lia).
    rewrite Z.abs_eq by lia. cbv zeta.
    change (Z.min 0 (-42)) with (-42). change (0 - -42) with 42.
    change (-42 - -42) with 0. change (2 ^ 52 * 2 ^ 0) with (1024 * 2 ^ 42).
    change (1024 ^ (0 + 1)) with 1024.
    destruct (Z.ltb_spec b 1024); [apply Z.ltb_lt | apply Z.ltb_ge]; lia. }
  rewrite Hlt, Hr.
  destruct (b <? 1024 ^ (0 + 1)); [reflexivity |].
  unfold Num.truediv. change (Num.is_zero (PyFloat f1024)) with false.
  cbv iota. rewrite Hf. reflexivity.
Qed.

Lemma format_loop_bytes (us : list string) (last : string) (b : Z) :
  0 <= b < 2 ^ 53 -> (List.length us <= 100)%nat ->
  format_loop us last (PyInt b) =
    Ok (rendering b (fst (pick us last b 0)) (snd (pick us last b 0))) /\
  format_loop us last (PyFloat (B64.of_Z b)) =
    Ok (rendering b (fst (pick us last b 0)) (snd (pick us last b 0))).
Proof.
  intros Hb Hlen. rewrite format_loop_int by exact Hb.
  assert (E : format_loop us last (PyFloat (B64.of_Z b)) =
              Ok (rendering b (fst (pick us last b 0)) (snd (pick us last b 0)))).
  { apply format_loop_scaled; [exact Hb | lia | lia | apply of_Z_exact; exact Hb]. }
  split; exact E.
Qed.

Lemma pick_table (b : Z) :
  0 <= b < 1024 ^ 5 ->
  pick ["B"; "KiB"; "MiB"; "GiB"] "TiB" b 0
    = (Z.of_nat (unit_index b), nth (unit_index b) units "") /\
  pick ["B"; "KiB"; "MiB"; "GiB"; "TiB"] "TiB" b 0
    = (Z.of_nat (unit_index b), nth (unit_index b) units "").
Proof.
  intros Hb. unfold unit_index. cbn [pick].
  change (0 + 1) with 1. change (1 + 1) with 2. change (2 + 1) with 3.
  change (3 + 1) with 4. change (4 + 1) with 5. change (1024 ^ 1) with 1024.
  replace (b <? 1024 ^ 5) with true by (symmetry; apply Z.ltb_lt; lia).
  destruct (b <? 1024); [split; reflexivity |].
  destruct (b <? 1024 ^ 2); [split; reflexivity |].
  destruct (b <? 1024 ^ 3); [split; reflexivity |].
  destruct (b <? 1024 ^ 4); split; reflexivity.
Qed.

Lemma unit_index_bounds (b : Z) :
  0 <= b < 1024 ^ 5 ->
  (unit_index b <= 4)%nat /\
  b < 1024 * 1024 ^ Z.of_nat (unit_index b) /\
  (forall j, (j < unit_index b)%nat -> 1024 * 1024 ^ Z.of_nat j <= b).
Proof.
  intros Hb. unfold unit_index.
  destruct (Z.ltb_spec b 1024) as [H1 | H1].
  { split; [lia |]. split; [simpl; lia |]. intros j Hj. lia. }
  destruct (Z.ltb_spec b (1024 ^ 2)) as [H2 | H2].
  { split; [lia |]. split; [simpl; lia |]. intros j Hj.
    assert (j = 0%nat) as -> by lia. simpl. lia. }
  destruct (Z.ltb_spec b (1024 ^ 3)) as [H3 | H3].
  { split; [lia |]. split; [simpl; lia |]. intros j Hj.
    assert (j = 0 \/ j = 1)%nat as [-> | ->] by lia; simpl; lia. }
  destruct (Z.ltb_spec b (1024 ^ 4)) as [H4 | H4].
  { split; [lia |]. split; [simpl; lia |]. intros j Hj.
    assert (j = 0 \/ j = 1 \/ j = 2)%nat as [-> | [-> | ->]] by lia; simpl; lia. }
  split; [lia |]. split; [simpl; lia |]. intros j Hj.
  assert (j = 0 \/ j = 1 \/ j = 2 \/ j = 3)%nat as [-> | [-> | [-> | ->]]] by lia;
    simpl; lia.
Qed.

(** ** Reading back the text of a size *)

Lemma append_empty (s : string) : (s ++ "")%string = s.
Proof. induction s as [| c r IH]; simpl; [| rewrite IH]; reflexivity. Qed.

Lemma append_assoc (a b c : string) : ((a ++ b) ++ c = a ++ (b ++ c))%string.
Proof. induction a as [| x r IH]; simpl; [| rewrite IH]; reflexivity. Qed.

Lemma all_chars_app (p : ascii -> bool) (a b : string) :
  Str.all_chars p (a ++ b) = Str.all_chars p a && Str.all_chars p b.
Proof.
  induction a as [| c r IH]; simpl; [reflexivity |].
  rewrite IH, andb_assoc. reflexivity.
Qed.

Lemma lstrip_word (s : string) : Str.all_chars not_space s = true -> Str.lstrip s = s.
Proof.
  destruct s as [| c r]; [reflexivity |]. cbn [Str.all_chars Str.lstrip].
  intros H. apply andb_prop in H. destruct H as [Hc _].
  unfold not_space in Hc. apply negb_true_iff in Hc. rewrite Hc. reflexivity.
Qed.

Lemma rstrip_word (s : string) : Str.all_chars not_space s = true -> Str.rstrip s = s.
Proof.
  induction s as [| c r IH]; [reflexivity |]. cbn [Str.all_chars Str.rstrip].
  intros H. apply andb_prop in H. destruct H as [Hc Hr].
  unfold not_space in Hc. apply negb_true_iff in Hc.
  rewrite (IH Hr), Hc. reflexivity.
Qed.

Lemma strip_word (s : string) : Str.all_chars not_space s = true -> Str.strip s = s.
Proof.
  intros H. unfold Str.strip. rewrite (lstrip_word s H). apply rstrip_word, H.
Qed.

Lemma split_word (w t : string) :
  is_word w = true -> Str.is_empty t || Str.head_is Str.is_space t = true ->
  Str.split (w ++ t) = w :: Str.split t.
Proof.
  unfold is_word. destruct w as [| c r]; [discriminate |].
  cbn [Str.is_empty negb andb]. revert c.
  induction r as [| c' r IH]; intros c H Ht; cbn [Str.all_chars] in H;
    apply andb_prop in H; destruct H as [Hc Hr];
    unfold not_space in Hc; apply negb_true_iff in Hc.
  - cbn [append Str.split]. rewrite Hc, Ht. reflexivity.
  - pose proof Hr as Hr'. cbn [Str.all_chars] in Hr'.
    apply andb_prop in Hr'. destruct Hr' as [Hc' _].
    unfold not_space in Hc'. apply negb_true_iff in Hc'.
    change (String c (String c' r) ++ t)%string with (String c (String c' r ++ t)).
    cbn [Str.split]. rewrite Hc. fold Str.split.
    change (String c' r ++ t)%string with (String c' (r ++ t)) at 1 2.
    cbn [Str.is_empty Str.head_is orb]. rewrite Hc'.
    change (String c' (r ++ t)) with (String c' r ++ t)%string.
    rewrite (IH c' Hr Ht). reflexivity.
Qed.

Lemma split_two_words (w u : string) :
  is_word w = true -> is_word u = true ->
  Str.split (w ++ " " ++ u) = [w; u].
Proof.
  intros Hw Hu. rewrite (split_word w (" " ++ u)) by (assumption || reflexivity).
  change (" " ++ u)%string with (String " " u). cbn [Str.split].
  change (Str.is_space " ") with true. cbv iota.
  rewrite <- (append_empty u) at 1.
  rewrite (split_word u "") by (assumption || reflexivity). reflexivity.
Qed.

Lemma digit_char_digit (d : Z) :
  0 <= d <= 9 ->
  Str.is_digit (Str.digit_char d) = true /\ Str.digit_val (Str.digit_char d) = d.
Proof.
  intros H.
  assert (C : d = 0 \/ d = 1 \/ d = 2 \/ d = 3 \/ d = 4 \/ d = 5 \/ d = 6 \/
              d = 7 \/ d = 8 \/ d = 9) by lia.
  repeat (destruct C as [-> | C]; [split; reflexivity |]).
  subst d. split; reflexivity.
Qed.

Lemma digit_not_space' (c : ascii) : Str.is_digit c = true -> not_space c = true.
Proof.
  intros H. unfold not_space. rewrite (digit_not_space c H). reflexivity.
Qed.

Lemma le_digits_range (f : nat) :
  forall n, 0 <= n -> Forall (fun d => 0 <= d <= 9) (Str.le_digits f n).
Proof.
  induction f as [| f IH]; intros n Hn; cbn [Str.le_digits]; [constructor |].
  destruct (Z.ltb_spec n 10) as [H | H].
  - constructor; [lia | constructor].
  - constructor.
    + pose proof (Z.mod_pos_bound n 10 ltac:(lia)). lia.
    + apply IH. apply Z.div_pos; lia.
Qed.

Lemma le_digits_value (f : nat) :
  forall n, 0 <= n < 2 ^ Z.of_nat f -> le_value (Str.le_digits f n) = n.
Proof.
  induction f as [| f IH]; intros n Hn; cbn [Str.le_digits].
  - change (2 ^ Z.of_nat 0) with 1 in Hn. simpl. lia.
  - destruct (Z.ltb_spec n 10) as [H | H].
    + simpl. lia.
    + cbn [le_value fold_right]. fold (le_value (Str.le_digits f (n / 10))).
      rewrite IH.
      * pose proof (Z.div_mod n 10 ltac:(lia)). lia.
      * rewrite Nat2Z.inj_succ, Z.pow_succ_r in Hn by lia.
        split; [apply Z.div_pos; lia |].
        apply Z.div_lt_upper_bound; lia.
Qed.

Lemma digits_value_snoc (ds : list ascii) (c : ascii) :
  Str.digits_value (ds ++ [c]) = 10 * Str.digits_value ds + Str.digit_val c.
Proof. unfold Str.digits_value. rewrite fold_left_app. reflexivity. Qed.

Lemma be_digits_value (ds : list Z) :
  Forall (fun d => 0 <= d <= 9) ds ->
  Str.digits_value (map Str.digit_char (rev ds)) = le_value ds /\
  forallb Str.is_digit (map Str.digit_char (rev ds)) = true.
Proof.
  induction 1 as [| d ds Hd _ [IHv IHd]]; [split; reflexivity |].
  cbn [rev]. rewrite map_app. cbn [map].
  destruct (digit_char_digit d Hd) as [D1 D2].
  split.
  - rewrite digits_value_snoc, IHv, D2. cbn [le_value fold_right]. unfold le_value. lia.
  - rewrite forallb_app, IHd. cbn [forallb]. rewrite D1. reflexivity.
Qed.

Lemma of_Z_digits (n : Z) :
  0 <= n ->
  exists ds, ds <> [] /\ forallb Str.is_digit ds = true /\
             Str.of_Z n = Str.of_chars ds /\ Str.digits_value ds = n.
Proof.
  intros Hn. unfold Str.of_Z.
  set (f := S (Z.to_nat (Z.log2 n))).
  exists (map Str.digit_char (rev (Str.le_digits f n))).
  destruct (be_digits_value (Str.le_digits f n) (le_digits_range f n Hn)) as [Hv Hd].
  split; [| split; [exact Hd | split; [reflexivity |]]].
  - unfold f. cbn [Str.le_digits].
    destruct (n <? 10); cbn [rev]; rewrite map_app; intros C;
      apply app_eq_nil in C; destruct C as [_ C]; discriminate.
  - rewrite Hv. apply le_digits_value. split; [lia |].
    unfold f. rewrite Nat2Z.inj_succ, Z2Nat.id by apply Z.log2_nonneg.
    destruct (Z.eq_dec n 0) as [-> | Hne]; [reflexivity |].
    apply Z.log2_spec. lia.
Qed.

Lemma of_chars_app (a b : list ascii) :
  Str.of_chars (a ++ b) = (Str.of_chars a ++ Str.of_chars b)%string.
Proof. induction a as [| c r IH]; simpl; [| rewrite IH]; reflexivity. Qed.

Lemma all_digits_word (ds : list ascii) :
  forallb Str.is_digit ds = true -> Str.all_chars not_space (Str.of_chars ds) = true.
Proof.
  induction ds as [| c r IH]; [reflexivity |]. cbn [forallb Str.of_chars Str.all_chars].
  intros H. apply andb_prop in H. destruct H as [Hc Hr].
  rewrite (digit_not_space' c Hc), (IH Hr). reflexivity.
Qed.

(** A run of digits in front of the end of the text or of a point. *)
Lemma digitpart_run (ds : list ascii) (rest : string) :
  ds <> [] -> forallb Str.is_digit ds = true ->
  rest = "" \/ (exists r, rest = String "." r) ->
  Str.digitpart (Str.of_chars ds ++ rest) = Some (ds, rest).
Proof.
  intros Hne Hd Hrest. destruct ds as [| c r]; [contradiction |]. clear Hne.
  revert c Hd. induction r as [| c' r IH]; intros c Hd;
    cbn [forallb] in Hd; apply andb_prop in Hd; destruct Hd as [Hc Hr].
  - cbn [Str.of_chars append Str.digitpart]. rewrite Hc.
    destruct Hrest as [-> | [t ->]]; reflexivity.
  - pose proof Hr as Hr'. cbn [forallb] in Hr'.
    apply andb_prop in Hr'. destruct Hr' as [Hc' _].
    change (Str.of_chars (c :: c' :: r) ++ rest)%string
      with (String c (String c' (Str.of_chars r ++ rest))).
    rewrite digitpart_cons by assumption.
    change (String c' (Str.of_chars r ++ rest))
      with (Str.of_chars (c' :: r) ++ rest)%string.
    rewrite (IH c' Hr). reflexivity.
Qed.

Lemma digit_head_no_keyword (c : ascii) (r : string) :
  Str.is_digit c = true ->
  String.eqb (B64.lower_str (String c r)) "inf" = false /\
  String.eqb (B64.lower_str (String c r)) "infinity" = false /\
  String.eqb (B64.lower_str (String c r)) "nan" = false.
Proof.
  destruct c as [[] [] [] [] [] [] [] []]; try discriminate;
    intros _; repeat split; reflexivity.
Qed.

Lemma fixed_text (n : Z) :
  0 <= n ->
  exists ds,
    ds <> [] /\ forallb Str.is_digit ds = true /\
    Str.digits_value ds = n / 100 /\
    B64.fixed 2 n =
    (Str.of_chars ds ++
     String "." (Str.of_chars [Str.digit_char (n / 10 mod 10); Str.digit_char (n mod 10)]))%string.
Proof.
  intros Hn.
  destruct (of_Z_digits (n / 100)) as (ds & Hne & Hd & E & Hv);
    [apply Z.div_pos; lia |].
  exists ds. repeat split; try assumption.
  unfold B64.fixed. change (10 ^ Z.of_nat 2) with 100. rewrite E. reflexivity.
Qed.

Lemma fixed_word (n : Z) : 0 <= n -> is_word (B64.fixed 2 n) = true.
Proof.
  intros Hn. destruct (fixed_text n Hn) as (ds & Hne & Hd & _ & ->).
  unfold is_word. apply andb_true_intro. split.
  - destruct ds; [contradiction | reflexivity].
  - rewrite all_chars_app, (all_digits_word ds Hd).
    cbn [Str.all_chars Str.of_chars andb].
    destruct (digit_char_digit (n / 10 mod 10)) as [D1 _];
      [pose proof (Z.mod_pos_bound (n / 10) 10); lia |].
    destruct (digit_char_digit (n mod 10)) as [D0 _];
      [pose proof (Z.mod_pos_bound n 10); lia |].
    rewrite (digit_not_space' _ D1), (digit_not_space' _ D0). reflexivity.
Qed.

(** [float] reads the two-decimal text of [n] as the binary64 number
    nearest to [n / 100]. *)
Lemma of_string_fixed (n : Z) :
  0 <= n -> B64.of_string (B64.fixed 2 n) = Ok (B64.round false n 100).
Proof.
  intros Hn. pose proof (fixed_word n Hn) as Hw.
  unfold is_word in Hw. apply andb_prop in Hw. destruct Hw as [_ Hw].
  unfold B64.of_string. rewrite (strip_word _ Hw).
  destruct (fixed_text n Hn) as (ds & Hne & Hd & Hv & ->).
  destruct (digit_char_digit (n / 10 mod 10)) as [D1 V1];
    [pose proof (Z.mod_pos_bound (n / 10) 10); lia |].
  destruct (digit_char_digit (n mod 10)) as [D0 V0];
    [pose proof (Z.mod_pos_bound n 10); lia |].
  set (d1 := Str.digit_char (n / 10 mod 10)) in *.
  set (d0 := Str.digit_char (n mod 10)) in *.
  set (tail := String "." (Str.of_chars [d1; d0])).
  assert (Hnum : B64.number (Str.of_chars ds ++ tail) = Some (ds, [d1; d0], "")).
  { unfold B64.number, tail.
    rewrite (digitpart_run ds _ Hne Hd) by (right; eexists; reflexivity).
    rewrite <- (append_empty (Str.of_chars [d1; d0])).
    rewrite (digitpart_run [d1; d0] "") by
      (try discriminate; try (left; reflexivity);
       cbn [forallb]; rewrite D1, D0; reflexivity).
    reflexivity. }
  destruct ds as [| c r]; [contradiction |].
  cbn [forallb] in Hd. apply andb_prop in Hd. destruct Hd as [Hc Hr].
  change (Str.of_chars (c :: r) ++ tail)%string
    with (String c (Str.of_chars r ++ tail)) in *.
  rewrite (digit_sign c _ Hc).
  destruct (digit_head_no_keyword c (Str.of_chars r ++ tail) Hc) as (K1 & K2 & K3).
  rewrite K1, K2, K3. cbn [orb]. rewrite Hnum.
  cbn [B64.exponent List.length]. change (0 - Z.of_nat 2) with (-2).
  change (Z.max 0 (-2)) with 0. change (Z.max 0 (- -2)) with 2.
  change (10 ^ 0) with 1. change (10 ^ 2) with 100.
  do 2 f_equal.
  replace ((c :: r) ++ [d1; d0])%list with (((c :: r) ++ [d1]) ++ [d0])%list
    by (rewrite <- app_assoc; reflexivity).
  rewrite !digits_value_snoc, Hv, V1, V0.
  pose proof (Z.div_mod n 10 ltac:(lia)).
  pose proof (Z.div_mod (n / 10) 10 ltac:(lia)).
  replace (n / 100) with (n / 10 / 10) by (rewrite Z.div_div by lia; reflexivity).
  lia.
Qed.

Lemma round_half_even_lower (p q n : Z) :
  0 < q -> n * q <= p -> n <= B64.round_half_even p q.
Proof.
  intros Hq Hn. unfold B64.round_half_even.
  assert (n <= p / q) by (apply Z.div_le_lower_bound; lia).
  destruct (2 * (p mod q) ?= q); [destruct (Z.even (p / q)) | |]; lia.
Qed.

(** In the range of the normal numbers [round] is off by at most half a
    unit in the last place. *)
Lemma round_near (neg : bool) (p q : Z) :
  0 < p -> 0 < q ->
  B64.emin <= B64.ilog2 p q - 52 -> B64.ilog2 p q - 51 <= B64.emax ->
  exists m e,
    B64.round neg p q = B64.Fin neg m e /\
    0 < m < 2 ^ 53 /\
    B64.ilog2 p q - 52 <= e <= B64.ilog2 p q - 51 /\
    2 * Z.abs (m * 2 ^ (e - (B64.ilog2 p q - 52)) * B64.shl q (B64.ilog2 p q - 52)
               - B64.shl p (- (B64.ilog2 p q - 52)))
      <= B64.shl q (B64.ilog2 p q - 52).
Proof.
  intros Hp Hq. set (l := B64.ilog2 p q). unfold B64.emin, B64.emax. intros Hlo Hhi.
  set (e0 := l - 52).
  set (P := B64.shl p (- e0)). set (Q := B64.shl q e0).
  assert (HQ : 0 < Q).
  { unfold Q, B64.shl. pose proof (pow2_pos (Z.max 0 e0) ltac:(lia)). nia. }
  assert (HPQ : Q * 2 ^ 52 <= P < Q * 2 ^ 53).
  { destruct (shl_common e0 (Z.max 0 (- e0)) (Z.max 0 e0)) as (c & Hc & H);
      [lia | lia | lia |].
    destruct (H p) as [Ep _]. destruct (H q) as [_ Eq].
    fold P in Ep. fold Q in Eq.
    pose proof (proj1 (ilog2_bounds p q (Z.max 0 (- e0)) (Z.max 0 e0 + 52) Hp Hq
                         ltac:(lia) ltac:(lia)) ltac:(fold l; lia)) as L.
    pose proof (proj2 (ilog2_bounds p q (Z.max 0 (- e0)) (Z.max 0 e0 + 53) Hp Hq
                         ltac:(lia) ltac:(lia)) ltac:(fold l; lia)) as U.
    rewrite pow2_add in L, U by lia.
    rewrite Z.mul_assoc, Eq, Ep in L, U.
    split; nia. }
  set (M := B64.round_half_even P Q).
  pose proof (round_half_even_near P Q HQ) as Hnear. fold M in Hnear.
  assert (HM : 2 ^ 52 <= M <= 2 ^ 53).
  { split.
    - apply round_half_even_lower; [exact HQ | lia].
    - apply (round_half_even_mono_bound P Q (2 ^ 53)); lia. }
  unfold B64.round. replace (p =? 0) with false by (symmetry; apply Z.eqb_neq; lia).
  fold l. unfold B64.emin. cbv zeta.
  replace (Z.max (l - 52) (-1074)) with e0 by (unfold e0; lia).
  fold P Q M.
  destruct (Z.eqb_spec M (2 ^ 53)) as [E | NE].
  - replace (B64.emax <? e0 + 1) with false
      by (symmetry; apply Z.ltb_ge; unfold B64.emax, e0; lia).
    exists (2 ^ 52), (e0 + 1). split; [reflexivity |].
    split; [lia |]. split; [lia |].
    replace (e0 + 1 - e0) with 1 by lia.
    change (2 ^ 52 * 2 ^ 1) with (2 ^ 53). rewrite <- E. lia.
  - replace (B64.emax <? e0) with false
      by (symmetry; apply Z.ltb_ge; unfold B64.emax, e0; lia).
    exists M, e0. split; [reflexivity |].
    split; [lia |]. split; [lia |].
    rewrite Z.sub_diag, Z.pow_0_r, Z.mul_1_r. lia.
Qed.

(** Multiplying by a power of 1024 is exact. *)
Lemma mul_pow1024_exact (m e i : Z) :
  0 < m < 2 ^ 53 -> 0 <= i -> B64.emin <= e + 10 * i <= 0 ->
  exists e',
    B64.emin <= e' <= e + 10 * i /\
    B64.mul (B64.Fin false m e) (B64.Fin false (2 ^ 52) (10 * i - 52))
    = B64.Fin false (m * 2 ^ (e + 10 * i - e')) e'.
Proof.
  intros Hm Hi HE. unfold B64.emin in HE. unfold B64.mul. cbn [xorb].
  destruct (round_exact false
              (B64.shl (m * 2 ^ 52) (e + (10 * i - 52)))
              (B64.shl 1 (- (e + (10 * i - 52))))
              m (- (e + 10 * i)) 0) as (e' & He' & _ & E).
  - unfold B64.shl. pose proof (pow2_pos (Z.max 0 (- (e + (10 * i - 52)))) ltac:(lia)).
    lia.
  - exact Hm.
  - lia.
  - lia.
  - unfold B64.emin, B64.emax. lia.
  - unfold B64.shl. rewrite (Z.max_l 0 (e + (10 * i - 52))) by lia.
    rewrite (Z.max_r 0 (- (e + (10 * i - 52)))) by lia.
    rewrite !Z.pow_0_r.
    replace (m * 2 ^ 52 * 1 * 2 ^ (- (e + 10 * i)))
      with (m * (2 ^ 52 * 2 ^ (- (e + 10 * i)))) by ring.
    rewrite <- pow2_add by lia.
    replace (52 + - (e + 10 * i)) with (- (e + (10 * i - 52))) by lia. ring.
  - exists e'. split; [unfold B64.emin in *; lia |]. rewrite E.
    replace (0 - - (e + 10 * i) - e') with (e + 10 * i - e') by lia. reflexivity.
Qed.

Lemma multiplier_float (i : nat) :
  (i <= 4)%nat ->
  is_word (nth i units "") = true /\
  Num.to_float (PyInt (Dict.get_default Pacsize.multipliers (nth i units "") 1))
  = Ok (B64.Fin false (2 ^ 52) (10 * Z.of_nat i - 52)).
Proof.
  intros Hi.
  assert (C : (i = 0 \/ i = 1 \/ i = 2 \/ i = 3 \/ i = 4)%nat) by lia.
  repeat (destruct C as [-> | C]; [split; vm_compute; reflexivity |]).
  subst i. split; vm_compute; reflexivity.
Qed.

Lemma parse_size_text (n : Z) (i : nat) :
  0 <= n -> (i <= 4)%nat ->
  Pacsize.parse_size (size_text n (nth i units "")) =
  Ok (PyFloat (B64.mul (B64.round false n 100)
                       (B64.Fin false (2 ^ 52) (10 * Z.of_nat i - 52)))).
Proof.
  intros Hn Hi. destruct (multiplier_float i Hi) as [Hw Hf].
  unfold Pacsize.parse_size, size_text.
  rewrite (split_two_words _ _ (fixed_word n Hn) Hw).
  cbn [List.length Nat.eqb negb nth].
  rewrite (of_string_fixed n Hn). unfold rbind, Num.mul. rewrite Hf.
  reflexivity.
Qed.

Lemma ilog2_hundredths (n : Z) :
  0 < n <= 102400 -> -7 <= B64.ilog2 n 100 <= 10.
Proof.
  intros Hn. unfold B64.ilog2. change (Z.log2 100) with 6.
  pose proof (Z.log2_nonneg n).
  pose proof (Z.log2_le_mono n 102400 ltac:(lia)) as H16.
  change (Z.log2 102400) with 16 in H16. cbv zeta.
  destruct (B64.shl 100 (Z.log2 n - 6) <=? B64.shl n (- (Z.log2 n - 6))); lia.
Qed.

(** The number read back from the text of [n] hundredths of the unit of
    position [i] is within [2^-42] units of it. *)
Lemma read_back_near (b n : Z) (i : nat) :
  (i <= 4)%nat -> 0 <= b -> 0 <= n <= 102400 ->
  2 * Z.abs (100 * b - n * 1024 ^ Z.of_nat i) <= 1024 ^ Z.of_nat i ->
  exists m e,
    Pacsize.parse_size (size_text n (nth i units "")) = Ok (PyFloat (B64.Fin false m e)) /\
    e <= 0 /\
    Z.abs (m - b * 2 ^ (- e)) * (200 * 2 ^ 42)
      <= 1024 ^ Z.of_nat i * 2 ^ (- e) * (2 ^ 42 + 200).
Proof.
  intros Hi Hb Hn Hnear. rewrite (parse_size_text n i) by lia.
  set (I := Z.of_nat i) in *. assert (HI : 0 <= I <= 4) by lia.
  rewrite (pow1024 I) in * by lia.
  pose proof (pow2_pos (10 * I) ltac:(lia)) as HU.
  destruct (Z.eq_dec n 0) as [-> | Hn0].
  - exists 0, B64.emin. split; [reflexivity |]. split; [unfold B64.emin; lia |].
    unfold B64.emin. pose proof (pow2_pos (- -1074) ltac:(lia)) as HK.
    set (K := 2 ^ (- -1074)) in *. set (U := 2 ^ (10 * I)) in *.
    rewrite Z.sub_0_l, Z.abs_opp, Z.abs_eq by nia.
    assert (200 * b <= U) by lia.
    assert (b * K * (200 * 2 ^ 42) <= U * K * 2 ^ 42) by nia.
    nia.
  - pose proof (ilog2_hundredths n ltac:(lia)) as Hl.
    destruct (round_near false n 100) as (m1 & e1 & E1 & Hm1 & He1 & R1);
      try (unfold B64.emin, B64.emax; lia).
    set (l := B64.ilog2 n 100) in *.
    destruct (mul_pow1024_exact m1 e1 I Hm1) as (e' & He' & E2);
      [lia | unfold B64.emin; lia |].
    unfold B64.emin in He'.
    exists (m1 * 2 ^ (e1 + 10 * I - e')), e'.
    split; [rewrite E1, E2; reflexivity |]. split; [lia |].
    (* the powers of two in play *)
    unfold B64.shl in R1.
    rewrite (Z.max_l 0 (l - 52)), (Z.max_r 0 (- (l - 52))), Z.pow_0_r in R1 by lia.
    set (A := 2 ^ (- e1)). set (W := 2 ^ (- (e1 + 10 * I))).
    set (T := 2 ^ (e1 + 10 * I - e')). set (U := 2 ^ (10 * I)) in *.
    assert (HA : 2 ^ 41 <= A) by (apply pow2_le; lia).
    assert (HW : 0 < W) by (apply pow2_pos; lia).
    assert (HT : 0 < T) by (apply pow2_pos; lia).
    assert (EA : U * W = A).
    { unfold U, W, A. rewrite <- pow2_add by lia. f_equal. lia. }
    assert (EP : 2 ^ (- e') = T * W).
    { unfold T, W. rewrite <- pow2_add by lia. f_equal. lia. }
    assert (S1 : Z.abs (100 * m1 - n * A) <= 50).
    { assert (C : e1 = l - 52 \/ e1 = l - 51) by lia. destruct C as [C | C].
      - replace (e1 - (l - 52)) with 0 in R1 by lia.
        replace (- (l - 52)) with (- e1) in R1 by lia. fold A in R1.
        rewrite Z.pow_0_r in R1. lia.
      - replace (e1 - (l - 52)) with 1 in R1 by lia.
        replace (- (l - 52)) with (1 + - e1) in R1 by lia.
        rewrite pow2_add in R1 by lia. fold A in R1.
        change (2 ^ 1) with 2 in R1. lia. }
    assert (S2 : 2 * Z.abs (n * A - 100 * b * W) <= A).
    { replace (n * A - 100 * b * W) with (W * (n * U - 100 * b))
        by (rewrite <- EA; ring).
      rewrite Z.abs_mul, (Z.abs_eq W) by lia.
      replace (Z.abs (n * U - 100 * b)) with (Z.abs (100 * b - n * U)) by lia.
      rewrite <- EA, (Z.mul_comm U W).
      replace (2 * (W * Z.abs (100 * b - n * U)))
        with (W * (2 * Z.abs (100 * b - n * U))) by ring.
      apply Z.mul_le_mono_nonneg_l; [lia | exact Hnear]. }
    assert (S3 : 200 * Z.abs (m1 - b * W) <= 100 + A) by lia.
    rewrite EP.
    replace (m1 * T - b * (T * W)) with (T * (m1 - b * W)) by ring.
    rewrite Z.abs_mul, (Z.abs_eq T) by lia.
    replace (U * (T * W)) with (T * A) by (rewrite <- EA; ring).
    assert (S4 : Z.abs (m1 - b * W) * (200 * 2 ^ 42) <= A * (2 ^ 42 + 200)) by lia.
    replace (T * Z.abs (m1 - b * W) * (200 * 2 ^ 42))
      with (T * (Z.abs (m1 - b * W) * (200 * 2 ^ 42))) by ring.
    replace (T * A * (2 ^ 42 + 200)) with (T * (A * (2 ^ 42 + 200))) by ring.
    apply Z.mul_le_mono_nonneg_l; [lia | exact S4].
Qed.

Lemma to_Q_negative_exponent (m e : Z) :
  e <= 0 ->
  (B64.to_Q (B64.Fin false m e) == m # Z.to_pos (2 ^ (- e)))%Q.
Proof.
  intros He. unfold B64.to_Q, B64.signed.
  pose proof (pow2_pos (- e) ltac:(lia)) as HP.
  assert (E : (2 ^ e == 1 # Z.to_pos (2 ^ (- e)))%Q).
  { replace e with (- - e) at 1 by lia.
    rewrite Qpower_opp.
    change 2%Q with (inject_Z 2).
    rewrite <- Zpower_Qpower by lia.
    destruct (2 ^ (- e)) as [| p | p]; try lia. reflexivity. }
  rewrite E. unfold Qeq, Qmult, inject_Z. cbn [Qnum Qden]. lia.
Qed.

Lemma to_Q_near (m e b U : Z) :
  e <= 0 ->
  Z.abs (m - b * 2 ^ (- e)) * (200 * 2 ^ 42) <= U * 2 ^ (- e) * (2 ^ 42 + 200) ->
  (Qabs (B64.to_Q (B64.Fin false m e) - inject_Z b)
   <= inject_Z U * ((1 # 200) + (1 # 2 ^ 42)))%Q.
Proof.
  intros He H. rewrite (to_Q_negative_exponent m e He).
  pose proof (pow2_pos (- e) ltac:(lia)) as HP.
  destruct (2 ^ (- e)) as [| p | p] eqn:EP; try lia.
  cbn [Z.to_pos].
  unfold Qle, Qabs, Qminus, Qplus, Qopp, Qmult, inject_Z. cbn [Qnum Qden].
  rewrite !Pos2Z.inj_mul.
  change (Z.pos (2 ^ 42)) with (2 ^ 42) in *.
  change (Z.pos 200) with 200 in *.
  lia.
Qed.

(** A whole number of bytes below 1024 is read back exactly. *)
Lemma read_back_exact (b : Z) :
  0 <= b < 1024 ->
  exists m e,
    Pacsize.parse_size (size_text (100 * b) "B") = Ok (PyFloat (B64.Fin false m e)) /\
    (B64.to_Q (B64.Fin false m e) == inject_Z b)%Q.
Proof.
  intros Hb. change "B" with (nth 0 units ""). rewrite (parse_size_text (100 * b) 0) by lia.
  change (10 * Z.of_nat 0 - 52) with (10 * 0 - 52).
  destruct (Z.eq_dec b 0) as [-> | Hb0].
  - exists 0, B64.emin. split; [reflexivity | vm_compute; reflexivity].
  - destruct (round_exact false (100 * b) 100 b 0 0) as (e1 & He1 & Hm1 & E1);
      try (unfold B64.emin, B64.emax; lia).
    unfold B64.emin in He1.
    destruct (mul_pow1024_exact (b * 2 ^ (0 - 0 - e1)) e1 0 Hm1) as (e' & He' & E2);
      [lia | unfold B64.emin; lia |].
    unfold B64.emin in He'.
    eexists _, e'. split; [rewrite E1, E2; reflexivity |].
    rewrite to_Q_negative_exponent by lia.
    pose proof (pow2_pos (- e') ltac:(lia)) as HP.
    unfold Qeq, inject_Z. cbn [Qnum Qden]. rewrite Z2Pos.id by exact HP.
    replace (b * 2 ^ (0 - 0 - e1) * 2 ^ (e1 + 10 * 0 - e') * 1)
      with (b * (2 ^ (0 - 0 - e1) * 2 ^ (e1 + 10 * 0 - e'))) by ring.
    rewrite <- pow2_add by lia. do 2 f_equal. lia.
Qed.

(** ** The two laws of the formatter *)

Lemma mantissa_hundredths (b : Z) (i : nat) :
  0 <= b < 1024 * 1024 ^ Z.of_nat i ->
  0 <= B64.round_half_even (100 * b) (1024 ^ Z.of_nat i) <= 102400 /\
  2 * Z.abs (100 * b - B64.round_half_even (100 * b) (1024 ^ Z.of_nat i)
                         * 1024 ^ Z.of_nat i)
    <= 1024 ^ Z.of_nat i.
Proof.
  intros Hb.
  pose proof (Z.pow_pos_nonneg 1024 (Z.of_nat i) ltac:(lia) ltac:(lia)) as HU.
  split.
  - apply round_half_even_mono_bound; lia.
  - apply round_half_even_near. exact HU.
Qed.

Lemma format_size_bytes (b : Z) :
  0 <= b < 1024 ^ 5 ->
  let text := rendering b (Z.of_nat (unit_index b)) (nth (unit_index b) units "") in
  Pacsize.format_size (PyInt b) = Ok text /\
  Pacremove.format_size (PyInt b) = Ok text /\
  Pacsize.format_size (PyFloat (B64.of_Z b)) = Ok text /\
  Pacremove.format_size (PyFloat (B64.of_Z b)) = Ok text.
Proof.
  intros Hb text.
  assert (Hb53 : 0 <= b < 2 ^ 53) by (change (1024 ^ 5) with (2 ^ 50) in Hb; lia).
  destruct (pick_table b Hb) as [P1 P2].
  destruct (format_loop_bytes ["B"; "KiB"; "MiB"; "GiB"] "TiB" b Hb53) as [A1 A2];
    [simpl; lia |].
  destruct (format_loop_bytes ["B"; "KiB"; "MiB"; "GiB"; "TiB"] "TiB" b Hb53) as [B1 B2];
    [simpl; lia |].
  rewrite P1 in A1, A2. rewrite P2 in B1, B2.
  unfold Pacsize.format_size, Pacremove.format_size. repeat split; assumption.
Qed.

(** C2, as amended: for every byte count below 1024^5, both copies of
    [format_size] give the mantissa in the first unit of B, KiB, MiB, GiB,
    TiB in which it is below 1024 (every smaller unit has a mantissa of
    1024 or more), rounded to two decimal places, then the unit; from
    1024^5 on, the copy in pacsize.py stays at TiB with a mantissa of 1024
    or more. 0 gives "0.00 B", 1024 "1.00 KiB", 1536 "1.50 KiB" and 1024^3
    "1.00 GiB". *)
Theorem format_size_first_unit_below_1024 :
  (forall b, 0 <= b < 1024 ^ 5 ->
     let i := unit_index b in
     let n := B64.round_half_even (100 * b) (1024 ^ Z.of_nat i) in
     (i < 5)%nat /\
     b < 1024 * 1024 ^ Z.of_nat i /\
     (forall j, (j < i)%nat -> 1024 * 1024 ^ Z.of_nat j <= b) /\
     2 * Z.abs (100 * b - n * 1024 ^ Z.of_nat i) <= 1024 ^ Z.of_nat i /\
     scaled_below_1024 b (size_text n (nth i units "")) /\
     Pacsize.format_size (PyInt b) = Ok (size_text n (nth i units "")) /\
     Pacremove.format_size (PyInt b) = Ok (size_text n (nth i units "")) /\
     Pacsize.format_size (PyFloat (B64.of_Z b)) = Ok (size_text n (nth i units ""))) /\
  (forall b, 1024 ^ 5 <= b < 2 ^ 53 ->
     Pacsize.format_size (PyInt b) =
     Ok (size_text (B64.round_half_even (100 * b) (1024 ^ 4)) "TiB")) /\
  Pacsize.format_size (PyInt 0) = Ok "0.00 B" /\
  Pacsize.format_size (PyInt 1024) = Ok "1.00 KiB" /\
  Pacsize.format_size (PyInt 1536) = Ok "1.50 KiB" /\
  Pacsize.format_size (PyInt (1024 ^ 3)) = Ok "1.00 GiB" /\
  Pacremove.format_size (PyInt 0) = Ok "0.00 B" /\
  Pacremove.format_size (PyInt 1024) = Ok "1.00 KiB" /\
  Pacremove.format_size (PyInt 1536) = Ok "1.50 KiB" /\
  Pacremove.format_size (PyInt (1024 ^ 3)) = Ok "1.00 GiB".
Proof.
  split.
  { intros b Hb i n.
    destruct (unit_index_bounds b Hb) as (Hi & Hlt & Hfirst).
    destruct (mantissa_hundredths b i ltac:(fold i in Hlt; lia)) as [_ Hnear].
    destruct (format_size_bytes b Hb) as (F1 & F2 & F3 & _).
    fold i in Hi, Hlt, Hfirst, F1, F2, F3. fold n in Hnear.
    unfold rendering in F1, F2, F3. fold n in F1, F2, F3.
    split; [lia |]. split; [exact Hlt |]. split; [exact Hfirst |].
    split; [exact Hnear |].
    split; [exists i, n; repeat split; (lia || assumption) |].
    repeat split; assumption. }
  split.
  { intros b Hb.
    destruct (format_loop_bytes ["B"; "KiB"; "MiB"; "GiB"] "TiB" b) as [A _];
      [lia | simpl; lia |].
    unfold Pacsize.format_size. rewrite A. cbn [pick].
    change (1024 ^ 5) with (2 ^ 50) in Hb.
    replace (b <? 1024 ^ (0 + 1)) with false by (symmetry; apply Z.ltb_ge; simpl; lia).
    replace (b <? 1024 ^ (0 + 1 + 1)) with false
      by (symmetry; apply Z.ltb_ge; simpl; lia).
    replace (b <? 1024 ^ (0 + 1 + 1 + 1)) with false
      by (symmetry; apply Z.ltb_ge; simpl; lia).
    replace (b <? 1024 ^ (0 + 1 + 1 + 1 + 1)) with false
      by (symmetry; apply Z.ltb_ge; simpl; lia).
    reflexivity. }
  repeat split; vm_compute; reflexivity.
Qed.

Lemma format_size_first_unit_below_1024_witness :
  Pacsize.format_size (PyInt 1536) =
  Ok (size_text (B64.round_half_even (100 * 1536) (1024 ^ Z.of_nat (unit_index 1536)))
                (nth (unit_index 1536) units "")).
Proof.
  assert (H : 0 <= 1536 < 1024 ^ 5) by (simpl; lia).
  exact (proj1 (proj2 (proj2 (proj2 (proj2 (proj2
           (proj1 format_size_first_unit_below_1024 1536 H))))))).
Defined.

(** C2, where it fails as stated: at 1024^5 bytes the copy in pacsize.py
    prints a mantissa that is not below 1024, and no unit of the table has
    one. *)
Lemma format_size_mantissa_reaches_1024 :
  Pacsize.format_size (PyInt (1024 ^ 5)) = Ok "1024.00 TiB" /\
  (forall text, ~ scaled_below_1024 (1024 ^ 5) text).
Proof.
  split; [vm_compute; reflexivity |].
  intros text (i & n & Hi & Hlt & _).
  assert (C : (i = 0 \/ i = 1 \/ i = 2 \/ i = 3 \/ i = 4)%nat) by lia.
  destruct C as [-> | [-> | [-> | [-> | ->]]]]; simpl in Hlt; lia.
Qed.

Lemma tolerance_of_unit (b U : Z) (x : Q) :
  0 < U <= b ->
  (Qabs (x - inject_Z b) <= inject_Z U * ((1 # 200) + (1 # 2 ^ 42)))%Q ->
  within (51 # 10000) x (inject_Z b).
Proof.
  intros HU H. unfold within. eapply Qle_trans; [exact H |].
  unfold Qle, Qabs, Qplus, Qmult, inject_Z. cbn [Qnum Qden].
  rewrite (Z.abs_eq b) by lia.
  change (Z.pos (1 * (200 * 2 ^ 42))) with (200 * 2 ^ 42).
  change (Z.pos (10000 * 1)) with 10000.
  change (1 * Z.pos (2 ^ 42) + 1 * 200) with (2 ^ 42 + 200).
  assert (U * (2 ^ 42 + 200) * 10000 <= 51 * b * (200 * 2 ^ 42)); [| lia].
  change (2 ^ 42) with 4398046511104. lia.
Qed.

(** C1, as amended: for every byte count below 1024^5, [parse_size] reads
    the text that [format_size] prints (the same in both scripts) as a
    finite number within half a hundredth of the printed unit of the byte
    count, up to the rounding of binary64 (2^-42 units): a relative error of
    at most 0.51 percent; below 1024 bytes the number read is the byte
    count itself. *)
Theorem roundtrip_within_half_a_hundredth :
  forall b, 0 <= b < 1024 ^ 5 ->
    exists text x,
      Pacsize.format_size (PyInt b) = Ok text /\
      Pacremove.format_size (PyInt b) = Ok text /\
      Pacsize.parse_size text = Ok (PyFloat x) /\
      B64.is_finite x = true /\
      (Qabs (B64.to_Q x - inject_Z b)
       <= inject_Z (1024 ^ Z.of_nat (unit_index b)) * ((1 # 200) + (1 # 2 ^ 42)))%Q /\
      within (51 # 10000) (B64.to_Q x) (inject_Z b) /\
      (b < 1024 -> (B64.to_Q x == inject_Z b)%Q).
Proof.
  intros b Hb.
  destruct (unit_index_bounds b Hb) as (Hi & Hlt & Hfirst).
  destruct (format_size_bytes b Hb) as (F1 & F2 & _).
  set (i := unit_index b) in *.
  destruct (mantissa_hundredths b i ltac:(lia)) as [Hn Hnear].
  unfold rendering in F1, F2.
  set (n := B64.round_half_even (100 * b) (1024 ^ Z.of_nat i)) in *.
  destruct (read_back_near b n i Hi ltac:(lia) Hn Hnear) as (m & e & P & He & Hz).
  pose proof (to_Q_near m e b _ He Hz) as Hq.
  assert (Hexact : b < 1024 -> (B64.to_Q (B64.Fin false m e) == inject_Z b)%Q).
  { intros Hsmall.
    assert (Ei : i = 0%nat).
    { unfold i, unit_index. destruct (Z.ltb_spec b 1024); [reflexivity | lia]. }
    destruct (read_back_exact b ltac:(lia)) as (m' & e' & P' & Hq').
    assert (En : n = 100 * b).
    { unfold n. rewrite Ei. change (1024 ^ Z.of_nat 0) with 1.
      rewrite <- (Z.mul_1_r (100 * b)) at 1. apply round_half_even_exact. lia. }
    rewrite Ei, En in P. change (nth 0 units "") with "B" in P.
    rewrite P' in P. injection P as <- <-. exact Hq'. }
  exists (size_text n (nth i units "")), (B64.Fin false m e).
  split; [exact F1 |]. split; [exact F2 |]. split; [exact P |].
  split; [reflexivity |]. split; [exact Hq |]. split; [| exact Hexact].
  destruct (Z.ltb_spec b 1024) as [Hsmall | Hbig].
  - unfold within. rewrite (Hexact Hsmall).
    setoid_replace (inject_Z b - inject_Z b)%Q with 0%Q by ring.
    apply Qmult_le_0_compat; [discriminate | apply Qabs_nonneg].
  - apply (tolerance_of_unit b (1024 ^ Z.of_nat i)); [| exact Hq].
    split; [apply Z.pow_pos_nonneg; lia |].
    destruct i as [| j]; [simpl; lia |].
    specialize (Hfirst j ltac:(lia)).
    rewrite Nat2Z.inj_succ, Z.pow_succ_r by lia. exact Hfirst.
Qed.

Lemma roundtrip_within_half_a_hundredth_witness :
  exists text x,
    Pacsize.format_size (PyInt 1029) = Ok text /\
    Pacremove.format_size (PyInt 1029) = Ok text /\
    Pacsize.parse_size text = Ok (PyFloat x) /\
    B64.is_finite x = true /\
    (Qabs (B64.to_Q x - inject_Z 1029)
     <= inject_Z (1024 ^ Z.of_nat (unit_index 1029)) * ((1 # 200) + (1 # 2 ^ 42)))%Q /\
    within (51 # 10000) (B64.to_Q x) (inject_Z 1029) /\
    (1029 < 1024 -> (B64.to_Q x == inject_Z 1029)%Q).
Proof.
  apply (roundtrip_within_half_a_hundredth 1029). simpl. lia.
Defined.

(** C1, where it fails as stated: 1029 bytes are printed as "1.00 KiB",
    which is read back as 1024, five bytes off: not within one part in a
    thousand, let alone within a floating rounding tolerance. *)
Lemma roundtrip_loses_the_third_decimal :
  Pacsize.format_size (PyInt 1029) = Ok "1.00 KiB" /\
  Pacremove.format_size (PyInt 1029) = Ok "1.00 KiB" /\
  Pacsize.parse_size "1.00 KiB" = Ok (PyFloat (B64.of_Z 1024)) /\
  (B64.to_Q (B64.of_Z 1024) == 1024)%Q /\
  ~ within (1 # 1000) 1024 1029.
Proof.
  split; [vm_compute; reflexivity |]. split; [vm_compute; reflexivity |].
  split; [vm_compute; reflexivity |]. split; [vm_compute; reflexivity |].
  unfold within. vm_compute. intros H. apply H. reflexivity.
Qed.

(** * Error paths, invariants and traces *)

(** ** Missing tools *)

(** X1: when [shutil.which] does not find pactree, [get_all_dependencies]
    prints the two lines of the error and its remedy and exits with status
    1 without running any command, and that is all [main] does. *)
Theorem missing_pactree_stops_the_profiler (w : world) :
  which w "pactree" = false ->
  Pacsize.get_all_dependencies w "rocm-hip-sdk" =
    ([Print "Error: 'pactree' command not found.";
      Print "Please install it with: sudo pacman -S pacman-contrib"],
     Raise (SystemExit 1)) /\
  Pacsize.main w =
    ([Print "Error: 'pactree' command not found.";
      Print "Please install it with: sudo pacman -S pacman-contrib"],
     Raise (SystemExit 1)).
Proof.
  intros H.
  assert (E : Pacsize.get_all_dependencies w "rocm-hip-sdk" =
              ([Print "Error: 'pactree' command not found.";
                Print "Please install it with: sudo pacman -S pacman-contrib"],
               Raise (SystemExit 1))).
  { unfold Pacsize.get_all_dependencies. rewrite H. reflexivity. }
  split; [exact E |]. unfold Pacsize.main. rewrite E. reflexivity.
Qed.

Lemma missing_pactree_stops_the_profiler_witness :
  Pacsize.main {| which := fun _ => false; run := fun _ => None |} =
    ([Print "Error: 'pactree' command not found.";
      Print "Please install it with: sudo pacman -S pacman-contrib"],
     Raise (SystemExit 1)).
Proof.
  exact (proj2 (missing_pactree_stops_the_profiler
                  {| which := fun _ => false; run := fun _ => None |} eq_refl)).
Defined.

(** *** [strip] leaves nothing to strip *)








(** X3: when the dependency list is not empty and pacman cannot be found,
    [get_installed_size_batch] prints "Error: pacman not found." and exits
    with status 1; [main] has by then printed the number of dependencies
    and the query notice, and prints no table. *)
Theorem missing_pacman_stops_the_profiler (w : world) (t : list event) (deps : list string) :
  Pacsize.get_all_dependencies w "rocm-hip-sdk" = (t, Ok deps) ->
  deps <> [] ->
  run w (pacman_cmd deps) = None ->
  Pacsize.get_installed_size_batch w deps =
    ([Run (pacman_cmd deps); Print "Error: pacman not found."], Raise (SystemExit 1)) /\
  Pacsize.main w =
    (t ++ [Print ("Found " ++ Str.of_Z (Z.of_nat (List.length deps)) ++ " dependencies.");
           Print "Querying package sizes...";
           Run (pacman_cmd deps);
           Print "Error: pacman not found."],
     Raise (SystemExit 1))%list.
Proof.
  intros Hdeps Hne Hrun.
  assert (E : Pacsize.get_installed_size_batch w deps =
              ([Run (pacman_cmd deps); Print "Error: pacman not found."],
               Raise (SystemExit 1))).
  { destruct deps as [| d r]; [contradiction |].
    unfold Pacsize.get_installed_size_batch.
    change (["pacman"; "-Si"] ++ d :: r)%list with (pacman_cmd (d :: r)).
    rewrite Hrun. reflexivity. }
  split; [exact E |].
  unfold Pacsize.main. rewrite Hdeps. unfold bind at 1.
  cbn [print bind]. rewrite E. cbn [app]. reflexivity.
Qed.

Lemma missing_pacman_stops_the_profiler_witness :
  snd (Pacsize.main
         {| which := fun _ => true;
         run := fun cmd =>
                  match cmd with
                  | "pactree" :: _ =>
                      Some {| returncode := 0;
                              stdout := ("  glibc " ++ LF ++ LF ++ "gcc-libs" ++ LF)%string;
                              stderr := "" |}
                  | _ => None
                  end |})
  = Raise (SystemExit 1).
Proof.
  destruct (missing_pacman_stops_the_profiler
              {| which := fun _ => true;
            run := fun cmd =>
                     match cmd with
                     | "pactree" :: _ =>
                         Some {| returncode := 0;
                                 stdout := ("  glibc " ++ LF ++ LF ++ "gcc-libs" ++ LF)%string;
                                 stderr := "" |}
                     | _ => None
                     end |}
              [Print "Resolving full dependency tree for rocm-hip-sdk...";
               Run ["pactree"; "-u"; "-s"; "rocm-hip-sdk"]]
              ["glibc"; "gcc-libs"]) as [_ E].
  - vm_compute. reflexivity.
  - discriminate.
  - reflexivity.
  - rewrite E. reflexivity.
Defined.

(** ** The command line of pacremove.py *)

(** X4: without a package name on the command line [main] of pacremove.py
    prints the usage line and exits with status 1, running nothing; with
    one, the arguments after it are ignored. *)
Theorem removal_needs_one_argument :
  (forall w argv,
      (List.length argv < 2)%nat ->
      Pacremove.main w argv =
        ([Print "Usage: python check_removal_size_v3.py <package_name>"],
         Raise (SystemExit 1))) /\
  (forall w prog pkg rest,
      Pacremove.main w (prog :: pkg :: rest) = Pacremove.main w [prog; pkg]).
Proof.
  split.
  - intros w argv. destruct argv as [| prog [| pkg rest]]; cbn [List.length]; intros H;
      [reflexivity | reflexivity | lia].
  - reflexivity.
Qed.

Lemma removal_needs_one_argument_witness :
  Pacremove.main {| which := fun _ => true; run := fun _ => None |} ["pacremove.py"]
  = ([Print "Usage: python check_removal_size_v3.py <package_name>"],
     Raise (SystemExit 1)).
Proof.
  apply (proj1 removal_needs_one_argument). simpl. lia.
Defined.

(** X5: when the dry-run command cannot be started, [get_removal_size]
    prints "Error: pacman not found." and exits with status 1, so [main]
    stops after its opening line and that message. *)
Theorem missing_pacman_stops_the_removal_check (w : world) (prog pkg : string) (rest : list string) :
  run w (removal_cmd pkg) = None ->
  Pacremove.get_removal_size w pkg =
    ([Run (removal_cmd pkg); Print "Error: pacman not found."], Raise (SystemExit 1)) /\
  Pacremove.main w (prog :: pkg :: rest) =
    ([Print ("Calculating space freed by removing '" ++ pkg ++ "' recursively...");
      Run (removal_cmd pkg);
      Print "Error: pacman not found."], Raise (SystemExit 1)).
Proof.
  intros Hrun.
  assert (E : Pacremove.get_removal_size w pkg =
              ([Run (removal_cmd pkg); Print "Error: pacman not found."],
               Raise (SystemExit 1))).
  { unfold Pacremove.get_removal_size. fold (removal_cmd pkg). rewrite Hrun.
    reflexivity. }
  split; [exact E |]. unfold Pacremove.main. rewrite E. reflexivity.
Qed.

Lemma missing_pacman_stops_the_removal_check_witness :
  Pacremove.main {| which := fun _ => false; run := fun _ => None |}
    ["pacremove.py"; "gimp"]
  = ([Print "Calculating space freed by removing 'gimp' recursively...";
      Run (removal_cmd "gimp");
      Print "Error: pacman not found."], Raise (SystemExit 1)).
Proof.
  exact (proj2 (missing_pacman_stops_the_removal_check
                  {| which := fun _ => false; run := fun _ => None |}
                  "pacremove.py" "gimp" [] eq_refl)).
Defined.

(** ** The report of pacremove.py *)

Lemma digits_value_from (ds : list ascii) (v : Z) :
  Forall (fun c => Str.is_digit c = true) ds -> 0 <= v ->
  0 <= fold_left (fun v c => 10 * v + Str.digit_val c) ds v.
Proof.
  intros H. revert v. induction H as [| c r Hc _ IH]; intros v Hv; cbn [fold_left].
  - exact Hv.
  - apply IH. unfold Str.is_digit in Hc. cbv zeta in Hc.
    apply andb_prop in Hc. destruct Hc as [Hlo _]. apply N.leb_le in Hlo.
    unfold Str.digit_val. lia.
Qed.

Lemma all_chars_Forall (p : ascii -> bool) (s : string) :
  Str.all_chars p s = true -> Forall (fun c => p c = true) (list_ascii_of_string s).
Proof.
  induction s as [| c r IH]; cbn [Str.all_chars list_ascii_of_string]; intros H.
  - constructor.
  - apply andb_prop in H. destruct H as [Hc Hr]. constructor; [exact Hc | apply IH, Hr].
Qed.

Lemma line_bytes_nonneg (line : string) : 0 <= line_bytes line.
Proof.
  unfold line_bytes. destruct (Str.isdigit (Str.strip line)) eqn:E; [| lia].
  unfold Str.isdigit in E. apply andb_prop in E. destruct E as [_ E].
  apply digits_value_from; [apply all_chars_Forall, E | lia].
Qed.

Lemma lines_total_nonneg (lines : list string) : 0 <= lines_total lines.
Proof.
  unfold lines_total. induction lines as [| l r IH]; cbn [map fold_right]; [lia |].
  pose proof (line_bytes_nonneg l). lia.
Qed.

Lemma lines_total_app (a b : list string) :
  lines_total (a ++ b) = lines_total a + lines_total b.
Proof.
  unfold lines_total. induction a as [| l r IH]; cbn [app map fold_right]; lia.
Qed.

Lemma lines_total_Permutation (a b : list string) :
  Permutation a b -> lines_total a = lines_total b.
Proof.
  unfold lines_total.
  induction 1 as [| x l l' _ IH | x y l | l l' l'' _ IH1 _ IH2];
    cbn [map fold_right]; lia.
Qed.

Lemma existsb_Permutation {A : Type} (f : A -> bool) (a b : list A) :
  Permutation a b -> existsb f a = existsb f b.
Proof.
  induction 1 as [| x l l' _ IH | x y l | l l' l'' _ IH1 _ IH2]; cbn [existsb].
  - reflexivity.
  - rewrite IH. reflexivity.
  - destruct (f x), (f y); reflexivity.
  - rewrite IH1. exact IH2.
Qed.

(** X6: a total returned by [get_removal_size] is never negative: only
    lines made of digits are added, and [isdigit] accepts no sign. *)
Theorem removal_total_never_negative (w : world) (package_name : string)
      (t : list event) (total_bytes : Z) :
  Pacremove.get_removal_size w package_name = (t, Ok (Some total_bytes)) ->
  0 <= total_bytes.
Proof.
  unfold Pacremove.get_removal_size.
  destruct (run w _) as [r |]; [| discriminate].
  destruct (negb (returncode r =? 0)); [discriminate |].
  rewrite sum_lines_total.
  destruct (existsb over_limit (Str.splitlines (stdout r))); [discriminate |].
  cbn. intros H. injection H as _ <-.
  apply lines_total_nonneg.
Qed.

Lemma removal_total_never_negative_witness : 0 <= 13023.
Proof.
  apply (removal_total_never_negative
           {| which := fun _ => true;
       run := fun _ => Some {| returncode := 0;
                               stdout := ("12345" ++ LF ++ "abc" ++ LF ++ "678" ++ LF)%string;
                               stderr := "" |} |}
           "gimp" [Run (removal_cmd "gimp")] 13023).
  vm_compute. reflexivity.
Defined.

(** X7: the total of the removal-size loop does not depend on the order
    of the output lines, and the total of two outputs one after the other
    is the sum of their totals. *)
Theorem removal_total_ignores_line_order :
  (forall a b total_bytes,
      Permutation a b ->
      Pacremove.sum_lines a total_bytes = Pacremove.sum_lines b total_bytes) /\
  (forall a b x y,
      Pacremove.sum_lines a 0 = Ok x -> Pacremove.sum_lines b 0 = Ok y ->
      Pacremove.sum_lines (a ++ b) 0 = Ok (x + y)).
Proof.
  split.
  - intros a b t H.
    rewrite !sum_lines_total, (lines_total_Permutation a b H),
      (existsb_Permutation over_limit a b H).
    reflexivity.
  - intros a b x y. rewrite !sum_lines_total, lines_total_app, existsb_app.
    destruct (existsb over_limit a); [discriminate |].
    destruct (existsb over_limit b); [discriminate |].
    intros Ha Hb. injection Ha as <-. injection Hb as <-. reflexivity.
Qed.

Lemma removal_total_ignores_line_order_witness :
  Pacremove.sum_lines ["12345"; "abc"; "678"] 0 = Pacremove.sum_lines ["678"; "12345"; "abc"] 0.
Proof.
  apply (proj1 removal_total_ignores_line_order).
  apply Permutation_sym, (Permutation_cons_append ["12345"; "abc"] "678").
Defined.

(** X8: when the dry run succeeds, no digit line of its output has more
    than 4300 digits and the digit lines add up to less than 1024^5 bytes,
    [main] prints the opening line, a rule of 40 dashes, "Space to be
    freed: " followed by the total in the first unit in which it is below
    1024, rounded to two decimals, and the rule again, and ends normally. *)
Theorem removal_report_text (w : world) (prog pkg : string) (rest : list string)
      (r : completed) :
  run w (removal_cmd pkg) = Some r -> returncode r = 0 ->
  existsb over_limit (Str.splitlines (stdout r)) = false ->
  lines_total (Str.splitlines (stdout r)) < 1024 ^ 5 ->
  let total := lines_total (Str.splitlines (stdout r)) in
  Pacremove.main w (prog :: pkg :: rest) =
    ([Print ("Calculating space freed by removing '" ++ pkg ++ "' recursively...");
      Run (removal_cmd pkg);
      Print "----------------------------------------";
      Print ("Space to be freed: "
             ++ rendering total (Z.of_nat (unit_index total)) (nth (unit_index total) units ""));
      Print "----------------------------------------"], Ok tt).
Proof.
  intros Hrun Hcode Hlim Hlt total.
  assert (E : Pacremove.get_removal_size w pkg =
              ([Run (removal_cmd pkg)], Ok (Some total))).
  { unfold Pacremove.get_removal_size. fold (removal_cmd pkg).
    rewrite Hrun, Hcode. cbn [Z.eqb negb].
    rewrite (sum_lines_within_limit _ 0 Hlim). reflexivity. }
  pose proof (lines_total_nonneg (Str.splitlines (stdout r))) as H0.
  destruct (format_size_bytes total (conj H0 Hlt)) as (_ & F & _).
  unfold Pacremove.main. rewrite E. unfold bind at 1. cbn [print bind].
  rewrite F. reflexivity.
Qed.

Lemma removal_report_text_witness :
  Pacremove.main
    {| which := fun _ => true;
        run := fun _ => Some {| returncode := 0;
                                stdout := ("12345" ++ LF ++ "abc" ++ LF ++ "678" ++ LF)%string;
                                stderr := "" |} |}
    ["pacremove.py"; "gimp"]
  = ([Print "Calculating space freed by removing 'gimp' recursively...";
      Run (removal_cmd "gimp");
      Print "----------------------------------------";
      Print "Space to be freed: 12.72 KiB";
      Print "----------------------------------------"], Ok tt).
Proof.
  refine (removal_report_text
            {| which := fun _ => true;
            run := fun _ => Some {| returncode := 0;
                                    stdout := ("12345" ++ LF ++ "abc" ++ LF ++ "678" ++ LF)%string;
                                    stderr := "" |} |}
            "pacremove.py" "gimp" []
            {| returncode := 0;
               stdout := ("12345" ++ LF ++ "abc" ++ LF ++ "678" ++ LF)%string;
               stderr := "" |} eq_refl eq_refl eq_refl _).
  vm_compute. reflexivity.
Defined.

(** ** What the programs can raise *)

Lemma snd_bind {A B : Type} (m : io A) (k : A -> io B) :
  snd (bind m k) =
  match snd m with
  | Ok a => snd (k a)
  | Raise e => Raise e
  end.
Proof.
  destruct m as [t [a | e]]; cbn [bind snd]; [| reflexivity].
  destruct (k a) as [t' r]. reflexivity.
Qed.

Lemma fst_bind {A B : Type} (m : io A) (k : A -> io B) :
  fst (bind m k) =
  match snd m with
  | Ok a => (fst m ++ fst (k a))%list
  | Raise e => fst m
  end.
Proof.
  destruct m as [t [a | e]]; cbn [bind fst snd]; [| reflexivity].
  destruct (k a) as [t' r]. reflexivity.
Qed.

Lemma of_string_outcomes (s : string) :
  (exists x, B64.of_string s = Ok x) \/ B64.of_string s = Raise ValueError.
Proof.
  unfold B64.of_string. destruct (Str.sign (Str.strip s)) as [neg r].
  destruct (String.eqb _ "inf" || String.eqb _ "infinity"); [left; eexists; reflexivity |].
  destruct (String.eqb _ "nan"); [left; eexists; reflexivity |].
  destruct (B64.number r) as [[[ds fs] r1] |]; [| right; reflexivity].
  destruct (B64.exponent r1) as [[x [| c r2]] |];
    [left; eexists; reflexivity | right; reflexivity | right; reflexivity].
Qed.

Lemma multiplier_cases (unit : string) :
  In (Dict.get_default Pacsize.multipliers unit 1) [1; 1024; 1024 ^ 2; 1024 ^ 3; 1024 ^ 4].
Proof.
  unfold Dict.get_default, Pacsize.multipliers. cbn [Dict.get].
  repeat match goal with
         | |- context [String.eqb ?a unit] => destruct (String.eqb a unit)
         end; cbn [In]; tauto.
Qed.

Lemma multiplier_to_float (unit : string) :
  exists y, Num.to_float (PyInt (Dict.get_default Pacsize.multipliers unit 1)) = Ok y.
Proof.
  pose proof (multiplier_cases unit) as H. cbn [In] in H.
  repeat (destruct H as [<- | H]; [eexists; vm_compute; reflexivity |]).
  contradiction.
Qed.

Lemma parse_size_outcomes (size_str : string) :
  Pacsize.parse_size size_str = Ok (PyInt 0) \/
  (exists x, Pacsize.parse_size size_str = Ok (PyFloat x)) \/
  Pacsize.parse_size size_str = Raise ValueError.
Proof.
  unfold Pacsize.parse_size. cbv zeta.
  destruct (negb (Nat.eqb (List.length (Str.split size_str)) 2)); [left; reflexivity |].
  right.
  destruct (of_string_outcomes (nth 0 (Str.split size_str) "")) as [[x ->] | ->];
    [| right; reflexivity].
  left. unfold rbind at 1. unfold Num.mul.
  destruct (multiplier_to_float (nth 1 (Str.split size_str) "")) as [y ->].
  eexists. reflexivity.
Qed.

Lemma parse_size_parsed (size_str : string) (v : pynum) :
  Pacsize.parse_size size_str = Ok v -> parsed_size v.
Proof.
  intros H. destruct (parse_size_outcomes size_str) as [E | [[x E] | E]];
    rewrite E in H; [| | discriminate]; injection H as <-;
    [left; reflexivity | right; exists x; reflexivity].
Qed.

Lemma values_set (P : pynum -> Prop) (d : dict pynum) (k : string) (v : pynum) :
  Forall P (Dict.values d) -> P v -> Forall P (Dict.values (Dict.set d k v)).
Proof.
  unfold Dict.values. intros H Hv.
  induction d as [| [k' v'] r IH]; cbn [Dict.set map].
  - constructor; [exact Hv | constructor].
  - inversion H as [| ? ? Hv' Hr]; subst.
    destruct (String.eqb k' k); cbn [map snd]; constructor; auto.
Qed.

Lemma parse_line_outcomes (st : Pacsize.parser_state) (line : string) :
  Forall parsed_size (Dict.values (fst st)) ->
  (exists st', Pacsize.parse_line st line = Ok st' /\
               Forall parsed_size (Dict.values (fst st'))) \/
  Pacsize.parse_line st line = Raise ValueError.
Proof.
  destruct st as [sizes cur]. cbn [fst]. intros H.
  unfold Pacsize.parse_line. cbv zeta.
  destruct (Str.startswith "Name" (Str.strip line)).
  - left. destruct (Str.split1 ":" (Str.strip line)) as [| a [| b r]];
      eexists; (split; [reflexivity | exact H]).
  - destruct (Str.startswith "Installed Size" (Str.strip line) && Pacsize.truthy cur);
      [| left; eexists; split; [reflexivity | exact H]].
    destruct (Str.split1 ":" (Str.strip line)) as [| a [| b r]];
      try (left; eexists; split; [reflexivity | exact H]).
    destruct cur as [pkg |]; [| left; eexists; split; [reflexivity | exact H]].
    destruct (Pacsize.parse_size (Str.strip b)) as [v | e] eqn:E.
    + left. eexists. split; [reflexivity |]. cbn [fst].
      apply values_set; [exact H | exact (parse_size_parsed _ _ E)].
    + right. destruct (parse_size_outcomes (Str.strip b)) as [E' | [[x E'] | E']];
        rewrite E' in E; try discriminate. injection E as <-. reflexivity.
Qed.

Lemma parse_lines_outcomes (lines : list string) :
  forall st,
    Forall parsed_size (Dict.values (fst st)) ->
    (exists st', Pacsize.parse_lines lines st = Ok st' /\
                 Forall parsed_size (Dict.values (fst st'))) \/
    Pacsize.parse_lines lines st = Raise ValueError.
Proof.
  induction lines as [| line rest IH]; intros st H; cbn [Pacsize.parse_lines].
  - left. exists st. split; [reflexivity | exact H].
  - destruct (parse_line_outcomes st line H) as [(st1 & -> & H1) | ->];
      [| right; reflexivity].
    unfold rbind. apply IH, H1.
Qed.

Lemma parse_blocks_outcomes (out : string) :
  (exists sizes, Pacsize.parse_blocks out = Ok sizes /\
                 Forall parsed_size (Dict.values sizes)) \/
  Pacsize.parse_blocks out = Raise ValueError.
Proof.
  unfold Pacsize.parse_blocks.
  destruct (parse_lines_outcomes (Str.splitlines out) ([], None)) as [(st & -> & H) | ->];
    [constructor | left | right; reflexivity].
  exists (fst st). split; [reflexivity | exact H].
Qed.

(** X9: [parse_size] returns the int 0 (the text is not two words) or a
    float, or raises [ValueError] (the first word is not a number), and
    nothing else; so every size the block parser stores is the int 0 or a
    float, and the parser fails only with [ValueError]. *)
Theorem sizes_are_zero_or_floats :
  (forall size_str,
      Pacsize.parse_size size_str = Ok (PyInt 0) \/
      (exists x, Pacsize.parse_size size_str = Ok (PyFloat x)) \/
      Pacsize.parse_size size_str = Raise ValueError) /\
  (forall out,
      (exists sizes, Pacsize.parse_blocks out = Ok sizes /\
                     Forall parsed_size (Dict.values sizes)) \/
      Pacsize.parse_blocks out = Raise ValueError).
Proof.
  split; [exact parse_size_outcomes | exact parse_blocks_outcomes].
Qed.

(** *** The formatter on floats *)

Lemma render_float (x : B64.float) (unit : string) :
  render (PyFloat x) unit = Ok (B64.format_f 2 x ++ " " ++ unit).
Proof. reflexivity. Qed.

Lemma truediv_float_1024 (x : B64.float) :
  Num.truediv (PyFloat x) (PyFloat f1024) = Ok (PyFloat (B64.div x f1024)).
Proof. reflexivity. Qed.

Lemma format_loop_float (us : list string) (last : string) :
  forall x, exists text, format_loop us last (PyFloat x) = Ok text.
Proof.
  induction us as [| unit rest IH]; intros x; cbn [format_loop].
  - eexists. apply render_float.
  - destruct (Num.lt (PyFloat x) (PyFloat f1024)); [eexists; apply render_float |].
    rewrite truediv_float_1024. unfold rbind. apply IH.
Qed.

Lemma format_loop_zero (us : list string) (last : string) :
  exists text, format_loop us last (PyInt 0) = Ok text.
Proof.
  destruct us as [| unit rest]; cbn [format_loop]; eexists; reflexivity.
Qed.

Lemma format_loop_parsed (us : list string) (last : string) (v : pynum) :
  parsed_size v -> exists text, format_loop us last v = Ok text.
Proof.
  intros [-> | [x ->]]; [apply format_loop_zero | apply format_loop_float].
Qed.

Lemma format_f_parsed (d : nat) (v : pynum) :
  parsed_size v -> exists text, Num.format_f d v = Ok text.
Proof.
  intros [-> | [x ->]]; eexists; reflexivity.
Qed.

(** *** The sums *)

Lemma add_parsed (a b : pynum) :
  parsed_size a -> parsed_size b ->
  exists c, Num.add a b = Ok c /\ parsed_size c.
Proof.
  intros [-> | [x ->]] [-> | [y ->]]; eexists;
    (split; [reflexivity |]); [left; reflexivity | right | right | right];
    eexists; reflexivity.
Qed.

Lemma buckets_of_has_buckets (stats : dict pynum) (key : string) :
  has_buckets stats -> Forall parsed_size (Dict.values stats) ->
  key = "/opt" \/ key = "/usr" ->
  exists v, Dict.item stats key = Ok v /\ parsed_size v.
Proof.
  intros [Ho Hu] Hall Hk. unfold Dict.item.
  assert (Hget : Dict.get stats key <> None) by (destruct Hk as [-> | ->]; assumption).
  destruct (Dict.get stats key) as [v |] eqn:E; [| contradiction].
  exists v. split; [reflexivity |].
  clear Ho Hu Hget Hk. unfold Dict.values in Hall.
  induction stats as [| [k' v'] r IH]; cbn [Dict.get] in E; [discriminate |].
  inversion Hall as [| ? ? Hv' Hr]; subst.
  destruct (String.eqb k' key); [injection E as <-; exact Hv' | apply IH; assumption].
Qed.

Lemma tally_parsed (pkgs : list (string * pynum)) :
  forall stats count,
    has_buckets stats -> Forall parsed_size (Dict.values stats) ->
    Forall parsed_size (map snd pkgs) ->
    exists stats',
      snd (Pacsize.tally pkgs stats count) = Ok stats' /\
      has_buckets stats' /\ Forall parsed_size (Dict.values stats').
Proof.
  induction pkgs as [| [pkg size] rest IH]; intros stats count Hb Hall Hp;
    cbn [Pacsize.tally].
  - exists stats. repeat split; assumption || apply Hb.
  - cbn [map snd] in Hp. inversion Hp as [| ? ? Hsize Hrest]; subst.
    destruct (buckets_of_has_buckets stats (Pacsize.guess_location pkg) Hb Hall
                (guess_location_range pkg)) as (old & Hold & Pold).
    destruct (add_parsed old size Pold Hsize) as (new & Hnew & Pnew).
    rewrite snd_bind. unfold lift at 1. cbn [snd]. rewrite Hold.
    rewrite snd_bind. unfold lift at 1. cbn [snd]. rewrite Hnew.
    assert (Hb' : has_buckets (Dict.set stats (Pacsize.guess_location pkg) new))
      by (apply has_buckets_set; exact Hb).
    assert (Hall' : Forall parsed_size
                      (Dict.values (Dict.set stats (Pacsize.guess_location pkg) new)))
      by (apply values_set; assumption).
    destruct (count <? 10).
    + destruct (format_loop_parsed ["B"; "KiB"; "MiB"; "GiB"] "TiB" size Hsize)
        as [text Htext].
      rewrite snd_bind. unfold lift at 1. cbn [snd].
      unfold Pacsize.format_size. rewrite Htext.
      rewrite snd_bind. cbn [print snd]. apply IH; assumption.
    + apply IH; assumption.
Qed.

Lemma sum_from_parsed (values : list pynum) :
  forall acc,
    parsed_size acc -> Forall parsed_size values ->
    exists total, Pacsize.sum_from acc values = Ok total /\ parsed_size total.
Proof.
  induction values as [| v rest IH]; intros acc Ha Hv; cbn [Pacsize.sum_from].
  - exists acc. split; [reflexivity | exact Ha].
  - inversion Hv as [| ? ? Hv1 Hrest]; subst.
    destruct (add_parsed acc v Ha Hv1) as (acc' & -> & Ha').
    unfold rbind. apply IH; assumption.
Qed.

(** *** The guard of the percentages *)

Lemma positive_is_not_zero (total : pynum) :
  Num.gt total (PyInt 0) = true -> Num.is_zero total = false.
Proof.
  unfold Num.gt, Num.lt, Num.is_zero. cbn [Num.exact]. change (0 <? 0) with false.
  cbn [Z.abs]. destruct total as [z | [| s | s m e]]; cbn [Num.exact B64.ltb B64.is_zero];
    try reflexivity.
  - cbv zeta. cbn [B64.signed]. intros H. apply Z.ltb_lt in H. apply Z.eqb_neq.
    intros ->. cbn in H. lia.
  - cbv zeta. cbn [B64.signed]. intros H. apply Z.ltb_lt in H. apply Z.eqb_neq.
    intros ->. destruct s; cbn [B64.signed] in H; lia.
Qed.

Lemma percent_parsed (stats : dict pynum) (key : string) (total : pynum) :
  has_buckets stats -> Forall parsed_size (Dict.values stats) ->
  key = "/opt" \/ key = "/usr" -> parsed_size total ->
  exists p, Pacsize.percent stats key total = Ok p /\ parsed_size p.
Proof.
  intros Hb Hall Hk Ht. unfold Pacsize.percent.
  destruct (Num.gt total (PyInt 0)) eqn:G;
    [| exists (PyInt 0); split; [reflexivity | left; reflexivity]].
  destruct (buckets_of_has_buckets stats key Hb Hall Hk) as (part & -> & Pp).
  unfold rbind. unfold Num.truediv. rewrite (positive_is_not_zero total G).
  destruct Ht as [-> | [y ->]]; [discriminate G |].
  destruct Pp as [-> | [x ->]]; eexists; (split; [reflexivity |]);
    right; eexists; reflexivity.
Qed.

Lemma sorted_desc_Permutation (items : list (string * pynum)) :
  Permutation items (Pacsize.sorted_desc items).
Proof.
  assert (Hins : forall x l, Permutation (x :: l) (Pacsize.insert_desc x l)).
  { intros x l. induction l as [| y r IH]; cbn [Pacsize.insert_desc].
    - apply Permutation_refl.
    - destruct (Num.lt (snd x) (snd y)); [| apply Permutation_refl].
      eapply Permutation_trans; [apply perm_swap |]. apply perm_skip, IH. }
  unfold Pacsize.sorted_desc.
  induction items as [| x r IH]; cbn [fold_right]; [constructor |].
  eapply Permutation_trans; [apply perm_skip, IH | apply Hins].
Qed.

Lemma sorted_desc_parsed (size_map : dict pynum) :
  Forall parsed_size (Dict.values size_map) ->
  Forall parsed_size (map snd (Pacsize.sorted_desc size_map)).
Proof.
  unfold Dict.values. intros H.
  eapply Permutation_Forall; [| exact H].
  apply Permutation_map, sorted_desc_Permutation.
Qed.

Lemma distribute_parsed (size_map : dict pynum) :
  Forall parsed_size (Dict.values size_map) ->
  exists d,
    snd (Pacsize.distribute size_map) = Ok d /\
    has_buckets (Pacsize.stats d) /\
    Forall parsed_size (Dict.values (Pacsize.stats d)) /\
    parsed_size (Pacsize.total d) /\
    parsed_size (Pacsize.opt_pct d) /\ parsed_size (Pacsize.usr_pct d).
Proof.
  intros H. unfold Pacsize.distribute. cbv zeta.
  rewrite snd_bind. cbn [print snd]. rewrite snd_bind. cbn [print snd].
  destruct (tally_parsed (Pacsize.sorted_desc size_map) empty_stats 0)
    as (stats & Hs & Hb & Hall).
  { apply empty_stats_has_buckets. }
  { repeat constructor. }
  { apply sorted_desc_parsed, H. }
  rewrite snd_bind. fold empty_stats. rewrite Hs.
  destruct (sum_from_parsed (Dict.values stats) (PyInt 0)) as (total & Htot & Pt);
    [left; reflexivity | exact Hall |].
  rewrite snd_bind. unfold lift at 1. cbn [snd]. rewrite Htot.
  destruct (percent_parsed stats "/opt" total Hb Hall (or_introl eq_refl) Pt)
    as (po & Hpo & Ppo).
  destruct (percent_parsed stats "/usr" total Hb Hall (or_intror eq_refl) Pt)
    as (pu & Hpu & Ppu).
  rewrite snd_bind. unfold lift at 1. cbn [snd]. rewrite Hpo.
  rewrite snd_bind. unfold lift at 1. cbn [snd]. rewrite Hpu.
  eexists. split; [reflexivity |]. cbn. repeat split; assumption || apply Hb.
Qed.

Lemma report_parsed (d : Pacsize.distribution) :
  has_buckets (Pacsize.stats d) ->
  Forall parsed_size (Dict.values (Pacsize.stats d)) ->
  parsed_size (Pacsize.total d) ->
  parsed_size (Pacsize.opt_pct d) -> parsed_size (Pacsize.usr_pct d) ->
  snd (Pacsize.report d) = Ok tt.
Proof.
  intros Hb Hall Pt Po Pu. unfold Pacsize.report.
  destruct (buckets_of_has_buckets _ "/opt" Hb Hall (or_introl eq_refl)) as (o & Ho & Qo).
  destruct (buckets_of_has_buckets _ "/usr" Hb Hall (or_intror eq_refl)) as (u & Hu & Qu).
  destruct (format_loop_parsed ["B"; "KiB"; "MiB"; "GiB"] "TiB" o Qo) as [to Fo].
  destruct (format_loop_parsed ["B"; "KiB"; "MiB"; "GiB"] "TiB" u Qu) as [tu Fu].
  destruct (format_loop_parsed ["B"; "KiB"; "MiB"; "GiB"] "TiB" _ Pt) as [tt' Ft].
  destruct (format_f_parsed 1 _ Po) as [so So].
  destruct (format_f_parsed 1 _ Pu) as [su Su].
  unfold Pacsize.format_size.
  repeat (rewrite snd_bind; unfold lift at 1; cbn [print snd];
          rewrite ?Ho, ?Hu, ?Fo, ?Fu, ?Ft, ?So, ?Su).
  reflexivity.
Qed.

(** X10: whatever text the block parser accepts, the aggregation and the
    report never raise on the sizes it returns: the bucket sums, the total,
    the guarded percentages and every [format_size] and [.1f] rendering
    succeed, because each size is a float or the int 0. *)
Theorem report_never_fails_after_parsing (out : string) (sizes : dict pynum) :
  Pacsize.parse_blocks out = Ok sizes ->
  exists d, snd (Pacsize.distribute sizes) = Ok d /\ snd (Pacsize.report d) = Ok tt.
Proof.
  intros H. destruct (parse_blocks_outcomes out) as [(s & E & Hall) | E];
    rewrite E in H; [| discriminate]. injection H as <-.
  destruct (distribute_parsed s Hall) as (d & Hd & Hb & Hs & Pt & Po & Pu).
  exists d. split; [exact Hd | apply report_parsed; assumption].
Qed.

Lemma report_never_fails_after_parsing_witness :
  exists d,
    snd (Pacsize.distribute [("foo", PyFloat (B64.of_Z 2048))]) = Ok d /\
    snd (Pacsize.report d) = Ok tt.
Proof.
  apply (report_never_fails_after_parsing
           ("Name: foo" ++ LF ++ "Installed Size: 2.00 KiB")%string).
  vm_compute. reflexivity.
Defined.

Lemma dependencies_outcomes (w : world) (target : string) :
  (exists deps, snd (Pacsize.get_all_dependencies w target) = Ok deps) \/
  snd (Pacsize.get_all_dependencies w target) = Raise (SystemExit 1) \/
  snd (Pacsize.get_all_dependencies w target) = Raise FileNotFoundError.
Proof.
  unfold Pacsize.get_all_dependencies.
  destruct (which w "pactree"); cbn [negb]; [| right; left; reflexivity].
  unfold subprocess_run. destruct (run w _) as [r |];
    [left; eexists; reflexivity | right; right; reflexivity].
Qed.

Lemma batch_outcomes (w : world) (packages : list string) :
  (exists sizes, snd (Pacsize.get_installed_size_batch w packages) = Ok sizes /\
                 Forall parsed_size (Dict.values sizes)) \/
  snd (Pacsize.get_installed_size_batch w packages) = Raise (SystemExit 1) \/
  snd (Pacsize.get_installed_size_batch w packages) = Raise ValueError.
Proof.
  unfold Pacsize.get_installed_size_batch.
  destruct packages as [| p r]; [left; exists []; split; [reflexivity | constructor] |].
  cbv zeta. destruct (run w _) as [res |]; [| right; left; reflexivity].
  cbn [snd]. destruct (parse_blocks_outcomes (stdout res)) as [(s & E & H) | E].
  - left. exists s. split; assumption.
  - right. right. exact E.
Qed.

(** X11: in a world where a command either completes or is not found,
    [main] of pacsize.py ends normally, or exits with status 1 (pactree or
    pacman missing), or lets through [FileNotFoundError] (pactree found by
    [which] but not by [run]) or [ValueError] (a size that is not a
    number); it never ends with [KeyError], [ZeroDivisionError] or
    [OverflowError]. *)
Theorem pacsize_main_outcomes (w : world) :
  snd (Pacsize.main w) = Ok tt \/
  snd (Pacsize.main w) = Raise (SystemExit 1) \/
  snd (Pacsize.main w) = Raise FileNotFoundError \/
  snd (Pacsize.main w) = Raise ValueError.
Proof.
  unfold Pacsize.main. cbv zeta. rewrite snd_bind.
  destruct (dependencies_outcomes w "rocm-hip-sdk") as [[deps ->] | [-> | ->]];
    [| right; left; reflexivity | right; right; left; reflexivity].
  rewrite snd_bind. cbn [print snd]. rewrite snd_bind. cbn [print snd].
  rewrite snd_bind.
  destruct (batch_outcomes w deps) as [(sizes & -> & Hall) | [-> | ->]];
    [| right; left; reflexivity | right; right; right; reflexivity].
  destruct (distribute_parsed sizes Hall) as (d & Hd & Hb & Hs & Pt & Po & Pu).
  rewrite snd_bind, Hd. left. apply report_parsed; assumption.
Qed.

(** *** The guard of the percentages, for any numbers *)

Lemma to_float_outcomes (n : pynum) :
  (exists x, Num.to_float n = Ok x) \/ Num.to_float n = Raise OverflowError.
Proof.
  destruct n as [z | x]; cbn [Num.to_float]; [| left; eexists; reflexivity].
  destruct (B64.of_Z z); [left; eexists; reflexivity | right; reflexivity
                         | left; eexists; reflexivity].
Qed.

(** X12: the percentage [(stats[key] / total) * 100 if total > 0 else 0]
    never raises [ZeroDivisionError], whatever the numbers: it gives a
    value, or [KeyError] for a missing key, or [OverflowError] for an int
    too large for a float. *)
Theorem percent_never_divides_by_zero (stats : dict pynum) (key : string) (total : pynum) :
  (exists p, Pacsize.percent stats key total = Ok p) \/
  Pacsize.percent stats key total = Raise KeyError \/
  Pacsize.percent stats key total = Raise OverflowError.
Proof.
  unfold Pacsize.percent.
  destruct (Num.gt total (PyInt 0)) eqn:G; [| left; eexists; reflexivity].
  unfold Dict.item. destruct (Dict.get stats key) as [part |];
    [| right; left; reflexivity].
  cbn [rbind]. unfold Num.truediv. rewrite (positive_is_not_zero total G).
  assert (Hmul : forall q, exists p, Num.mul (PyFloat q) (PyInt 100) = Ok p)
    by (intros q; eexists; reflexivity).
  assert (Hfloat : forall a b,
             (exists p, (let? q := (let? x := Num.to_float a in
                                    let? y := Num.to_float b in
                                    Ok (PyFloat (B64.div x y))) in
                         Num.mul q (PyInt 100)) = Ok p) \/
             (let? q := (let? x := Num.to_float a in
                         let? y := Num.to_float b in
                         Ok (PyFloat (B64.div x y))) in
              Num.mul q (PyInt 100)) = Raise OverflowError).
  { intros a b. destruct (to_float_outcomes a) as [[x ->] | ->];
      [| right; reflexivity].
    destruct (to_float_outcomes b) as [[y ->] | ->]; [| right; reflexivity].
    left. unfold rbind. apply Hmul. }
  destruct part as [x | x], total as [y | y];
    try (destruct (Hfloat (PyInt x) (PyFloat y)) as [H | H]; [left | right; right]; exact H);
    try (destruct (Hfloat (PyFloat x) (PyInt y)) as [H | H]; [left | right; right]; exact H);
    try (destruct (Hfloat (PyFloat x) (PyFloat y)) as [H | H]; [left | right; right]; exact H).
  destruct (B64.round _ _ _) as [| s | s m e]; cbn [rbind];
    [left; apply Hmul | right; right; reflexivity | left; apply Hmul].
Qed.

(** ** Integers out of the range of binary64 *)

Lemma ilog2_integer (p : Z) : 0 < p -> B64.ilog2 p 1 = Z.log2 p.
Proof.
  intros Hp. unfold B64.ilog2, B64.shl. cbv zeta. change (Z.log2 1) with 0.
  rewrite Z.sub_0_r. pose proof (Z.log2_nonneg p) as Hl.
  rewrite (Z.max_r 0 (Z.log2 p)), (Z.max_l 0 (- Z.log2 p)) by lia.
  destruct (Z.log2_spec p Hp) as [Hlo _].
  destruct (Z.leb_spec (1 * 2 ^ Z.log2 p) (p * 2 ^ 0)) as [_ | H]; [reflexivity |].
  rewrite Z.pow_0_r in H. lia.
Qed.

Lemma of_Z_finite (b : Z) :
  Z.abs b < 2 ^ 1023 -> exists m e, B64.of_Z b = B64.Fin (b <? 0) m e.
Proof.
  intros Hb. unfold B64.of_Z, B64.round.
  destruct (Z.abs b =? 0) eqn:E0; [eexists; eexists; reflexivity |].
  apply Z.eqb_neq in E0. assert (Hp : 0 < Z.abs b) by lia.
  rewrite (ilog2_integer _ Hp). cbv zeta.
  assert (Hl : Z.log2 (Z.abs b) < 1023) by (apply Z.log2_lt_pow2; lia).
  unfold B64.emax, B64.emin.
  set (e := Z.max (Z.log2 (Z.abs b) - 52) (-1074)).
  assert (He : e <= 970) by lia.
  destruct (_ =? 2 ^ 53).
  - destruct (Z.ltb_spec 971 (e + 1)); [lia |]. eexists; eexists; reflexivity.
  - destruct (Z.ltb_spec 971 e); [lia |]. eexists; eexists; reflexivity.
Qed.

Lemma of_Z_overflow (b : Z) :
  2 ^ 1024 <= Z.abs b -> B64.of_Z b = B64.Inf (b <? 0).
Proof.
  intros Hb. unfold B64.of_Z, B64.round.
  assert (Hp : 0 < Z.abs b) by (pose proof (pow2_pos 1024 ltac:(lia)); lia).
  destruct (Z.eqb_spec (Z.abs b) 0) as [E0 | _]; [lia |].
  rewrite (ilog2_integer _ Hp). cbv zeta.
  assert (Hl : 1024 <= Z.log2 (Z.abs b)) by (apply Z.log2_le_pow2; lia).
  unfold B64.emax, B64.emin.
  set (e := Z.max (Z.log2 (Z.abs b) - 52) (-1074)).
  assert (He : 972 <= e) by lia.
  destruct (_ =? 2 ^ 53).
  - destruct (Z.ltb_spec 971 (e + 1)); [reflexivity | lia].
  - destruct (Z.ltb_spec 971 e); [reflexivity | lia].
Qed.

Lemma format_loop_small_int (us : list string) (last : string) (b : Z) :
  Z.abs b < 2 ^ 1023 -> exists text, format_loop us last (PyInt b) = Ok text.
Proof.
  intros Hb. destruct (of_Z_finite b Hb) as (m & e & E).
  assert (Hf : Num.to_float (PyInt b) = Ok (B64.Fin (b <? 0) m e))
    by (cbn [Num.to_float]; rewrite E; reflexivity).
  assert (Hr : forall unit, exists text, render (PyInt b) unit = Ok text).
  { intros unit. unfold render, Num.format_f. rewrite Hf. eexists. reflexivity. }
  destruct us as [| unit rest]; cbn [format_loop]; [apply Hr |].
  destruct (Num.lt (PyInt b) (PyFloat f1024)); [apply Hr |].
  unfold Num.truediv. change (Num.is_zero (PyFloat f1024)) with false. cbv iota.
  rewrite Hf. cbn [rbind Num.to_float]. apply format_loop_float.
Qed.

Lemma lt_int_1024 (b : Z) : Num.lt (PyInt b) (PyFloat f1024) = (b <? 1024).
Proof.
  unfold Num.lt, Num.exact, f1024, B64.ltb. cbv zeta.
  change (Z.min 0 (-42)) with (-42). change (0 - -42) with 42.
  change (-42 - -42) with 0. change (B64.signed false (2 ^ 52) * 2 ^ 0) with (1024 * 2 ^ 42).
  assert (Hs : B64.signed (b <? 0) (Z.abs b) = b).
  { unfold B64.signed. destruct (Z.ltb_spec b 0); lia. }
  rewrite Hs. pose proof (pow2_pos 42 ltac:(lia)).
  destruct (Z.ltb_spec b 1024); [apply Z.ltb_lt | apply Z.ltb_ge]; nia.
Qed.

Lemma format_loop_huge_int (us : list string) (last : string) (b : Z) :
  2 ^ 1024 <= Z.abs b -> format_loop us last (PyInt b) = Raise OverflowError.
Proof.
  intros Hb.
  assert (Hf : Num.to_float (PyInt b) = Raise OverflowError)
    by (cbn [Num.to_float]; rewrite (of_Z_overflow b Hb); reflexivity).
  assert (Hr : forall unit, render (PyInt b) unit = Raise OverflowError).
  { intros unit. unfold render, Num.format_f. rewrite Hf. reflexivity. }
  destruct us as [| unit rest]; cbn [format_loop]; [apply Hr |].
  destruct (Num.lt (PyInt b) (PyFloat f1024)); [apply Hr |].
  unfold Num.truediv. change (Num.is_zero (PyFloat f1024)) with false. cbv iota.
  rewrite Hf. reflexivity.
Qed.

(** X13: both copies of [format_size] return a text for every float,
    infinities and NaN included, and for every int of magnitude below
    2^1023; for an int of magnitude 2^1024 or more they raise
    [OverflowError] (the int does not fit a float). *)
Theorem format_size_failure_modes :
  (forall x, exists text text',
      Pacsize.format_size (PyFloat x) = Ok text /\
      Pacremove.format_size (PyFloat x) = Ok text') /\
  (forall b, Z.abs b < 2 ^ 1023 ->
             exists text text',
               Pacsize.format_size (PyInt b) = Ok text /\
               Pacremove.format_size (PyInt b) = Ok text') /\
  (forall b, 2 ^ 1024 <= Z.abs b ->
             Pacsize.format_size (PyInt b) = Raise OverflowError /\
             Pacremove.format_size (PyInt b) = Raise OverflowError).
Proof.
  unfold Pacsize.format_size, Pacremove.format_size. split; [| split].
  - intros x.
    destruct (format_loop_float ["B"; "KiB"; "MiB"; "GiB"] "TiB" x) as [t1 H1].
    destruct (format_loop_float ["B"; "KiB"; "MiB"; "GiB"; "TiB"] "TiB" x) as [t2 H2].
    exists t1, t2. split; assumption.
  - intros b Hb.
    destruct (format_loop_small_int ["B"; "KiB"; "MiB"; "GiB"] "TiB" b Hb) as [t1 H1].
    destruct (format_loop_small_int ["B"; "KiB"; "MiB"; "GiB"; "TiB"] "TiB" b Hb)
      as [t2 H2].
    exists t1, t2. split; assumption.
  - intros b Hb. split; apply format_loop_huge_int; exact Hb.
Qed.

Lemma format_size_failure_modes_witness :
  Pacsize.format_size (PyInt (2 ^ 1024)) = Raise OverflowError /\
  Pacremove.format_size (PyInt (2 ^ 1024)) = Raise OverflowError.
Proof.
  apply (proj2 (proj2 format_size_failure_modes)). vm_compute. discriminate.
Defined.

(** ** Beyond the unit table *)

(** X14: from 1024^5 bytes on (and below 2^53) the two copies of
    [format_size] differ: pacsize.py prints the count of tebibytes, while
    pacremove.py divides once more and still writes "TiB", a figure 1024
    times too small. *)
Theorem format_size_beyond_table (b : Z) :
  1024 ^ 5 <= b < 2 ^ 53 ->
  Pacsize.format_size (PyInt b) = Ok (rendering b 4 "TiB") /\
  Pacremove.format_size (PyInt b) = Ok (rendering b 5 "TiB").
Proof.
  intros Hb. assert (Hb53 : 0 <= b < 2 ^ 53) by lia.
  destruct (format_loop_bytes ["B"; "KiB"; "MiB"; "GiB"] "TiB" b Hb53) as [A _];
    [simpl; lia |].
  destruct (format_loop_bytes ["B"; "KiB"; "MiB"; "GiB"; "TiB"] "TiB" b Hb53) as [B _];
    [simpl; lia |].
  assert (P : forall k, 0 <= k <= 5 -> (b <? 1024 ^ k) = false).
  { intros k Hk. apply Z.ltb_ge.
    assert (1024 ^ k <= 1024 ^ 5) by (apply Z.pow_le_mono_r; lia). lia. }
  unfold Pacsize.format_size, Pacremove.format_size. rewrite A, B.
  cbn [pick]. change (0 + 1) with 1. change (1 + 1) with 2. change (2 + 1) with 3.
  change (3 + 1) with 4. change (4 + 1) with 5.
  rewrite !P by lia. split; reflexivity.
Qed.

Lemma format_size_beyond_table_witness :
  Pacsize.format_size (PyInt (1024 ^ 5)) = Ok "1024.00 TiB" /\
  Pacremove.format_size (PyInt (1024 ^ 5)) = Ok "1.00 TiB".
Proof.
  apply (format_size_beyond_table (1024 ^ 5)). vm_compute.
  split; [discriminate | reflexivity].
Defined.

(** A negative count is below 1024: it is printed in bytes, whatever its
    magnitude. *)
Lemma round_half_even_integer (k : Z) : B64.round_half_even (k * 1) (1 * 1) = k.
Proof.
  unfold B64.round_half_even. cbv zeta. change (1 * 1) with 1.
  rewrite Z.mul_1_r, Z.mod_1_r, Z.div_1_r. reflexivity.
Qed.

(** X15: a negative byte count (above -2^53) is below 1024, so both copies
    of [format_size] print it in bytes, exactly, whatever its magnitude. *)
Theorem format_size_negative (b : Z) :
  - 2 ^ 53 < b < 0 ->
  Pacsize.format_size (PyInt b) = Ok ("-" ++ size_text (100 * - b) "B") /\
  Pacremove.format_size (PyInt b) = Ok ("-" ++ size_text (100 * - b) "B").
Proof.
  intros Hb.
  assert (R : render (PyInt b) "B" = Ok ("-" ++ size_text (100 * - b) "B")).
  { unfold render, Num.format_f. cbn [Num.to_float]. unfold B64.of_Z.
    replace (b <? 0) with true by (symmetry; apply Z.ltb_lt; lia).
    rewrite Z.abs_neq by lia.
    destruct (round_exact true (- b) 1 (- b) 0 0) as (e & He & _ & E);
      try (unfold B64.emin, B64.emax; lia).
    rewrite E. cbn [rbind B64.format_f]. unfold size_text.
    change (10 ^ Z.of_nat 2) with 100. unfold B64.emin in He.
    unfold B64.shl. rewrite (Z.max_l 0 e), (Z.max_r 0 (- e)), Z.pow_0_r by lia.
    assert (F : B64.round_half_even (- b * 2 ^ (0 - 0 - e) * 100 * 1) (1 * 2 ^ (- e))
                = B64.round_half_even (100 * - b * 1) (1 * 1)).
    { pose proof (pow2_pos (- e) ltac:(lia)).
      apply round_half_even_same_fraction; [lia | lia |].
      replace (0 - 0 - e) with (- e) by lia. ring. }
    rewrite F, round_half_even_integer. reflexivity. }
  unfold Pacsize.format_size, Pacremove.format_size. cbn [format_loop].
  rewrite lt_int_1024. replace (b <? 1024) with true by (symmetry; apply Z.ltb_lt; lia).
  split; exact R.
Qed.

Lemma format_size_negative_witness :
  Pacsize.format_size (PyInt (-2048)) = Ok "-2048.00 B" /\
  Pacremove.format_size (PyInt (-2048)) = Ok "-2048.00 B".
Proof.
  apply (format_size_negative (-2048)). vm_compute.
  split; reflexivity.
Defined.

(** ** Where the keys of the size map come from *)

Lemma split1_shape (sep : ascii) (s : string) :
  (exists a, Str.split1 sep s = [a]) \/ (exists a b, Str.split1 sep s = [a; b]).
Proof.
  induction s as [| c r IH]; cbn [Str.split1].
  - left. eexists. reflexivity.
  - destruct (Ascii.eqb c sep); [right; eexists; eexists; reflexivity |].
    destruct IH as [[a ->] | (a & b & ->)];
      [left; eexists; reflexivity | right; eexists; eexists; reflexivity].
Qed.

Lemma truthy_nonempty (cur : option string) :
  Pacsize.truthy cur = true -> exists pkg, cur = Some pkg /\ pkg <> "".
Proof.
  destruct cur as [[| c r] |]; try discriminate. intros _.
  eexists. split; [reflexivity | discriminate].
Qed.

Lemma parse_line_named (seen : list string) (st st' : Pacsize.parser_state)
      (line : string) :
  (forall k, In k (Dict.keys (fst st)) -> named seen k) ->
  (forall pkg, snd st = Some pkg -> pkg <> "" -> named seen pkg) ->
  Pacsize.parse_line st line = Ok st' ->
  (forall k, In k (Dict.keys (fst st')) -> named (seen ++ [line]) k) /\
  (forall pkg, snd st' = Some pkg -> pkg <> "" -> named (seen ++ [line]) pkg).
Proof.
  destruct st as [sizes cur]. cbn [fst snd]. intros Hk Hc.
  assert (Hk' : forall k, In k (Dict.keys sizes) -> named (seen ++ [line]) k).
  { intros k Hin. destruct (Hk k Hin) as (Hne & l & Hl & Hf).
    split; [exact Hne |]. exists l. split; [apply in_or_app; left; exact Hl | exact Hf]. }
  assert (Hc' : forall pkg, cur = Some pkg -> pkg <> "" -> named (seen ++ [line]) pkg).
  { intros pkg E Hne. destruct (Hc pkg E Hne) as (_ & l & Hl & Hf).
    split; [exact Hne |]. exists l. split; [apply in_or_app; left; exact Hl | exact Hf]. }
  unfold Pacsize.parse_line. cbv zeta.
  destruct (Str.startswith "Name" (Str.strip line)) eqn:N.
  - destruct (split1_shape ":" (Str.strip line)) as [[a E] | (a & b & E)]; rewrite E;
      intros H; injection H as <-; cbn [fst snd]; (split; [exact Hk' |]).
    + exact Hc'.
    + intros pkg Hp Hne. injection Hp as <-. split; [exact Hne |].
      exists line. split; [apply in_or_app; right; left; reflexivity |].
      split; [exact N |]. exists a, b. split; [exact E | reflexivity].
  - destruct (Str.startswith "Installed Size" (Str.strip line) && Pacsize.truthy cur)
      eqn:S; [| intros H; injection H as <-; split; assumption].
    apply andb_prop in S. destruct S as [_ T].
    destruct (truthy_nonempty cur T) as (pkg & -> & Hne).
    destruct (Str.split1 ":" (Str.strip line)) as [| a [| b r]];
      try (intros H; injection H as <-; split; assumption).
    destruct (Pacsize.parse_size (Str.strip b)) as [v | e]; [| discriminate].
    cbn [rbind]. intros H. injection H as <-. cbn [fst snd].
    split; [| discriminate].
    intros k Hin. apply in_keys_set in Hin. destruct Hin as [-> | Hin];
      [apply Hc'; [reflexivity | exact Hne] | apply Hk'; exact Hin].
Qed.

Lemma parse_lines_named (lines : list string) :
  forall seen st st',
    (forall k, In k (Dict.keys (fst st)) -> named seen k) ->
    (forall pkg, snd st = Some pkg -> pkg <> "" -> named seen pkg) ->
    Pacsize.parse_lines lines st = Ok st' ->
    forall k, In k (Dict.keys (fst st')) -> named (seen ++ lines) k.
Proof.
  induction lines as [| line rest IH]; intros seen st st' Hk Hc;
    cbn [Pacsize.parse_lines].
  - intros H. injection H as <-. rewrite app_nil_r. exact Hk.
  - destruct (Pacsize.parse_line st line) as [st1 | e] eqn:E; [| discriminate].
    cbn [rbind]. intros H.
    destruct (parse_line_named seen st st1 line Hk Hc E) as [Hk1 Hc1].
    replace (seen ++ line :: rest)%list with ((seen ++ [line]) ++ rest)%list
      by (rewrite <- app_assoc; reflexivity).
    exact (IH (seen ++ [line])%list st1 st' Hk1 Hc1 H).
Qed.

(** X16: every key of the dictionary the block parser returns is the
    non-empty, trimmed value of a "Name" line of the output: no key is
    empty and none is invented. *)
Theorem keys_come_from_name_lines (out : string) (sizes : dict pynum) (k : string) :
  Pacsize.parse_blocks out = Ok sizes -> In k (Dict.keys sizes) ->
  k <> "" /\ exists line, In line (Str.splitlines out) /\ name_field line k.
Proof.
  unfold Pacsize.parse_blocks.
  destruct (Pacsize.parse_lines (Str.splitlines out) ([], None)) as [st |] eqn:E;
    [| discriminate].
  cbn [rbind]. intros H Hin. injection H as <-.
  apply (parse_lines_named (Str.splitlines out) [] ([], None) st); cbn [fst snd];
    [intros k' [] | discriminate | exact E | exact Hin].
Qed.

Lemma keys_come_from_name_lines_witness :
  "foo" <> "" /\
  exists line,
    In line (Str.splitlines ("Name: foo" ++ LF ++ "Installed Size: 2.00 KiB")%string) /\
    name_field line "foo".
Proof.
  apply (keys_come_from_name_lines
           ("Name: foo" ++ LF ++ "Installed Size: 2.00 KiB")%string
           [("foo", PyFloat (B64.of_Z 2048))] "foo").
  - vm_compute. reflexivity.
  - simpl. tauto.
Defined.

(** ** The parser on a well-formed listing *)

Lemma parse_lines_others (others : list string) (st : Pacsize.parser_state) :
  Forall other_field others -> Pacsize.parse_lines others st = Ok st.
Proof.
  induction 1 as [| line rest [Hn Hs] _ IH]; cbn [Pacsize.parse_lines]; [reflexivity |].
  rewrite (parse_line_other st line Hn Hs). exact IH.
Qed.

Lemma parse_lines_blocks (lines : list string) (entries : list (string * pynum)) :
  blocks_of lines entries ->
  forall sizes cur,
    Pacsize.parse_lines lines (sizes, cur) =
    Ok (store sizes entries, match entries with [] => cur | _ :: _ => None end).
Proof.
  induction 1 as [others Ho
                 | before between l1 l2 pkg s v rest entries Hb Hn Hp Hm Hs Hv _ IH];
    intros sizes cur.
  - apply parse_lines_others, Ho.
  - rewrite parse_lines_app, (parse_lines_others before _ Hb). cbn [rbind].
    cbn [Pacsize.parse_lines]. rewrite (parse_line_name sizes cur l1 pkg Hn).
    cbn [rbind]. rewrite parse_lines_app, (parse_lines_others between _ Hm).
    cbn [rbind]. cbn [Pacsize.parse_lines].
    rewrite (parse_line_size sizes l2 pkg s Hs Hp), Hv. cbn [rbind].
    rewrite IH. unfold store. cbn [fold_left fst snd].
    destruct entries; reflexivity.
Qed.

Lemma dict_get_app {V : Type} (a b : dict V) (k : string) :
  Dict.get (a ++ b)%list k =
  match Dict.get a k with
  | Some v => Some v
  | None => Dict.get b k
  end.
Proof.
  induction a as [| [k' v'] r IH]; cbn [app Dict.get]; [reflexivity |].
  destruct (String.eqb k' k); [reflexivity | exact IH].
Qed.

Lemma store_last_wins (entries : list (string * pynum)) :
  forall sizes k,
    Dict.get (store sizes entries) k =
    match Dict.get (rev entries) k with
    | Some v => Some v
    | None => Dict.get sizes k
    end.
Proof.
  unfold store. induction entries as [| [k0 v0] r IH]; intros sizes k;
    cbn [fold_left rev fst snd]; [reflexivity |].
  rewrite IH, dict_get_app. destruct (Dict.get (rev r) k); [reflexivity |].
  cbn [Dict.get]. destruct (String.eqb k0 k) eqn:E.
  - apply String.eqb_eq in E. subst k0. apply dict_get_set_same.
  - apply dict_get_set_other. intros ->. rewrite String.eqb_refl in E. discriminate.
Qed.

(** X17: on a listing made of blocks, each a "Name" line with a non-empty
    value followed by an "Installed Size" line whose value parses, with any
    lines of other labels around them, the block parser returns the
    dictionary obtained by storing each block's parsed size under its name
    in order; looking a name up gives the size of its last block. *)
Theorem well_formed_listing (out : string) (entries : list (string * pynum)) :
  blocks_of (Str.splitlines out) entries ->
  Pacsize.parse_blocks out = Ok (store [] entries) /\
  forall k, Dict.get (store [] entries) k = Dict.get (rev entries) k.
Proof.
  intros H. split.
  - unfold Pacsize.parse_blocks. rewrite (parse_lines_blocks _ _ H). reflexivity.
  - intros k. rewrite store_last_wins. destruct (Dict.get (rev entries) k); reflexivity.
Qed.

Lemma well_formed_listing_witness :
  Pacsize.parse_blocks
    ("Name: foo" ++ LF ++ "Version: 1" ++ LF ++ "Installed Size: 2.00 KiB" ++ LF)%string
  = Ok (store [] [("foo", PyFloat (B64.of_Z 2048))]) /\
  forall k, Dict.get (store [] [("foo", PyFloat (B64.of_Z 2048))]) k
            = Dict.get (rev [("foo", PyFloat (B64.of_Z 2048))]) k.
Proof.
  apply well_formed_listing.
  change (Str.splitlines
            ("Name: foo" ++ LF ++ "Version: 1" ++ LF ++ "Installed Size: 2.00 KiB" ++ LF))
    with ([] ++ "Name: foo" :: ["Version: 1"] ++ "Installed Size: 2.00 KiB" :: [])%list.
  apply (blocks_next [] ["Version: 1"] "Name: foo" "Installed Size: 2.00 KiB"
           "foo" "2.00 KiB").
  - constructor.
  - split; [reflexivity |]. exists "Name", " foo". split; reflexivity.
  - discriminate.
  - repeat constructor.
  - split; [reflexivity |]. exists "Installed Size", " 2.00 KiB". split; reflexivity.
  - vm_compute. reflexivity.
  - apply blocks_end. constructor.
Defined.

(** ** Incomplete blocks *)

(** X18: what the block parser does with blocks that are not one name and
    one size: a second size line after a block is ignored without being
    parsed, of two name lines in a row the later names the block, and a
    size line after a name line with an empty value is ignored. *)
Theorem incomplete_blocks :
  (forall sizes cur l1 l2 l3 pkg s v s3,
      name_field l1 pkg -> pkg <> "" -> size_field l2 s ->
      Pacsize.parse_size s = Ok v -> size_field l3 s3 ->
      Pacsize.parse_lines [l1; l2; l3] (sizes, cur) = Ok (Dict.set sizes pkg v, None)) /\
  (forall sizes cur l1 l2 l3 pkg1 pkg2 s v,
      name_field l1 pkg1 -> name_field l2 pkg2 -> pkg2 <> "" -> size_field l3 s ->
      Pacsize.parse_size s = Ok v ->
      Pacsize.parse_lines [l1; l2; l3] (sizes, cur) = Ok (Dict.set sizes pkg2 v, None)) /\
  (forall sizes cur l1 l2 s,
      name_field l1 "" -> size_field l2 s ->
      Pacsize.parse_lines [l1; l2] (sizes, cur) = Ok (sizes, Some "")).
Proof.
  split; [| split].
  - intros sizes cur l1 l2 l3 pkg s v s3 Hn Hp Hs Hv Hs3. cbn [Pacsize.parse_lines].
    rewrite (parse_line_name sizes cur l1 pkg Hn). cbn [rbind].
    rewrite (parse_line_size sizes l2 pkg s Hs Hp), Hv. cbn [rbind].
    rewrite (parse_line_size_unset _ None l3 s3 Hs3 eq_refl). reflexivity.
  - intros sizes cur l1 l2 l3 pkg1 pkg2 s v Hn1 Hn2 Hp Hs Hv. cbn [Pacsize.parse_lines].
    rewrite (parse_line_name sizes cur l1 pkg1 Hn1). cbn [rbind].
    rewrite (parse_line_name sizes (Some pkg1) l2 pkg2 Hn2). cbn [rbind].
    rewrite (parse_line_size sizes l3 pkg2 s Hs Hp), Hv. reflexivity.
  - intros sizes cur l1 l2 s Hn Hs. cbn [Pacsize.parse_lines].
    rewrite (parse_line_name sizes cur l1 "" Hn). cbn [rbind].
    rewrite (parse_line_size_unset sizes (Some "") l2 s Hs eq_refl). reflexivity.
Qed.

Lemma incomplete_blocks_witness :
  Pacsize.parse_lines ["Name:"; "Installed Size: abc MiB"] ([], None) = Ok ([], Some "").
Proof.
  apply (proj2 (proj2 incomplete_blocks) [] None "Name:" "Installed Size: abc MiB"
           "abc MiB").
  - split; [reflexivity |]. exists "Name", "". split; reflexivity.
  - split; [reflexivity |]. exists "Installed Size", " abc MiB". split; reflexivity.
Defined.

(** ** Units the table does not know *)

(** X19: [parse_size] reads a value whose unit is not one of B, KiB, MiB,
    GiB, TiB (the lookup is case-sensitive) as the same number of bytes:
    the multiplier defaults to 1. *)
Theorem unknown_unit_counts_as_bytes (a u : string) :
  is_word a = true -> is_word u = true ->
  Dict.get Pacsize.multipliers u = None ->
  Pacsize.parse_size (a ++ " " ++ u) = Pacsize.parse_size (a ++ " B").
Proof.
  intros Ha Hu Hnone. unfold Pacsize.parse_size. cbv zeta.
  change (a ++ " B") with (a ++ " " ++ "B").
  rewrite (split_two_words a u Ha Hu), (split_two_words a "B" Ha eq_refl).
  cbn [List.length Nat.eqb negb nth]. unfold Dict.get_default. rewrite Hnone.
  reflexivity.
Qed.

Lemma unknown_unit_counts_as_bytes_witness :
  Pacsize.parse_size "1.5 kib" = Pacsize.parse_size "1.5 B".
Proof.
  apply (unknown_unit_counts_as_bytes "1.5" "kib"); reflexivity.
Defined.

(** ** The table of the largest packages *)

Lemma tally_rows (pkgs : list (string * pynum)) :
  forall stats count,
    0 <= count <= 10 ->
    forallb is_print (fst (Pacsize.tally pkgs stats count)) = true /\
    (List.length (fst (Pacsize.tally pkgs stats count)) <= Z.to_nat (10 - count))%nat /\
    (forall stats', snd (Pacsize.tally pkgs stats count) = Ok stats' ->
                    List.length (fst (Pacsize.tally pkgs stats count)) =
                    Nat.min (Z.to_nat (10 - count)) (List.length pkgs)).
Proof.
  induction pkgs as [| [pkg size] rest IH]; intros stats count Hc;
    cbn [Pacsize.tally].
  - cbn. split; [reflexivity |]. split; [lia |]. intros _ _. lia.
  - cbn [bind lift print].
    destruct (Dict.item stats (Pacsize.guess_location pkg)) as [old | e];
      [| cbn; split; [reflexivity |]; split; [lia | discriminate]].
    destruct (Num.add old size) as [new | e];
      [| cbn; split; [reflexivity |]; split; [lia | discriminate]].
    destruct (Z.ltb_spec count 10) as [Hlt | Hge].
    + destruct (Pacsize.format_size size) as [readable | e];
        [| cbn; split; [reflexivity |]; split; [lia | discriminate]].
      pose proof (IH (Dict.set stats (Pacsize.guess_location pkg) new) (count + 1)
                    ltac:(lia)) as H.
      revert H.
      destruct (Pacsize.tally rest (Dict.set stats (Pacsize.guess_location pkg) new)
                  (count + 1)) as [t r].
      cbn [fst snd app forallb is_print andb List.length]. intros (P & L & E).
      split; [exact P |]. split; [lia |]. intros stats' H. rewrite (E stats' H). lia.
    + assert (count = 10) as -> by lia.
      pose proof (IH (Dict.set stats (Pacsize.guess_location pkg) new) 10 ltac:(lia))
        as H.
      revert H.
      destruct (Pacsize.tally rest (Dict.set stats (Pacsize.guess_location pkg) new) 10)
        as [t r].
      cbn [fst snd app]. intros (P & L & E).
      split; [exact P |]. split; [exact L |]. intros stats' H. rewrite (E stats' H).
      change (Z.to_nat (10 - 10)) with 0%nat. reflexivity.
Qed.

(** X20: the loop of [main] over the sorted packages only prints, and
    prints at most ten rows; when it completes, the rows are exactly
    min(10, n) for n packages, although every package is added to its
    bucket. *)
Theorem table_has_at_most_ten_rows (pkgs : list (string * pynum)) (stats : dict pynum) :
  forallb is_print (fst (Pacsize.tally pkgs stats 0)) = true /\
  (List.length (fst (Pacsize.tally pkgs stats 0)) <= 10)%nat /\
  (forall stats', snd (Pacsize.tally pkgs stats 0) = Ok stats' ->
                  List.length (fst (Pacsize.tally pkgs stats 0)) =
                  Nat.min 10 (List.length pkgs)).
Proof.
  exact (tally_rows pkgs stats 0 ltac:(lia)).
Qed.

Lemma table_has_at_most_ten_rows_witness :
  List.length (fst (Pacsize.tally [("glibc", PyFloat (B64.of_Z 2048))] empty_stats 0))
  = Nat.min 10 (List.length [("glibc", PyFloat (B64.of_Z 2048))]).
Proof.
  apply (proj2 (proj2 (table_has_at_most_ten_rows
                         [("glibc", PyFloat (B64.of_Z 2048))] empty_stats))
           [("/opt", PyInt 0); ("/usr", PyFloat (B64.of_Z 2048))]).
  vm_compute. reflexivity.
Defined.

(** ** The bucket totals *)

Lemma tally_totals (pkgs : list (string * pynum)) :
  forall a0 b0 count stats',
    snd (Pacsize.tally pkgs [("/opt", a0); ("/usr", b0)] count) = Ok stats' ->
    exists a b,
      stats' = [("/opt", a); ("/usr", b)] /\
      Pacsize.sum_from a0 (map snd (filter (in_bucket "/opt") pkgs)) = Ok a /\
      Pacsize.sum_from b0 (map snd (filter (in_bucket "/usr") pkgs)) = Ok b.
Proof.
  induction pkgs as [| [pkg size] rest IH]; intros a0 b0 count stats';
    cbn [Pacsize.tally].
  - cbn. intros H. injection H as <-. exists a0, b0. repeat split; reflexivity.
  - cbn [bind lift print]. unfold in_bucket. cbn [filter fst].
    destruct (guess_location_range pkg) as [G | G]; rewrite G.
    + change (Dict.item [("/opt", a0); ("/usr", b0)] "/opt") with (Ok a0).
      change ("/opt" =? "/opt")%string with true.
      change ("/opt" =? "/usr")%string with false.
      cbn [map snd Pacsize.sum_from].
      destruct (Num.add a0 size) as [new | e]; [| cbn; discriminate]. cbn [rbind].
      change (Dict.set [("/opt", a0); ("/usr", b0)] "/opt" new)
        with [("/opt", new); ("/usr", b0)].
      destruct (count <? 10);
        [destruct (Pacsize.format_size size); [| cbn; discriminate];
         generalize (IH new b0 (count + 1) stats')
        | generalize (IH new b0 count stats')];
        match goal with
        | |- context [Pacsize.tally rest ?s ?c] =>
            destruct (Pacsize.tally rest s c) as [t r]
        end; cbn [snd]; intros H; exact H.
    + change (Dict.item [("/opt", a0); ("/usr", b0)] "/usr") with (Ok b0).
      change ("/usr" =? "/opt")%string with false.
      change ("/usr" =? "/usr")%string with true.
      cbn [map snd Pacsize.sum_from].
      destruct (Num.add b0 size) as [new | e]; [| cbn; discriminate]. cbn [rbind].
      change (Dict.set [("/opt", a0); ("/usr", b0)] "/usr" new)
        with [("/opt", a0); ("/usr", new)].
      destruct (count <? 10);
        [destruct (Pacsize.format_size size); [| cbn; discriminate];
         generalize (IH a0 new (count + 1) stats')
        | generalize (IH a0 new count stats')];
        match goal with
        | |- context [Pacsize.tally rest ?s ?c] =>
            destruct (Pacsize.tally rest s c) as [t r]
        end; cbn [snd]; intros H; exact H.
Qed.

(** X21: when the loop of [main] completes, [stats] still has exactly the
    keys "/opt" and "/usr", in that order, and each holds the sum, taken
    from 0 in table order, of the sizes of the packages [guess_location]
    sends there: every package is counted once, in one bucket. *)
Theorem bucket_totals (pkgs : list (string * pynum)) (stats' : dict pynum) :
  snd (Pacsize.tally pkgs empty_stats 0) = Ok stats' ->
  exists a b,
    stats' = [("/opt", a); ("/usr", b)] /\
    Pacsize.sum_from (PyInt 0) (map snd (filter (in_bucket "/opt") pkgs)) = Ok a /\
    Pacsize.sum_from (PyInt 0) (map snd (filter (in_bucket "/usr") pkgs)) = Ok b.
Proof.
  apply tally_totals.
Qed.

Lemma bucket_totals_witness :
  exists a b,
    [("/opt", PyFloat (B64.of_Z 2048)); ("/usr", PyFloat (B64.of_Z 1024))]
    = [("/opt", a); ("/usr", b)] /\
    Pacsize.sum_from (PyInt 0)
      (map snd (filter (in_bucket "/opt")
                  [("rocm-core", PyFloat (B64.of_Z 2048)); ("glibc", PyFloat (B64.of_Z 1024))]))
    = Ok a /\
    Pacsize.sum_from (PyInt 0)
      (map snd (filter (in_bucket "/usr")
                  [("rocm-core", PyFloat (B64.of_Z 2048)); ("glibc", PyFloat (B64.of_Z 1024))]))
    = Ok b.
Proof.
  apply (bucket_totals
           [("rocm-core", PyFloat (B64.of_Z 2048)); ("glibc", PyFloat (B64.of_Z 1024))]).
  vm_compute. reflexivity.
Defined.

(** ** The order of the table *)

Lemma ltb_scaled (s t : bool) (m e n f k : Z) :
  k <= e -> k <= f ->
  B64.ltb (B64.Fin s m e) (B64.Fin t n f) =
  (B64.signed s m * 2 ^ (e - k) <? B64.signed t n * 2 ^ (f - k)).
Proof.
  intros He Hf. cbn [B64.ltb]. cbv zeta.
  set (k0 := Z.min e f). set (a := B64.signed s m). set (b := B64.signed t n).
  replace (e - k) with ((e - k0) + (k0 - k)) by lia.
  replace (f - k) with ((f - k0) + (k0 - k)) by lia.
  rewrite !Z.pow_add_r by lia. rewrite !Z.mul_assoc.
  assert (Hq : 0 < 2 ^ (k0 - k)) by (apply Z.pow_pos_nonneg; lia).
  destruct (Z.ltb_spec (a * 2 ^ (e - k0)) (b * 2 ^ (f - k0))) as [H | H];
    symmetry; [apply Z.ltb_lt | apply Z.ltb_ge].
  - apply Z.mul_lt_mono_pos_r; assumption.
  - apply Z.mul_le_mono_nonneg_r; [lia | assumption].
Qed.

Lemma ltb_negative_transitive (x y z : B64.float) :
  y <> B64.Nan ->
  B64.ltb x y = false -> B64.ltb y z = false -> B64.ltb x z = false.
Proof.
  intros Hy.
  destruct x as [| s | s m e], y as [| t | t n f], z as [| u | u p g];
    try (exfalso; apply Hy; reflexivity);
    try (cbn [B64.ltb]; reflexivity);
    try (cbn [B64.ltb]; destruct s, t, u; cbn; congruence);
    try (cbn [B64.ltb]; destruct s, t; cbn; congruence);
    try (cbn [B64.ltb]; destruct t, u; cbn; congruence);
    try (cbn [B64.ltb]; destruct s, u; cbn; congruence);
    try (cbn [B64.ltb]; destruct s; cbn; congruence);
    try (cbn [B64.ltb]; destruct t; cbn; congruence);
    try (cbn [B64.ltb]; destruct u; cbn; congruence).
  set (k := Z.min e (Z.min f g)).
  rewrite (ltb_scaled s t m e n f k), (ltb_scaled t u n f p g k),
    (ltb_scaled s u m e p g k) by lia.
  intros H1 H2. apply Z.ltb_ge in H1, H2. apply Z.ltb_ge. lia.
Qed.

Lemma lt_negative_transitive (a b c : pynum) :
  is_nan b = false ->
  Num.lt a b = false -> Num.lt b c = false -> Num.lt a c = false.
Proof.
  intros Hb. apply ltb_negative_transitive.
  destruct b as [z | [| s | s m e]]; cbn [Num.exact]; discriminate.
Qed.

Lemma ltb_asymmetric (x y : B64.float) : B64.ltb x y = true -> B64.ltb y x = false.
Proof.
  destruct x as [| s | s m e], y as [| t | t n f]; cbn [B64.ltb]; try reflexivity;
    try discriminate.
  - destruct s, t; try discriminate; reflexivity.
  - intros ->. reflexivity.
  - destruct t; [discriminate | reflexivity].
  - cbv zeta. rewrite (Z.min_comm f e). intros H. apply Z.ltb_lt in H.
    apply Z.ltb_ge. lia.
Qed.

Lemma lt_asymmetric (a b : pynum) : Num.lt a b = true -> Num.lt b a = false.
Proof. apply ltb_asymmetric. Qed.

Lemma eqb_not_nan (a v : pynum) : Num.eqb a v = true -> is_nan v = false.
Proof.
  unfold Num.eqb. intros H. apply andb_prop in H. destruct H as [_ H].
  destruct v as [z | [| s | s m e]]; try reflexivity.
  destruct (Num.exact a); discriminate.
Qed.

Lemma eqb_sides (a v : pynum) :
  Num.eqb a v = true -> Num.lt a v = false /\ Num.lt v a = false.
Proof.
  unfold Num.eqb. intros H. apply andb_prop in H. destruct H as [H _].
  apply andb_prop in H. destruct H as [H1 H2].
  split; [destruct (Num.lt a v) | destruct (Num.lt v a)]; try reflexivity; discriminate.
Qed.

Lemma insert_desc_Forall (P : string * pynum -> Prop) (x : string * pynum)
      (l : list (string * pynum)) :
  P x -> Forall P l -> Forall P (Pacsize.insert_desc x l).
Proof.
  intros Hx. induction 1 as [| y r Hy Hr IH]; cbn [Pacsize.insert_desc].
  - repeat constructor. exact Hx.
  - destruct (Num.lt (snd x) (snd y)); repeat constructor; assumption.
Qed.

Lemma insert_desc_StronglySorted (x : string * pynum) (l : list (string * pynum)) :
  Forall (fun p => is_nan (snd p) = false) l ->
  StronglySorted not_smaller l ->
  StronglySorted not_smaller (Pacsize.insert_desc x l).
Proof.
  intros Hn Hs. induction Hs as [| y r Hr IH Hy]; cbn [Pacsize.insert_desc].
  - repeat constructor.
  - inversion Hn as [| y' r' Hny Hnr]; subst.
    destruct (Num.lt (snd x) (snd y)) eqn:E.
    + constructor; [exact (IH Hnr) |].
      apply insert_desc_Forall; [apply lt_asymmetric, E | exact Hy].
    + constructor; [constructor; assumption |].
      constructor; [exact E |].
      apply Forall_forall. intros z Hz. rewrite Forall_forall in Hy.
      exact (lt_negative_transitive (snd x) (snd y) (snd z) Hny E (Hy z Hz)).
Qed.

Lemma filter_insert_desc (v : pynum) (x : string * pynum) (l : list (string * pynum)) :
  filter (same_size v) (Pacsize.insert_desc x l) = filter (same_size v) (x :: l).
Proof.
  induction l as [| y r IH]; cbn [Pacsize.insert_desc]; [reflexivity |].
  destruct (Num.lt (snd x) (snd y)) eqn:E; [| reflexivity].
  cbn [filter] in *. rewrite IH.
  destruct (same_size v x) eqn:Fx; [| reflexivity].
  destruct (same_size v y) eqn:Fy; [| reflexivity].
  exfalso. unfold same_size in Fx, Fy.
  destruct (eqb_sides _ _ Fx) as [Hxv _]. destruct (eqb_sides _ _ Fy) as [_ Hvy].
  rewrite (lt_negative_transitive (snd x) v (snd y) (eqb_not_nan _ _ Fx) Hxv Hvy) in E.
  discriminate.
Qed.

Lemma sorted_desc_stable (v : pynum) (items : list (string * pynum)) :
  filter (same_size v) (Pacsize.sorted_desc items) = filter (same_size v) items.
Proof.
  unfold Pacsize.sorted_desc. induction items as [| x r IH]; cbn [fold_right];
    [reflexivity |].
  rewrite filter_insert_desc. cbn [filter]. rewrite IH. reflexivity.
Qed.

(** X22: when no size is a NaN, the sorted package list is the stable
    sort of the items of the size map by decreasing size: a rearrangement
    of the items, none lost and none added, in which no package comes
    anywhere before one of a greater size, and in which the packages of
    one size keep the order they have in the size map. *)
Theorem sorted_desc_sorts (items : list (string * pynum)) :
  Forall (fun p => is_nan (snd p) = false) items ->
  Permutation items (Pacsize.sorted_desc items) /\
  StronglySorted not_smaller (Pacsize.sorted_desc items) /\
  (forall v, filter (same_size v) (Pacsize.sorted_desc items) = filter (same_size v) items).
Proof.
  intros Hn. split; [apply sorted_desc_Permutation |].
  split; [| intros v; apply sorted_desc_stable].
  induction Hn as [| x r Hx Hr IH].
  - constructor.
  - change (Pacsize.sorted_desc (x :: r))
      with (Pacsize.insert_desc x (Pacsize.sorted_desc r)).
    apply insert_desc_StronglySorted; [| exact IH].
    exact (Permutation_Forall (sorted_desc_Permutation r) Hr).
Qed.

Lemma sorted_desc_sorts_witness :
  StronglySorted not_smaller
    (Pacsize.sorted_desc [("a", PyFloat (B64.of_Z 1)); ("b", PyFloat (B64.of_Z 2));
                          ("c", PyFloat (B64.of_Z 1)); ("d", PyInt 0);
                          ("e", PyFloat (B64.Inf false))]).
Proof.
  apply (sorted_desc_sorts
           [("a", PyFloat (B64.of_Z 1)); ("b", PyFloat (B64.of_Z 2));
            ("c", PyFloat (B64.of_Z 1)); ("d", PyInt 0);
            ("e", PyFloat (B64.Inf false))]).
  repeat constructor.
Defined.

(** ** The location heuristic, both ways *)

Lemma startswith_prefix (p s : string) :
  Str.startswith p s = true <-> exists rest, s = (p ++ rest)%string.
Proof.
  revert s. induction p as [| a p IH]; intros s; cbn [Str.startswith append].
  - split; [intros _; exists s; reflexivity | reflexivity].
  - destruct s as [| b s]; [split; [discriminate | intros [r H]; discriminate] |].
    split.
    + intros H. apply andb_prop in H. destruct H as [Hab Hp].
      apply Ascii.eqb_eq in Hab. subst b. apply IH in Hp. destruct Hp as [r ->].
      exists r. reflexivity.
    + intros [r H]. injection H as -> ->. rewrite Ascii.eqb_refl. cbn [andb].
      apply IH. exists r. reflexivity.
Qed.

(** X23: [guess_location] answers "/opt" exactly for the names that start
    with one of hip-, hsa-, miopen-, rccl, comgr, roc, amd, migraphx,
    mivisionx (the alternative rocm- of the pattern adds nothing to roc),
    and "/usr" exactly for the names that start with none of them. *)
Theorem opt_iff_prefix (name : string) :
  (Pacsize.guess_location name = "/opt" <->
   exists p rest, In p opt_prefixes /\ name = (p ++ rest)%string) /\
  (Pacsize.guess_location name = "/usr" <->
   forall p rest, In p opt_prefixes -> name <> (p ++ rest)%string).
Proof.
  assert (A : Pacsize.guess_location name = "/opt" <->
              exists p rest, In p opt_prefixes /\ name = (p ++ rest)%string).
  { split.
    - unfold Pacsize.guess_location.
      destruct (existsb _ _) eqn:E; [| discriminate]. intros _.
      apply existsb_exists in E. destruct E as (p & Hin & Hp).
      cbn [Pacsize.opt_pattern In] in Hin.
      destruct Hin as [<- | Hin].
      + apply startswith_prefix in Hp. destruct Hp as [r ->].
        exists "roc", ("m-" ++ r)%string. split; [cbn; tauto | reflexivity].
      + apply startswith_prefix in Hp. destruct Hp as [r ->].
        exists p, r. split; [cbn [opt_prefixes In]; tauto | reflexivity].
    - intros (p & r & Hin & ->).
      apply (guess_location_prefix p); [cbn [opt_prefixes In] in Hin; cbn; tauto |].
      apply startswith_prefix. exists r. reflexivity. }
  split; [exact A |].
  split.
  - intros H p r Hin ->.
    assert (O : Pacsize.guess_location (p ++ r) = "/opt")
      by (apply A; exists p, r; split; [exact Hin | reflexivity]).
    rewrite O in H. discriminate.
  - intros H. destruct (guess_location_range name) as [O | U]; [| exact U].
    apply A in O. destruct O as (p & r & Hin & E). destruct (H p r Hin E).
Qed.

(** ** The commands the programs run *)

Lemma commands_app (a b : list event) :
  commands (a ++ b) = (commands a ++ commands b)%list.
Proof. apply flat_map_app. Qed.

Lemma prints_run_nothing (t : list event) :
  forallb is_print t = true -> commands t = [].
Proof.
  induction t as [| [text | cmd] r IH]; cbn [forallb is_print andb];
    [reflexivity | exact IH | discriminate].
Qed.

Lemma quiet_bind {A B : Type} (m : io A) (k : A -> io B) :
  commands (fst m) = [] -> (forall a, commands (fst (k a)) = []) ->
  commands (fst (bind m k)) = [].
Proof.
  intros Hm Hk. rewrite fst_bind. destruct (snd m) as [a | e]; [| exact Hm].
  rewrite commands_app, Hm, (Hk a). reflexivity.
Qed.

Lemma distribute_quiet (size_map : dict pynum) :
  commands (fst (Pacsize.distribute size_map)) = [].
Proof.
  unfold Pacsize.distribute. cbv zeta.
  apply quiet_bind; [reflexivity | intros _].
  apply quiet_bind; [reflexivity | intros _].
  apply quiet_bind;
    [apply prints_run_nothing, (tally_rows (Pacsize.sorted_desc size_map)); lia |].
  intros stats. repeat (apply quiet_bind; [reflexivity | intros ?]). reflexivity.
Qed.

Lemma report_quiet (d : Pacsize.distribution) :
  commands (fst (Pacsize.report d)) = [].
Proof.
  unfold Pacsize.report.
  repeat (apply quiet_bind; [reflexivity | intros ?]). reflexivity.
Qed.

(** X24: [main] of pacsize.py runs no command when pactree is missing;
    otherwise it runs pactree once and then, if there are dependencies,
    pacman once, with all the names in one command line; the table and the
    report run nothing. *)
Theorem pacsize_commands (w : world) :
  commands (fst (Pacsize.main w)) =
  if which w "pactree" then
    match snd (Pacsize.get_all_dependencies w "rocm-hip-sdk") with
    | Ok (d :: ds) => [pactree_cmd; pacman_cmd (d :: ds)]
    | _ => [pactree_cmd]
    end
  else [].
Proof.
  assert (Tail : forall sizes,
             commands (fst (do d <- Pacsize.distribute sizes ; Pacsize.report d)) = []).
  { intros sizes. apply quiet_bind; [apply distribute_quiet | apply report_quiet]. }
  unfold Pacsize.main. cbv zeta. rewrite fst_bind.
  unfold Pacsize.get_all_dependencies.
  destruct (which w "pactree"); cbn [negb]; [| reflexivity].
  unfold subprocess_run. fold pactree_cmd.
  destruct (run w pactree_cmd) as [r |]; [| reflexivity].
  cbn [bind print ret fst snd app].
  set (deps := filter (fun l => negb (Str.is_empty l))
                 (map Str.strip (Str.splitlines (stdout r)))).
  match goal with
  | |- context [let (t', r0) := ?X in (Print "Querying package sizes..." :: t', r0)] =>
      assert (HX : commands (fst X) =
                   match deps with
                   | [] => []
                   | d :: ds => [pacman_cmd (d :: ds)]
                   end);
      [| destruct X as [tx rx]; cbn [fst] in HX; unfold commands in *;
         cbn [fst flat_map app]; rewrite HX; destruct deps; reflexivity]
  end.
  rewrite fst_bind. destruct deps as [| d ds].
  - cbn [Pacsize.get_installed_size_batch ret fst snd app]. apply Tail.
  - unfold Pacsize.get_installed_size_batch.
    change (["pacman"; "-Si"] ++ d :: ds)%list with (pacman_cmd (d :: ds)).
    destruct (run w (pacman_cmd (d :: ds))) as [res |]; [| reflexivity].
    cbn [fst snd]. destruct (Pacsize.parse_blocks (stdout res)) as [sizes | e];
      [| reflexivity].
    rewrite commands_app, (Tail sizes). reflexivity.
Qed.

(** X25: [main] of pacremove.py runs at most one command, the dry run
    [sudo pacman -Rcs -p --print-format %s] of its first argument, and none
    at all without an argument: nothing is ever removed. *)
Theorem pacremove_commands (w : world) (argv : list string) :
  commands (fst (Pacremove.main w argv)) =
  match argv with
  | _ :: pkg :: _ => [removal_cmd pkg]
  | _ => []
  end.
Proof.
  destruct argv as [| prog [| pkg rest]]; [reflexivity | reflexivity |].
  unfold Pacremove.main, Pacremove.get_removal_size. fold (removal_cmd pkg).
  destruct (run w (removal_cmd pkg)) as [r |]; [| reflexivity].
  destruct (negb (returncode r =? 0)); [reflexivity |].
  rewrite sum_lines_total.
  destruct (existsb over_limit (Str.splitlines (stdout r))); [reflexivity |].
  cbn [bind print lift ret].
  destruct (Pacremove.format_size _); reflexivity.
Qed.

(** ** Every printed size can be read back *)

Lemma round_proper (neg : bool) (p q : Z) :
  0 <= p -> 0 < q -> proper (B64.round neg p q).
Proof.
  intros Hp Hq. unfold B64.round. destruct (p =? 0); [cbn; lia |]. cbv zeta.
  set (e := Z.max (B64.ilog2 p q - 52) B64.emin).
  assert (Hm : 0 <= B64.round_half_even (B64.shl p (- e)) (B64.shl q e)).
  { unfold B64.shl.
    pose proof (pow2_pos (Z.max 0 (- e)) ltac:(lia)).
    pose proof (pow2_pos (Z.max 0 e) ltac:(lia)).
    apply round_half_even_lower; nia. }
  destruct (_ =? 2 ^ 53).
  - destruct (B64.emax <? e + 1); cbn; [exact I | lia].
  - destruct (B64.emax <? e); cbn; [exact I | exact Hm].
Qed.

Lemma div_1024_proper (x : B64.float) : proper x -> proper (B64.div x f1024).
Proof.
  destruct x as [| s | s m e]; cbn [B64.div f1024 proper]; try (intros _; exact I).
  intros Hm. change (2 ^ 52 =? 0) with false. cbv iota.
  apply round_proper; unfold B64.shl.
  - pose proof (pow2_pos (Z.max 0 (e - -42)) ltac:(lia)). nia.
  - pose proof (pow2_pos (Z.max 0 (-42 - e)) ltac:(lia)). lia.
Qed.

Lemma format_loop_proper (us : list string) (last : string) :
  forall x,
    proper x ->
    exists x' unit,
      proper x' /\ In unit (us ++ [last]) /\
      format_loop us last (PyFloat x) = Ok (B64.format_f 2 x' ++ " " ++ unit).
Proof.
  induction us as [| u rest IH]; intros x Hx; cbn [format_loop app].
  - exists x, last. repeat split; [exact Hx | left; reflexivity].
  - destruct (Num.lt (PyFloat x) (PyFloat f1024)).
    + exists x, u. repeat split; [exact Hx | left; reflexivity].
    + rewrite truediv_float_1024. cbn [rbind].
      destruct (IH (B64.div x f1024) (div_1024_proper x Hx)) as (x' & unit & P & Hin & E).
      exists x', unit. repeat split; [exact P | right; exact Hin | exact E].
Qed.

Lemma of_string_minus_fixed (n : Z) :
  0 <= n -> B64.of_string ("-" ++ B64.fixed 2 n) = Ok (B64.round true n 100).
Proof.
  intros Hn. pose proof (fixed_word n Hn) as Hw.
  unfold is_word in Hw. apply andb_prop in Hw. destruct Hw as [_ Hw].
  unfold B64.of_string.
  rewrite (strip_word ("-" ++ B64.fixed 2 n))
    by (change ("-" ++ B64.fixed 2 n) with (String "-" (B64.fixed 2 n));
        cbn [Str.all_chars]; rewrite Hw; reflexivity).
  change ("-" ++ B64.fixed 2 n) with (String "-" (B64.fixed 2 n)).
  change (Str.sign (String "-" (B64.fixed 2 n))) with (true, B64.fixed 2 n).
  destruct (fixed_text n Hn) as (ds & Hne & Hd & Hv & ->).
  destruct (digit_char_digit (n / 10 mod 10)) as [D1 V1];
    [pose proof (Z.mod_pos_bound (n / 10) 10); lia |].
  destruct (digit_char_digit (n mod 10)) as [D0 V0];
    [pose proof (Z.mod_pos_bound n 10); lia |].
  set (d1 := Str.digit_char (n / 10 mod 10)) in *.
  set (d0 := Str.digit_char (n mod 10)) in *.
  set (tail := String "." (Str.of_chars [d1; d0])).
  assert (Hnum : B64.number (Str.of_chars ds ++ tail) = Some (ds, [d1; d0], "")).
  { unfold B64.number, tail.
    rewrite (digitpart_run ds _ Hne Hd) by (right; eexists; reflexivity).
    rewrite <- (append_empty (Str.of_chars [d1; d0])).
    rewrite (digitpart_run [d1; d0] "") by
      (try discriminate; try (left; reflexivity);
       cbn [forallb]; rewrite D1, D0; reflexivity).
    reflexivity. }
  destruct ds as [| c r]; [contradiction |].
  cbn [forallb] in Hd. apply andb_prop in Hd. destruct Hd as [Hc Hr].
  change (Str.of_chars (c :: r) ++ tail)%string
    with (String c (Str.of_chars r ++ tail)) in *.
  destruct (digit_head_no_keyword c (Str.of_chars r ++ tail) Hc) as (K1 & K2 & K3).
  rewrite K1, K2, K3. cbn [orb]. rewrite Hnum.
  cbn [B64.exponent List.length]. change (0 - Z.of_nat 2) with (-2).
  change (Z.max 0 (-2)) with 0. change (Z.max 0 (- -2)) with 2.
  change (10 ^ 0) with 1. change (10 ^ 2) with 100.
  do 2 f_equal.
  replace ((c :: r) ++ [d1; d0])%list with (((c :: r) ++ [d1]) ++ [d0])%list
    by (rewrite <- app_assoc; reflexivity).
  rewrite !digits_value_snoc, Hv, V1, V0.
  pose proof (Z.div_mod n 10 ltac:(lia)).
  pose proof (Z.div_mod (n / 10) 10 ltac:(lia)).
  replace (n / 100) with (n / 10 / 10) by (rewrite Z.div_div by lia; reflexivity).
  lia.
Qed.

Lemma format_f_read_back (x : B64.float) :
  proper x ->
  is_word (B64.format_f 2 x) = true /\
  exists y, B64.of_string (B64.format_f 2 x) = Ok y.
Proof.
  destruct x as [| s | s m e]; cbn [proper B64.format_f].
  - intros _. split; [reflexivity | eexists; reflexivity].
  - intros _. destruct s; (split; [reflexivity | eexists; reflexivity]).
  - intros Hm. change (10 ^ Z.of_nat 2) with 100.
    set (n := B64.round_half_even (B64.shl (m * 100) e) (B64.shl 1 (- e))).
    assert (Hn : 0 <= n).
    { unfold n, B64.shl.
      pose proof (pow2_pos (Z.max 0 e) ltac:(lia)).
      pose proof (pow2_pos (Z.max 0 (- e)) ltac:(lia)).
      apply round_half_even_lower; nia. }
    pose proof (fixed_word n Hn) as Hw. destruct s.
    + split; [| eexists; apply (of_string_minus_fixed n Hn)].
      unfold is_word in *. apply andb_prop in Hw. destruct Hw as [_ Hw].
      change ("-" ++ B64.fixed 2 n) with (String "-" (B64.fixed 2 n)).
      cbn [Str.is_empty negb andb Str.all_chars]. rewrite Hw. reflexivity.
    + split; [exact Hw | eexists; apply (of_string_fixed n Hn)].
Qed.

Lemma parse_size_of_rendering (x : B64.float) (unit : string) :
  proper x -> is_word unit = true ->
  exists y, Pacsize.parse_size (B64.format_f 2 x ++ " " ++ unit) = Ok (PyFloat y).
Proof.
  intros Hx Hu. destruct (format_f_read_back x Hx) as (Hw & y & Hy).
  unfold Pacsize.parse_size. cbv zeta.
  rewrite (split_two_words _ _ Hw Hu). cbn [List.length Nat.eqb negb nth].
  rewrite Hy. cbn [rbind]. unfold Num.mul.
  destruct (multiplier_to_float unit) as [k ->]. eexists. reflexivity.
Qed.

(** X26: whatever float [format_size] is given (either copy; a float in
    the representation every operation produces, its sign kept apart from
    a mantissa that is not negative), [parse_size] reads the text it prints
    as a float: the text is always two words, a number that [float] accepts
    ("nan", "inf" and "-inf" included) and a unit, so the round trip never
    raises and never falls back to 0. *)
Theorem printed_sizes_are_read_back (x : B64.float) :
  proper x ->
  (exists text y,
      Pacsize.format_size (PyFloat x) = Ok text /\
      Pacsize.parse_size text = Ok (PyFloat y)) /\
  (exists text y,
      Pacremove.format_size (PyFloat x) = Ok text /\
      Pacsize.parse_size text = Ok (PyFloat y)).
Proof.
  intros Hx. unfold Pacsize.format_size, Pacremove.format_size.
  split.
  - destruct (format_loop_proper ["B"; "KiB"; "MiB"; "GiB"] "TiB" x Hx)
      as (x' & unit & P & Hin & E).
    assert (Hu : is_word unit = true).
    { cbn [app In] in Hin.
      repeat (destruct Hin as [<- | Hin]; [reflexivity |]). contradiction. }
    destruct (parse_size_of_rendering x' unit P Hu) as [y Hy].
    eexists. exists y. split; [exact E | exact Hy].
  - destruct (format_loop_proper ["B"; "KiB"; "MiB"; "GiB"; "TiB"] "TiB" x Hx)
      as (x' & unit & P & Hin & E).
    assert (Hu : is_word unit = true).
    { cbn [app In] in Hin.
      repeat (destruct Hin as [<- | Hin]; [reflexivity |]). contradiction. }
    destruct (parse_size_of_rendering x' unit P Hu) as [y Hy].
    eexists. exists y. split; [exact E | exact Hy].
Qed.

Lemma printed_sizes_are_read_back_witness :
  (exists text y,
      Pacsize.format_size (PyFloat (B64.Inf false)) = Ok text /\
      Pacsize.parse_size text = Ok (PyFloat y)) /\
  (exists text y,
      Pacremove.format_size (PyFloat (B64.Inf false)) = Ok text /\
      Pacsize.parse_size text = Ok (PyFloat y)).
Proof.
  apply (printed_sizes_are_read_back (B64.Inf false)). exact I.
Defined.

(** ** The percentages of a bucket that holds everything or nothing *)

Lemma positive_float_gt_zero (m e : Z) :
  0 < m -> Num.gt (PyFloat (B64.Fin false m e)) (PyInt 0) = true.
Proof.
  intros Hm. unfold Num.gt, Num.lt. cbn [Num.exact]. change (0 <? 0) with false.
  cbn [Z.abs B64.ltb B64.signed]. cbv zeta. apply Z.ltb_lt.
  pose proof (pow2_pos (e - Z.min 0 e) ltac:(lia)). nia.
Qed.

Lemma format_hundred (e : Z) :
  e <= 0 -> B64.format_f 1 (B64.Fin false (100 * 2 ^ (- e)) e) = "100.0".
Proof.
  intros He. cbn [B64.format_f]. change (10 ^ Z.of_nat 1) with 10.
  unfold B64.shl. rewrite (Z.max_l 0 e), (Z.max_r 0 (- e)), Z.pow_0_r by lia.
  replace (100 * 2 ^ (- e) * 10 * 1) with (1000 * (1 * 2 ^ (- e))) by ring.
  rewrite round_half_even_exact by (pose proof (pow2_pos (- e) ltac:(lia)); lia).
  reflexivity.
Qed.

Lemma whole_bucket_is_100 (m e : Z) :
  0 < m ->
  exists p,
    (let? q := Num.truediv (PyFloat (B64.Fin false m e)) (PyFloat (B64.Fin false m e)) in
     Num.mul q (PyInt 100)) = Ok p /\
    Num.format_f 1 p = Ok "100.0".
Proof.
  intros Hm. unfold Num.truediv. cbn [Num.is_zero B64.is_zero].
  destruct (Z.eqb_spec m 0) as [E0 | _]; [lia |].
  cbn [Num.to_float rbind B64.div]. destruct (Z.eqb_spec m 0) as [E0 | _]; [lia |].
  cbn [xorb]. replace (e - e) with 0 by lia.
  destruct (round_exact false (B64.shl m 0) (B64.shl m 0) 1 0 0) as (e1 & He1 & Hb1 & E1);
    try (unfold B64.emin, B64.emax; lia).
  { unfold B64.shl. cbn. lia. }
  rewrite E1. unfold Num.mul. cbn [Num.to_float rbind].
  change (B64.of_Z 100) with (B64.Fin false (100 * 2 ^ 46) (-46)).
  cbv iota. cbn [rbind B64.mul xorb].
  unfold B64.emin in He1. replace (0 - 0 - e1) with (- e1) in * by lia.
  rewrite Z.mul_1_l in *.
  assert (He1' : -53 < e1).
  { destruct (Z_lt_le_dec (-53) e1) as [C | C]; [exact C |].
    assert (2 ^ 53 <= 2 ^ (- e1)) by (apply pow2_le; lia). lia. }
  destruct (round_exact false (B64.shl (2 ^ (- e1) * (100 * 2 ^ 46)) (e1 + -46))
              (B64.shl 1 (- (e1 + -46))) 100 0 0) as (e2 & He2 & Hb2 & E2);
    try (unfold B64.emin, B64.emax; lia).
  { unfold B64.shl. pose proof (pow2_pos (Z.max 0 (- (e1 + -46))) ltac:(lia)). lia. }
  { unfold B64.shl. rewrite (Z.max_l 0 (e1 + -46)), (Z.max_r 0 (- (e1 + -46))) by lia.
    rewrite !Z.pow_0_r. replace (- (e1 + -46)) with (- e1 + 46) by lia.
    rewrite pow2_add by lia. ring. }
  rewrite E2. eexists. split; [reflexivity |].
  unfold Num.format_f. cbn [Num.to_float rbind].
  replace (0 - 0 - e2) with (- e2) by lia. unfold B64.emin in He2.
  rewrite format_hundred by lia. reflexivity.
Qed.

Lemma empty_bucket_is_0 (m e : Z) :
  0 < m ->
  exists p,
    (let? q := Num.truediv (PyInt 0) (PyFloat (B64.Fin false m e)) in
     Num.mul q (PyInt 100)) = Ok p /\
    Num.format_f 1 p = Ok "0.0".
Proof.
  intros Hm. unfold Num.truediv. cbn [Num.is_zero B64.is_zero].
  destruct (Z.eqb_spec m 0) as [E0 | _]; [lia |].
  change (Num.to_float (PyInt 0)) with (Ok (B64.Fin false 0 B64.emin)).
  cbn [Num.to_float rbind B64.div]. destruct (Z.eqb_spec m 0) as [E0 | _]; [lia |].
  unfold B64.shl at 1. rewrite Z.mul_0_l. unfold B64.round at 1.
  change (0 =? 0) with true. cbv iota. cbn [xorb].
  eexists. split; reflexivity.
Qed.

(** X27: for a positive finite total, the percentage of a bucket that
    holds the whole total is printed as "100.0" and the percentage of a
    bucket that holds the int 0 as "0.0". *)
Theorem whole_and_empty_buckets (stats : dict pynum) (key : string) (m e : Z) :
  0 < m ->
  (Dict.get stats key = Some (PyFloat (B64.Fin false m e)) ->
   exists p, Pacsize.percent stats key (PyFloat (B64.Fin false m e)) = Ok p /\
             Num.format_f 1 p = Ok "100.0") /\
  (Dict.get stats key = Some (PyInt 0) ->
   exists p, Pacsize.percent stats key (PyFloat (B64.Fin false m e)) = Ok p /\
             Num.format_f 1 p = Ok "0.0").
Proof.
  intros Hm. unfold Pacsize.percent, Dict.item.
  rewrite (positive_float_gt_zero m e Hm).
  split; intros ->; cbn [rbind];
    [apply whole_bucket_is_100 | apply empty_bucket_is_0]; exact Hm.
Qed.

Lemma whole_and_empty_buckets_witness :
  exists p,
    Pacsize.percent [("/opt", PyInt 0); ("/usr", PyFloat (B64.Fin false 3 9))] "/usr"
      (PyFloat (B64.Fin false 3 9)) = Ok p /\
    Num.format_f 1 p = Ok "100.0".
Proof.
  apply (proj1 (whole_and_empty_buckets
                  [("/opt", PyInt 0); ("/usr", PyFloat (B64.Fin false 3 9))] "/usr" 3 9
                  eq_refl)).
  reflexivity.
Defined.
